(** * PKI-based 2FA microservice: a shallow embedding of [src/crypto_utils.py],
      [src/app.py] and [scripts/generate_proof.py]

    The Python standard library ([bytes], [str], [base64], [hashlib], [hmac]),
    [pyotp] and the RSA primitives of [cryptography] are modelled first, each in
    a module of its own; the functions of the repository follow, line by line,
    in [Config], [CryptoUtils], [App] and [GenerateProof]. *)

From Stdlib Require Import ZArith Zbitwise String Ascii Bool Lia List.
From Stdlib Require Import Strings.Byte.
Import ListNotations.
Local Open Scope Z_scope.

(* ================================================================== *)
(** ** Python values, exceptions and built-ins *)
(* ================================================================== *)

Module Py.

(** [bytes]: a sequence of octets. *)
Definition bytes := list byte.

(** [str]: a sequence of Unicode code points. *)
Definition str := list Z.

(** A literal of the source, as a [str]. *)
Definition u (s : string) : str :=
  map (fun a => Z.of_N (N_of_ascii a)) (list_ascii_of_string s).

Definition b2z (b : byte) : Z := Z.of_N (Byte.to_N b).

Definition z2b (z : Z) : byte :=
  match Byte.of_N (Z.to_N (z mod 256)) with
  | Some b => b
  | None => x00
  end.

(** The exceptions the modelled code can raise.  [BinasciiError],
    [UnicodeDecodeError] and [UnicodeEncodeError] are subclasses of
    [ValueError] in Python; they stay distinct classes here. *)
Inductive exn : Type :=
| ValueError (msg : str)
| BinasciiError (msg : str)
| UnicodeDecodeError
| UnicodeEncodeError
| UnsupportedAlgorithm.

Inductive result (A : Type) : Type :=
| Ok (a : A)
| Raise (e : exn).
Arguments Ok {A} a.
Arguments Raise {A} e.

Definition bind {A B} (r : result A) (k : A -> result B) : result B :=
  match r with
  | Ok a => k a
  | Raise e => Raise e
  end.

Definition is_ok {A} (r : result A) : bool :=
  match r with Ok _ => true | Raise _ => false end.

Definition len {A} (l : list A) : Z := Z.of_nat (length l).

(** [c in s] for a one-character [c]. *)
Definition char_in (c : Z) (s : str) : bool := existsb (Z.eqb c) s.

Definition is_ascii (c : Z) : bool := (0 <=? c) && (c <? 128).

(** *** [str(int)] *)

Definition digit_char (d : Z) : Z := 48 + d.

Fixpoint digits_fuel (fuel : nat) (n : Z) (acc : str) : str :=
  match fuel with
  | O => digit_char (n mod 10) :: acc
  | S fuel' =>
      if n <? 10 then digit_char n :: acc
      else digits_fuel fuel' (n / 10) (digit_char (n mod 10) :: acc)
  end.

(** Decimal digits of a non-negative integer, most significant first. *)
Definition digits (n : Z) : str :=
  digits_fuel (Z.to_nat (Z.log2 n)) n [].

Definition str_of_int (n : Z) : str :=
  if n <? 0 then 45 :: digits (- n) else digits n.

(** *** Slicing: [s[-d:]] *)
Definition slice_last {A} (d : Z) (s : list A) : list A :=
  if d =? 0 then s else skipn (length s - Z.to_nat d) s.

(** *** [str.lower]

    ASCII letters are lowered by the code below.  The lowercase mapping of the
    other code points is data of the Unicode character database, which the
    interpreter consults per character and, for capital sigma, with the
    surrounding text; it is a field of [UnicodeData], together with the NFKC
    normalisation that [pyotp] applies before it compares two codes. *)

Definition ascii_lower (c : Z) : Z :=
  if (65 <=? c) && (c <=? 90) then c + 32 else c.

Definition lower_hexdigits : str := u "0123456789abcdef".

Record UnicodeData : Type := {
  (** [to_lower_full s i c]: the lowercase expansion of the non-ASCII code
      point [c] found at index [i] of [s]. *)
  to_lower_full : str -> nat -> Z -> str;
  (** [unicodedata.normalize("NFKC", s)]. *)
  NFKC : str -> str;
  (** The expansion of a code point is never empty. *)
  to_lower_full_nonempty : forall s i c, 128 <= c -> to_lower_full s i c <> [];
  (** No non-ASCII code point lowers to a hexadecimal digit: the only ones with
      an ASCII letter in their expansion are U+0130 (i) and U+212A (k). *)
  to_lower_full_not_hex : forall s i c d,
      128 <= c -> In d (to_lower_full s i c) -> char_in d lower_hexdigits = false;
  (** ASCII text is in normal form. *)
  NFKC_ascii : forall s, forallb is_ascii s = true -> NFKC s = s
}.

Fixpoint lower_from (U : UnicodeData) (whole : str) (i : nat) (s : str) : str :=
  match s with
  | [] => []
  | c :: rest =>
      (if c <? 128 then [ascii_lower c] else to_lower_full U whole i c)
        ++ lower_from U whole (S i) rest
  end.

Definition lower (U : UnicodeData) (s : str) : str := lower_from U s 0%nat s.

(** *** [str.encode('utf-8')] and [bytes.decode('utf-8')] *)

Definition is_surrogate (c : Z) : bool := (55296 <=? c) && (c <=? 57343).

Definition cont (z : Z) : byte := z2b (128 + z mod 64).

Definition encode_cp (c : Z) : result bytes :=
  if (c <? 0) || (1114111 <? c) || is_surrogate c then Raise UnicodeEncodeError
  else if c <? 128 then Ok [z2b c]
  else if c <? 2048 then Ok [z2b (192 + c / 64); cont c]
  else if c <? 65536 then Ok [z2b (224 + c / 4096); cont (c / 64); cont c]
  else Ok [z2b (240 + c / 262144); cont (c / 4096); cont (c / 64); cont c].

Fixpoint encode_utf8 (s : str) : result bytes :=
  match s with
  | [] => Ok []
  | c :: rest =>
      bind (encode_cp c) (fun bs =>
      bind (encode_utf8 rest) (fun tl => Ok (bs ++ tl)))
  end.

Definition in_range (lo hi z : Z) : bool := (lo <=? z) && (z <=? hi).

(** Strict decoding: overlong forms, surrogates and code points above U+10FFFF
    are errors. *)
Fixpoint decode_utf8 (bs : bytes) : result str :=
  match bs with
  | [] => Ok []
  | b0 :: r0 =>
      let z0 := b2z b0 in
      if z0 <? 128 then bind (decode_utf8 r0) (fun tl => Ok (z0 :: tl))
      else if in_range 194 223 z0 then
        match r0 with
        | b1 :: r1 =>
            let z1 := b2z b1 in
            if in_range 128 191 z1
            then bind (decode_utf8 r1) (fun tl =>
                   Ok (((z0 - 192) * 64 + (z1 - 128)) :: tl))
            else Raise UnicodeDecodeError
        | _ => Raise UnicodeDecodeError
        end
      else if in_range 224 239 z0 then
        match r0 with
        | b1 :: b2 :: r2 =>
            let z1 := b2z b1 in
            let z2 := b2z b2 in
            let lo := if z0 =? 224 then 160 else 128 in
            let hi := if z0 =? 237 then 159 else 191 in
            if in_range lo hi z1 && in_range 128 191 z2
            then bind (decode_utf8 r2) (fun tl =>
                   Ok (((z0 - 224) * 4096 + (z1 - 128) * 64 + (z2 - 128)) :: tl))
            else Raise UnicodeDecodeError
        | _ => Raise UnicodeDecodeError
        end
      else if in_range 240 244 z0 then
        match r0 with
        | b1 :: b2 :: b3 :: r3 =>
            let z1 := b2z b1 in
            let z2 := b2z b2 in
            let z3 := b2z b3 in
            let lo := if z0 =? 240 then 144 else 128 in
            let hi := if z0 =? 244 then 143 else 191 in
            if in_range lo hi z1 && in_range 128 191 z2 && in_range 128 191 z3
            then bind (decode_utf8 r3) (fun tl =>
                   Ok (((z0 - 240) * 262144 + (z1 - 128) * 4096
                        + (z2 - 128) * 64 + (z3 - 128)) :: tl))
            else Raise UnicodeDecodeError
        | _ => Raise UnicodeDecodeError
        end
      else Raise UnicodeDecodeError
  end.

(** *** [bytes.fromhex] *)

(** [Py_ISSPACE]: tab, line feed, vertical tab, form feed, carriage return,
    space. *)
Definition is_space (c : Z) : bool := in_range 9 13 c || (c =? 32).

(** [_PyLong_DigitValue], restricted to the hexadecimal digits. *)
Definition hex_value (c : Z) : option Z :=
  if in_range 48 57 c then Some (c - 48)
  else if in_range 97 102 c then Some (c - 87)
  else if in_range 65 70 c then Some (c - 55)
  else None.

Definition fromhex_error (pos : Z) : exn :=
  ValueError (u "non-hexadecimal number found in fromhex() arg at position "
                ++ str_of_int pos).

(** White space is skipped between two bytes, never inside one. *)
Fixpoint fromhex_from (pos : Z) (s : str) : result bytes :=
  match s with
  | [] => Ok []
  | c :: rest =>
      if is_space c then fromhex_from (pos + 1) rest
      else
        match hex_value c with
        | None => Raise (fromhex_error pos)
        | Some top =>
            match rest with
            | [] => Raise (fromhex_error (pos + 1))
            | d :: rest' =>
                match hex_value d with
                | None => Raise (fromhex_error (pos + 1))
                | Some bot =>
                    bind (fromhex_from (pos + 2) rest') (fun tl =>
                    Ok (z2b (top * 16 + bot) :: tl))
                end
            end
        end
  end.

Fixpoint first_non_ascii (pos : Z) (s : str) : option Z :=
  match s with
  | [] => None
  | c :: rest => if is_ascii c then first_non_ascii (pos + 1) rest else Some pos
  end.

Definition fromhex (s : str) : result bytes :=
  match first_non_ascii 0 s with
  | Some pos => Raise (fromhex_error pos)
  | None => fromhex_from 0 s
  end.

End Py.

(* ================================================================== *)
(** ** [binascii] and [base64] *)
(* ================================================================== *)

Module Base64.
Import Py.

Fixpoint index_of (c : Z) (s : str) (i : Z) : option Z :=
  match s with
  | [] => None
  | d :: rest => if c =? d then Some i else index_of c rest (i + 1)
  end.

(** [s.encode('ascii')] of [_bytes_from_decode_data]. *)
Definition ascii_only_error : exn :=
  ValueError (u "string argument should contain only ASCII characters").

Definition bytes_from_decode_data (s : str) : result bytes :=
  if forallb is_ascii s then Ok (map z2b s) else Raise ascii_only_error.

Definition BASE64_PAD : Z := 61.

Definition table_b2a_base64 : str :=
  u "ABCDEFGHIJKLMNOPQRSTUVWXYZabcdefghijklmnopqrstuvwxyz0123456789+/".

Definition b2a (i : Z) : byte := z2b (nth (Z.to_nat i) table_b2a_base64 0).

(** [table_a2b_base64]: the value of a character of the alphabet, [None] for
    every other octet. *)
Definition table_a2b_base64 (c : Z) : option Z := index_of c table_b2a_base64 0.

(** [binascii.b2a_base64(data, newline=False)]: three octets give four
    characters; a last group of one or two octets is padded with [=]. *)
Fixpoint b2a_base64 (data : bytes) : bytes :=
  match data with
  | [] => []
  | [a] =>
      let a := b2z a in
      [b2a (Z.shiftr a 2); b2a (Z.shiftl (Z.land a 3) 4);
       z2b BASE64_PAD; z2b BASE64_PAD]
  | [a; b] =>
      let a := b2z a in
      let b := b2z b in
      [b2a (Z.shiftr a 2);
       b2a (Z.lor (Z.shiftl (Z.land a 3) 4) (Z.shiftr b 4));
       b2a (Z.shiftl (Z.land b 15) 2); z2b BASE64_PAD]
  | a :: b :: c :: rest =>
      let a := b2z a in
      let b := b2z b in
      let c := b2z c in
      b2a (Z.shiftr a 2)
        :: b2a (Z.lor (Z.shiftl (Z.land a 3) 4) (Z.shiftr b 4))
        :: b2a (Z.lor (Z.shiftl (Z.land b 15) 2) (Z.shiftr c 6))
        :: b2a (Z.land c 63)
        :: b2a_base64 rest
  end.

Definition b64encode (s : bytes) : bytes := b2a_base64 s.

Definition incorrect_padding : exn := BinasciiError (u "Incorrect padding").

Definition one_more_error (produced : Z) : exn :=
  BinasciiError
    (u "Invalid base64-encoded string: number of data characters ("
       ++ str_of_int (produced / 3 * 4 + 1)
       ++ u ") cannot be 1 more than a multiple of 4").

(** [binascii.a2b_base64(data, strict_mode=False)].  [quad_pos] is the position
    in the current group of four, [leftchar] the bits carried over, [pads] the
    number of [=] seen since the last character of the alphabet and [produced]
    the number of octets written so far.  A character that is neither [=] nor
    in the alphabet is skipped; so is a [=] that does not complete a group. *)
Fixpoint a2b_loop (data : bytes) (quad_pos leftchar pads produced : Z)
  : result bytes :=
  match data with
  | [] =>
      if quad_pos =? 0 then Ok []
      else if quad_pos =? 1 then Raise (one_more_error produced)
      else Raise incorrect_padding
  | ch :: rest =>
      let this_ch := b2z ch in
      if this_ch =? BASE64_PAD then
        if 2 <=? quad_pos then
          if 4 <=? quad_pos + (pads + 1) then Ok []
          else a2b_loop rest quad_pos leftchar (pads + 1) produced
        else a2b_loop rest quad_pos leftchar pads produced
      else
        match table_a2b_base64 this_ch with
        | None => a2b_loop rest quad_pos leftchar pads produced
        | Some v =>
            if quad_pos =? 0 then a2b_loop rest 1 v 0 produced
            else if quad_pos =? 1 then
              bind (a2b_loop rest 2 (Z.land v 15) 0 (produced + 1)) (fun tl =>
              Ok (z2b (Z.lor (Z.shiftl leftchar 2) (Z.shiftr v 4)) :: tl))
            else if quad_pos =? 2 then
              bind (a2b_loop rest 3 (Z.land v 3) 0 (produced + 1)) (fun tl =>
              Ok (z2b (Z.lor (Z.shiftl leftchar 4) (Z.shiftr v 2)) :: tl))
            else
              bind (a2b_loop rest 0 0 0 (produced + 1)) (fun tl =>
              Ok (z2b (Z.lor (Z.shiftl leftchar 6) v) :: tl))
        end
  end.

Definition a2b_base64 (data : bytes) : result bytes := a2b_loop data 0 0 0 0.

(** [base64.b64decode(s)] with the default [validate=False]. *)
Definition b64decode (s : str) : result bytes :=
  bind (bytes_from_decode_data s) a2b_base64.

(** *** Base32 *)

Definition b32alphabet : str := u "ABCDEFGHIJKLMNOPQRSTUVWXYZ234567".

Definition b32tab (i : Z) : byte := z2b (nth (Z.to_nat i) b32alphabet 0).

(** [_b32tab2]: the two characters of a 10-bit index. *)
Definition b32tab2 (i : Z) : bytes := [b32tab (i / 32); b32tab (i mod 32)].

(** [_b32rev] *)
Definition b32rev (c : Z) : option Z := index_of c b32alphabet 0.

(** [int.from_bytes(s, 'big')] *)
Definition from_bytes (s : bytes) : Z :=
  fold_left (fun acc b => acc * 256 + b2z b) s 0.

(** [acc.to_bytes(5, 'big')], for [0 <= acc < 2^40]. *)
Definition to_bytes5 (acc : Z) : bytes :=
  [z2b (Z.shiftr acc 32); z2b (Z.shiftr acc 24); z2b (Z.shiftr acc 16);
   z2b (Z.shiftr acc 8); z2b acc].

Definition b32_quantum (c : Z) : bytes :=
  b32tab2 (Z.shiftr c 30) ++ b32tab2 (Z.land (Z.shiftr c 20) 1023)
    ++ b32tab2 (Z.land (Z.shiftr c 10) 1023) ++ b32tab2 (Z.land c 1023).

Definition pad_chars (n : nat) : bytes := repeat (z2b BASE64_PAD) n.

(** The last, partial quantum: zero-filled to five octets, encoded, and its
    tail overwritten with [=]. *)
Definition b32_partial (s : bytes) : bytes :=
  let enc := b32_quantum (from_bytes (s ++ repeat x00 (5 - length s))) in
  match length s with
  | 1%nat => firstn 2 enc ++ pad_chars 6
  | 2%nat => firstn 4 enc ++ pad_chars 4
  | 3%nat => firstn 5 enc ++ pad_chars 3
  | 4%nat => firstn 7 enc ++ pad_chars 1
  | _ => []
  end.

Fixpoint b32encode (s : bytes) : bytes :=
  match s with
  | a :: b :: c :: d :: e :: rest =>
      b32_quantum (from_bytes [a; b; c; d; e]) ++ b32encode rest
  | partial => b32_partial partial
  end.

Definition bytes_upper (c : byte) : byte :=
  let z := b2z c in if in_range 97 122 z then z2b (z - 32) else c.

Fixpoint rstrip_pad_rev (r : bytes) : bytes :=
  match r with
  | [] => []
  | c :: rest => if b2z c =? BASE64_PAD then rstrip_pad_rev rest else r
  end.

(** [s.rstrip(b'=')] *)
Definition rstrip_pad (s : bytes) : bytes := rev (rstrip_pad_rev (rev s)).

Definition non_base32_digit : exn := BinasciiError (u "Non-base32 digit found").

(** [acc = (acc << 5) + b32rev[c]] over one quantum. *)
Fixpoint b32_acc (quanta : bytes) (acc : Z) : result Z :=
  match quanta with
  | [] => Ok acc
  | c :: rest =>
      match b32rev (b2z c) with
      | None => Raise non_base32_digit
      | Some v => b32_acc rest (Z.shiftl acc 5 + v)
      end
  end.

(** The loop over the quanta of eight characters; the result is the decoded
    octets and the accumulator of the last quantum. *)
Fixpoint b32_quanta (s : bytes) : result (bytes * Z) :=
  match s with
  | [] => Ok ([], 0)
  | c0 :: c1 :: c2 :: c3 :: c4 :: c5 :: c6 :: c7 :: ((_ :: _) as rest) =>
      bind (b32_acc [c0; c1; c2; c3; c4; c5; c6; c7] 0) (fun acc =>
      bind (b32_quanta rest) (fun '(decoded, last) =>
      Ok (to_bytes5 acc ++ decoded, last)))
  | quanta =>
      bind (b32_acc quanta 0) (fun acc => Ok (to_bytes5 acc, acc))
  end.

(** [base64.b32decode(s, casefold)] *)
Definition b32decode (s : str) (casefold : bool) : result bytes :=
  bind (bytes_from_decode_data s) (fun s =>
  if negb (len s mod 8 =? 0) then Raise incorrect_padding
  else
    let s := if casefold then map bytes_upper s else s in
    let l := len s in
    let s := rstrip_pad s in
    let padchars := l - len s in
    bind (b32_quanta s) (fun '(decoded, acc) =>
    if negb (existsb (Z.eqb padchars) [0; 1; 3; 4; 6]) then Raise incorrect_padding
    else if negb (padchars =? 0) && negb (len decoded =? 0) then
      let last := to_bytes5 (Z.shiftl acc (5 * padchars)) in
      let leftover := (43 - 5 * padchars) / 8 in
      Ok (firstn (length decoded - 5) decoded ++ firstn (Z.to_nat leftover) last)
    else Ok decoded)).

End Base64.

(* ================================================================== *)
(** ** [hashlib.sha1] and [hmac] *)
(* ================================================================== *)

Module Hashlib.
Import Py.

Definition mask32 (x : Z) : Z := Z.land x 4294967295.

Definition add32 (x y : Z) : Z := mask32 (x + y).

Definition rotl (n x : Z) : Z :=
  mask32 (Z.lor (Z.shiftl x n) (Z.shiftr x (32 - n))).

Definition lnot32 (x : Z) : Z := Z.lxor x 4294967295.

(** Big-endian octets of a 32-bit word and of a 64-bit length. *)
Definition word_bytes (w : Z) : bytes :=
  [z2b (Z.shiftr w 24); z2b (Z.shiftr w 16); z2b (Z.shiftr w 8); z2b w].

Definition length_bytes (n : Z) : bytes :=
  word_bytes (Z.shiftr n 32) ++ word_bytes n.

(** The message followed by the bit 1, zeros up to 56 modulo 64 octets and the
    length in bits. *)
Definition pad_message (msg : bytes) : bytes :=
  msg ++ [z2b 128]
      ++ repeat x00 (Z.to_nat ((55 - len msg) mod 64))
      ++ length_bytes (8 * len msg).

Fixpoint words_of (n : nat) (bs : bytes) : list Z :=
  match n, bs with
  | S n', a :: b :: c :: d :: rest =>
      (((b2z a * 256 + b2z b) * 256 + b2z c) * 256 + b2z d) :: words_of n' rest
  | _, _ => []
  end.

(** The message schedule, most recent word first: [w] holds W[t-1] .. W[0]. *)
Fixpoint schedule (n : nat) (w : list Z) : list Z :=
  match n with
  | O => w
  | S n' =>
      let x := Z.lxor (Z.lxor (nth 2 w 0) (nth 7 w 0))
                      (Z.lxor (nth 13 w 0) (nth 15 w 0)) in
      schedule n' (rotl 1 x :: w)
  end.

Definition state : Type := Z * Z * Z * Z * Z.

Definition round (s : state) (tw : Z * Z) : state :=
  let '(a, b, c, d, e) := s in
  let '(t, w) := tw in
  let '(f, k) :=
    if t <? 20 then
      (Z.lor (Z.land b c) (Z.land (lnot32 b) d), 1518500249)
    else if t <? 40 then (Z.lxor (Z.lxor b c) d, 1859775393)
    else if t <? 60 then
      (Z.lor (Z.lor (Z.land b c) (Z.land b d)) (Z.land c d), 2400959708)
    else (Z.lxor (Z.lxor b c) d, 3395469782) in
  let temp := add32 (add32 (add32 (add32 (rotl 5 a) f) e) k) w in
  (temp, a, rotl 30 b, c, d).

Definition compress (h : state) (block : bytes) : state :=
  let w := rev (schedule 64 (rev (words_of 16 block))) in
  let '(a, b, c, d, e) :=
    fold_left round (combine (map Z.of_nat (seq 0 80)) w) h in
  let '(h0, h1, h2, h3, h4) := h in
  (add32 h0 a, add32 h1 b, add32 h2 c, add32 h3 d, add32 h4 e).

Fixpoint blocks (n : nat) (h : state) (bs : bytes) : state :=
  match n with
  | O => h
  | S n' => blocks n' (compress h (firstn 64 bs)) (skipn 64 bs)
  end.

Definition initial : state :=
  (1732584193, 4023233417, 2562383102, 271733878, 3285377520).

(** [hashlib.sha1(msg).digest()] *)
Definition sha1 (msg : bytes) : bytes :=
  let padded := pad_message msg in
  let '(h0, h1, h2, h3, h4) := blocks (length padded / 64) initial padded in
  word_bytes h0 ++ word_bytes h1 ++ word_bytes h2 ++ word_bytes h3
    ++ word_bytes h4.

Definition block_size : nat := 64.

Definition xor_with (c : Z) (b : byte) : byte := z2b (Z.lxor (b2z b) c).

(** [hmac.new(key, msg, hashlib.sha1).digest()] *)
Definition hmac_sha1 (key msg : bytes) : bytes :=
  let key := if (block_size <? length key)%nat then sha1 key else key in
  let key := key ++ repeat x00 (block_size - length key) in
  sha1 (map (xor_with 92) key ++ sha1 (map (xor_with 54) key ++ msg)).

End Hashlib.

(* ================================================================== *)
(** ** [pyotp] *)
(* ================================================================== *)

Module Pyotp.
Import Py.

Fixpoint bytes_eqb (a b : bytes) : bool :=
  match a, b with
  | [], [] => true
  | x :: a', y :: b' => Byte.eqb x y && bytes_eqb a' b'
  | _, _ => false
  end.

(** [utils.strings_equal]: both strings are normalised (NFKC), encoded and
    compared with [hmac.compare_digest]. *)
Definition strings_equal (U : UnicodeData) (s1 s2 : str) : result bool :=
  bind (encode_utf8 (NFKC U s1)) (fun b1 =>
  bind (encode_utf8 (NFKC U s2)) (fun b2 =>
  Ok (bytes_eqb b1 b2))).

(** The fields of a [TOTP] object that the code reads; the digest is the
    default, [hashlib.sha1]. *)
Record TOTP : Type := {
  secret : str;
  digits : Z;
  interval : Z
}.

(** [pyotp.TOTP(s, digits=..., interval=...)] *)
Definition TOTP_init (s : str) (digits interval : Z) : result TOTP :=
  if 10 <? digits then Raise (ValueError (u "digits must be no greater than 10"))
  else Ok {| secret := s; digits := digits; interval := interval |}.

Definition byte_secret (self : TOTP) : result bytes :=
  let secret := secret self in
  let missing_padding := len secret mod 8 in
  let secret :=
    if negb (missing_padding =? 0)
    then secret ++ repeat Base64.BASE64_PAD (Z.to_nat (8 - missing_padding))
    else secret in
  Base64.b32decode secret true.

Fixpoint int_bytes_le (fuel : nat) (i : Z) : bytes :=
  match fuel with
  | O => []
  | S fuel' =>
      if i =? 0 then []
      else z2b (Z.land i 255) :: int_bytes_le fuel' (Z.shiftr i 8)
  end.

(** [bytes.rjust(padding, b"\0")] *)
Definition rjust (padding : nat) (b : bytes) : bytes :=
  repeat x00 (padding - length b) ++ b.

(** [OTP.int_to_bytestring(i, padding=8)], for [0 <= i]: every pass of the loop
    drops eight bits of [i], so [log2 i + 1] passes are enough. *)
Definition int_to_bytestring (i : Z) : bytes :=
  rjust 8 (rev (int_bytes_le (S (Z.to_nat (Z.log2 i))) i)).

(** [h[i]], for an index inside [h]. *)
Definition at_index (h : bytes) (i : Z) : Z := b2z (nth (Z.to_nat i) h x00).

Definition negative_input : exn := ValueError (u "input must be positive integer").

(** [OTP.generate_otp(input)] *)
Definition generate_otp (self : TOTP) (input : Z) : result str :=
  if input <? 0 then Raise negative_input
  else
    bind (byte_secret self) (fun key =>
    let hmac_hash := Hashlib.hmac_sha1 key (int_to_bytestring input) in
    let offset := Z.land (at_index hmac_hash (len hmac_hash - 1)) 15 in
    let code :=
      Z.lor (Z.lor (Z.lor
        (Z.shiftl (Z.land (at_index hmac_hash offset) 127) 24)
        (Z.shiftl (Z.land (at_index hmac_hash (offset + 1)) 255) 16))
        (Z.shiftl (Z.land (at_index hmac_hash (offset + 2)) 255) 8))
        (Z.land (at_index hmac_hash (offset + 3)) 255) in
    let str_code := str_of_int (10000000000 + code mod 10 ^ digits self) in
    Ok (slice_last (digits self) str_code)).

(** [TOTP.timecode(for_time)]: [int(seconds / interval)], where [seconds] is
    the Unix time of the clock reading; [int] truncates towards zero. *)
Definition timecode (self : TOTP) (for_time : Z) : Z :=
  Z.quot for_time (interval self).

(** [TOTP.at(for_time, counter_offset)] *)
Definition at_ (self : TOTP) (for_time counter_offset : Z) : result str :=
  generate_otp self (timecode self for_time + counter_offset).

(** [TOTP.now()], the clock reading [now] made explicit. *)
Definition now_ (self : TOTP) (now : Z) : result str :=
  generate_otp self (timecode self now).

(** [range(lo, hi)] *)
Definition range (lo hi : Z) : list Z :=
  map (fun k => lo + Z.of_nat k) (seq 0 (Z.to_nat (hi - lo))).

Fixpoint verify_loop (U : UnicodeData) (self : TOTP) (otp : str) (for_time : Z)
  (offsets : list Z) : result bool :=
  match offsets with
  | [] => Ok false
  | i :: rest =>
      bind (at_ self for_time i) (fun code =>
      bind (strings_equal U otp code) (fun eq =>
      if eq then Ok true else verify_loop U self otp for_time rest))
  end.

(** [TOTP.verify(otp, valid_window=...)] with [for_time] the clock reading. *)
Definition verify (U : UnicodeData) (self : TOTP) (otp : str) (for_time : Z)
  (valid_window : Z) : result bool :=
  if negb (valid_window =? 0) then
    verify_loop U self otp for_time (range (- valid_window) (valid_window + 1))
  else
    bind (at_ self for_time 0) (fun code => strings_equal U otp code).

End Pyotp.

(* ================================================================== *)
(** ** [cryptography.hazmat.primitives]: RSA keys, OAEP and PSS *)
(* ================================================================== *)

Module Cryptography.
Import Py.

(** [hashes.SHA1()], [hashes.SHA256()] *)
Inductive hash_algorithm : Type := SHA1 | SHA256.

Definition digest_size (h : hash_algorithm) : Z :=
  match h with SHA1 => 20 | SHA256 => 32 end.

(** [padding.MGF1(algorithm)] *)
Inductive mask_generation : Type := MGF1 (algorithm : hash_algorithm).

(** [padding.PSS.MAX_LENGTH] or an explicit number of octets. *)
Inductive pss_salt : Type := MAX_LENGTH | Salt (n : Z).

(** [padding.OAEP(mgf, algorithm, label)], [padding.PSS(mgf, salt_length)] *)
Inductive asymmetric_padding : Type :=
| OAEP (mgf : mask_generation) (algorithm : hash_algorithm) (label : option bytes)
| PSS (mgf : mask_generation) (salt_length : pss_salt).

(** Random octets drawn from the operating system. *)
Definition entropy := bytes.

(** Octets of a modulus of [bits] bits. *)
Definition octets (bits : Z) : Z := (bits + 7) / 8.

(** The RSA operations proper (key generation, RSAES-OAEP and RSASSA-PSS of
    RFC 8017 once the lengths have been checked) are the library's; the code of
    this repository depends on them through their lengths and through
    decryption being the inverse of encryption. *)
Record Backend : Type := {
  private_key : Type;
  public_key : Type;
  private_key_size : private_key -> Z;
  public_key_size : public_key -> Z;
  (** [private_key.public_key()] *)
  public_of : private_key -> public_key;
  keygen : entropy -> Z -> Z -> private_key;
  oaep_encrypt :
    public_key -> entropy -> mask_generation -> hash_algorithm -> option bytes
    -> bytes -> bytes;
  oaep_decrypt :
    private_key -> mask_generation -> hash_algorithm -> option bytes
    -> bytes -> option bytes;
  pss_sign :
    private_key -> entropy -> mask_generation -> Z -> hash_algorithm
    -> bytes -> bytes;

  public_of_size : forall sk, public_key_size (public_of sk) = private_key_size sk;
  keygen_size : forall r e bits,
      512 <= bits -> private_key_size (keygen r e bits) = bits;
  (** A ciphertext and a signature are as long as the modulus. *)
  oaep_encrypt_length : forall pk r m h l data,
      len data <= octets (public_key_size pk) - 2 * digest_size h - 2 ->
      len (oaep_encrypt pk r m h l data) = octets (public_key_size pk);
  pss_sign_length : forall sk r m s h data,
      0 <= s <= (private_key_size sk + 6) / 8 - digest_size h - 2 ->
      len (pss_sign sk r m s h data) = octets (private_key_size sk);
  (** RSAES-OAEP-DECRYPT inverts RSAES-OAEP-ENCRYPT on every message that
      fits. *)
  oaep_decrypt_encrypt : forall sk r m h l data,
      len data <= octets (private_key_size sk) - 2 * digest_size h - 2 ->
      oaep_decrypt sk m h l (oaep_encrypt (public_of sk) r m h l data) = Some data
}.

Definition bad_exponent : exn :=
  ValueError (u "public_exponent must be either 3 (for legacy compatibility) or 65537. Almost everyone should choose 65537 here!").

Definition key_too_small : exn :=
  ValueError (u "key_size must be at least 512-bits.").

(** [rsa.generate_private_key(public_exponent, key_size)]; the smallest
    accepted size is 512 bits (1024 in recent releases). *)
Definition generate_private_key (B : Backend) (r : entropy)
  (public_exponent key_size : Z) : result (private_key B) :=
  if negb ((public_exponent =? 3) || (public_exponent =? 65537))
  then Raise bad_exponent
  else if key_size <? 512 then Raise key_too_small
  else Ok (keygen B r public_exponent key_size).

(** The wording of the messages varies with the release of the library; the
    class does not. *)
Definition encryption_failed : exn := ValueError (u "Encryption failed").

Definition decryption_failed : exn := ValueError (u "Decryption failed").

Definition ciphertext_length_error : exn :=
  ValueError (u "Ciphertext length must be equal to key size.").

Definition digest_too_large : exn :=
  ValueError (u "Digest too large for key size. Use a larger key or different digest.").

Definition salt_too_long : exn :=
  ValueError (u "Salt length too long for key size. Try using MAX_LENGTH instead.").

(** RSAES-OAEP: a message of [mLen] octets is accepted when
    [mLen <= k - 2 hLen - 2], [k] the octets of the modulus. *)
Definition oaep_max_payload (key_size : Z) (h : hash_algorithm) : Z :=
  octets key_size - 2 * digest_size h - 2.

(** [public_key.encrypt(plaintext, padding)] *)
Definition encrypt (B : Backend) (pk : public_key B) (r : entropy)
  (plaintext : bytes) (pad : asymmetric_padding) : result bytes :=
  match pad with
  | OAEP m h label =>
      if oaep_max_payload (public_key_size B pk) h <? len plaintext
      then Raise encryption_failed
      else Ok (oaep_encrypt B pk r m h label plaintext)
  | PSS _ _ => Raise UnsupportedAlgorithm
  end.

(** [private_key.decrypt(ciphertext, padding)] *)
Definition decrypt (B : Backend) (sk : private_key B) (ciphertext : bytes)
  (pad : asymmetric_padding) : result bytes :=
  match pad with
  | OAEP m h label =>
      if negb (len ciphertext =? octets (private_key_size B sk))
      then Raise ciphertext_length_error
      else
        match oaep_decrypt B sk m h label ciphertext with
        | Some plaintext => Ok plaintext
        | None => Raise decryption_failed
        end
  | PSS _ _ => Raise UnsupportedAlgorithm
  end.

(** [calculate_max_pss_salt_length]: [emLen - hLen - 2] with [emLen] the octets
    of [key_size - 1] bits. *)
Definition max_pss_salt_length (key_size : Z) (h : hash_algorithm) : Z :=
  (key_size + 6) / 8 - digest_size h - 2.

(** [private_key.sign(data, padding, algorithm)] *)
Definition sign (B : Backend) (sk : private_key B) (r : entropy) (data : bytes)
  (pad : asymmetric_padding) (algorithm : hash_algorithm) : result bytes :=
  match pad with
  | PSS m salt =>
      if octets (private_key_size B sk) - digest_size algorithm - 2 <? 0
      then Raise digest_too_large
      else
        let most := max_pss_salt_length (private_key_size B sk) algorithm in
        let s := match salt with MAX_LENGTH => most | Salt n => n end in
        if (s <? 0) || (most <? s) then Raise salt_too_long
        else Ok (pss_sign B sk r m s algorithm data)
  | OAEP _ _ _ => Raise UnsupportedAlgorithm
  end.

End Cryptography.

(* ================================================================== *)
(** ** [src/config.py] *)
(* ================================================================== *)

Module Config.

Definition RSA_KEY_SIZE : Z := 4096.
Definition RSA_PUBLIC_EXPONENT : Z := 65537.
Definition TOTP_PERIOD : Z := 30.
Definition TOTP_DIGITS : Z := 6.
Definition TOTP_VALID_WINDOW : Z := 1.

End Config.

(* ================================================================== *)
(** ** [src/crypto_utils.py] *)
(* ================================================================== *)

Module CryptoUtils.
Import Py Cryptography Config.

Section Functions.

Variable B : Backend.
Variable U : UnicodeData.

Definition generate_rsa_keypair (r : entropy) (key_size : Z)
  : result (private_key B * public_key B) :=
  bind (generate_private_key B r RSA_PUBLIC_EXPONENT key_size) (fun private_key =>
  let public_key := public_of B private_key in
  Ok (private_key, public_key)).

Definition invalid_seed_length (n : Z) : exn :=
  ValueError (u "Invalid seed length: " ++ str_of_int n ++ u ", expected 64").

Definition non_hexadecimal_seed : exn :=
  ValueError (u "Seed contains non-hexadecimal characters").

Definition decrypt_seed (encrypted_seed_b64 : str) (private_key : private_key B)
  : result str :=
  (* Base64 decode the encrypted seed *)
  bind (Base64.b64decode encrypted_seed_b64) (fun encrypted_seed_bytes =>
  (* RSA/OAEP decrypt with SHA-256 *)
  bind (decrypt B private_key encrypted_seed_bytes
          (OAEP (MGF1 SHA256) SHA256 None)) (fun decrypted_bytes =>
  (* Decode bytes to UTF-8 string *)
  bind (decode_utf8 decrypted_bytes) (fun hex_seed =>
  (* Validate: must be 64-character hex string *)
  if negb (len hex_seed =? 64) then Raise (invalid_seed_length (len hex_seed))
  else if negb (forallb (fun c => char_in c (u "0123456789abcdef"))
                        (lower U hex_seed))
  then Raise non_hexadecimal_seed
  else Ok hex_seed))).

Definition hex_to_base32 (hex_seed : str) : result str :=
  (* Convert hex to bytes *)
  bind (fromhex hex_seed) (fun seed_bytes =>
  (* Convert bytes to base32 *)
  decode_utf8 (Base64.b32encode seed_bytes)).

(** [now] is the reading of the clock, in seconds since the epoch. *)
Definition generate_totp_code (hex_seed : str) (now : Z) : result str :=
  bind (hex_to_base32 hex_seed) (fun base32_seed =>
  bind (Pyotp.TOTP_init base32_seed TOTP_DIGITS TOTP_PERIOD) (fun totp =>
  Pyotp.now_ totp now)).

(** [current_time] is [int(time.time())]. *)
Definition get_totp_remaining_seconds (current_time : Z) : Z :=
  TOTP_PERIOD - current_time mod TOTP_PERIOD.

Definition verify_totp_code (hex_seed code : str) (now valid_window : Z)
  : result bool :=
  bind (hex_to_base32 hex_seed) (fun base32_seed =>
  bind (Pyotp.TOTP_init base32_seed TOTP_DIGITS TOTP_PERIOD) (fun totp =>
  Pyotp.verify U totp code now valid_window)).

Definition sign_message (message : str) (private_key : private_key B)
  (r : entropy) : result bytes :=
  (* Encode message as UTF-8 bytes *)
  bind (encode_utf8 message) (fun message_bytes =>
  (* Sign using RSA-PSS with SHA-256 and maximum salt length *)
  sign B private_key r message_bytes (PSS (MGF1 SHA256) MAX_LENGTH) SHA256).

Definition encrypt_with_public_key (data : bytes) (public_key : public_key B)
  (r : entropy) : result bytes :=
  encrypt B public_key r data (OAEP (MGF1 SHA256) SHA256 None).

End Functions.

End CryptoUtils.

(* ================================================================== *)
(** ** [src/app.py]: the [/decrypt-seed] endpoint *)
(* ================================================================== *)

Module App.
Import Py Cryptography.

(** The file at [SEED_FILE_PATH]: absent, or its text. *)
Definition storage := option str.

Inductive response : Type :=
| status_ok
| HTTP_500 (error : str).

Section Endpoint.

Variable B : Backend.
Variable U : UnicodeData.

(** [student_private_key] is the module-level value loaded at start-up, [None]
    when loading failed.  Every exception, the one raised for a missing key
    included, is caught and answered with "Decryption failed".  Creating the
    directory and writing the file are taken to succeed. *)
Definition decrypt_seed_endpoint (student_private_key : option (private_key B))
  (encrypted_seed : str) (disk : storage) : response * storage :=
  match student_private_key with
  | None => (HTTP_500 (u "Decryption failed"), disk)
  | Some key =>
      match CryptoUtils.decrypt_seed B U encrypted_seed key with
      | Ok hex_seed => (status_ok, Some hex_seed)
      | Raise _ => (HTTP_500 (u "Decryption failed"), disk)
      end
  end.

End Endpoint.

End App.

(* ================================================================== *)
(** ** [scripts/generate_proof.py] *)
(* ================================================================== *)

Module GenerateProof.
Import Py Cryptography.

Inductive outcome : Type :=
| Printed (commit_hash encrypted_signature_b64 : str)
| Exit (code : Z)
| Uncaught (e : exn).

Section Script.

Variable B : Backend.

Definition run {A} (r : result A) (k : A -> outcome) : outcome :=
  match r with
  | Ok a => k a
  | Raise e => Uncaught e
  end.

(** [commit_hash] is what [get_commit_hash()] returned; [student_private] and
    [instructor_public] are the keys in the two PEM files, [None] for a file
    that does not exist. *)
Definition main (commit_hash : str)
  (student_private : option (private_key B))
  (instructor_public : option (public_key B))
  (r_sign r_encrypt : entropy) : outcome :=
  match student_private with
  | None => Exit 1
  | Some student_private_key =>
      run (CryptoUtils.sign_message B commit_hash student_private_key r_sign)
        (fun signature =>
      match instructor_public with
      | None => Exit 1
      | Some instructor_public_key =>
          run (CryptoUtils.encrypt_with_public_key B signature
                 instructor_public_key r_encrypt) (fun encrypted_signature =>
          run (decode_utf8 (Base64.b64encode encrypted_signature))
            (fun encrypted_signature_b64 =>
          Printed commit_hash encrypted_signature_b64))
      end)
  end.

End Script.

End GenerateProof.

(* ================================================================== *)
(** ** The notions of the specification *)
(* ================================================================== *)

Module Spec.
Import Py.

Fixpoint forallb2 {A} (f : A -> A -> bool) (a b : list A) : bool :=
  match a, b with
  | [], [] => true
  | x :: a', y :: b' => f x y && forallb2 f a' b'
  | _, _ => false
  end.

(** A character of [[0-9a-fA-F]]. *)
Definition is_hexdigit (c : Z) : bool :=
  in_range 48 57 c || in_range 97 102 c || in_range 65 70 c.

(** A string matching [^[0-9a-fA-F]{64}$]. *)
Definition is_seed_text (s : str) : bool :=
  (length s =? 64)%nat && forallb is_hexdigit s.

(** The lowercase canonical form of a seed. *)
Definition canonical (s : str) : str := map ascii_lower s.

Definition has_uppercase (s : str) : bool := existsb (in_range 65 90) s.

Definition in_base64_alphabet (c : Z) : bool :=
  in_range 65 90 c || in_range 97 122 c || in_range 48 57 c
  || (c =? 43) || (c =? 47).

(** The characters the decoder does not skip. *)
Definition in_alphabet_or_pad (c : Z) : bool :=
  in_base64_alphabet c || (c =? Base64.BASE64_PAD).

(** Well-formed base64 text (RFC 4648, section 4): groups of four characters
    of the alphabet, the last group possibly ending in one or two [=]. *)
Fixpoint well_formed_base64 (s : str) : bool :=
  match s with
  | [] => true
  | [a; b; c; d] =>
      in_base64_alphabet a && in_base64_alphabet b
      && ((in_base64_alphabet c && (in_base64_alphabet d || (d =? 61)))
          || ((c =? 61) && (d =? 61)))
  | a :: b :: c :: d :: rest =>
      in_base64_alphabet a && in_base64_alphabet b && in_base64_alphabet c
      && in_base64_alphabet d && well_formed_base64 rest
  | _ => false
  end.

(** TimeStep: Unix time divided by the period of 30 seconds, floored. *)
Definition time_step (now : Z) : Z := now / 30.

(** The time step as 8 octets, big-endian. *)
Definition counter_bytes (t : Z) : bytes :=
  map (fun i => z2b (t / 256 ^ i)) [7; 6; 5; 4; 3; 2; 1; 0].

(** Dynamic truncation (RFC 4226, section 5.3): the low four bits of the last
    octet select four octets, of which the low 31 bits are kept. *)
Definition dynamic_truncation (h : bytes) : Z :=
  let offset := Z.to_nat (b2z (last h x00) mod 16) in
  (b2z (nth offset h x00) mod 128) * 16777216
  + b2z (nth (offset + 1) h x00) * 65536
  + b2z (nth (offset + 2) h x00) * 256
  + b2z (nth (offset + 3) h x00).

(** A number below one million as six decimal digits, zero-padded. *)
Definition six_digits (v : Z) : str :=
  map (fun i => 48 + (v / 10 ^ i) mod 10) [5; 4; 3; 2; 1; 0].

(** The code of a time step: HMAC-SHA1 of the time step under the seed octets,
    truncated and reduced to six digits. *)
Definition current_code (seed_bytes : bytes) (t : Z) : str :=
  six_digits
    (dynamic_truncation (Hashlib.hmac_sha1 seed_bytes (counter_bytes t))
       mod 1000000).

Definition is_digit (c : Z) : bool := in_range 48 57 c.

(** An error of the transport encoding: the base64 decoder's own exception, or
    its rejection of text outside ASCII. *)
Definition is_encoding_error (e : exn) : bool :=
  match e with
  | BinasciiError _ => true
  | ValueError msg =>
      forallb2 Z.eqb msg (u "string argument should contain only ASCII characters")
  | _ => false
  end.

Definition str_eqb (a b : str) : bool := forallb2 Z.eqb a b.

End Spec.

(* ================================================================== *)
(** ** Instances of the two interfaces *)
(* ================================================================== *)

(** Tables under which a code point outside ASCII has no case and is its own
    normal form.  They agree with the Unicode tables on every ASCII text. *)
Module PlainTables.
Import Py.

Definition tables : UnicodeData.
Proof.
  refine {| to_lower_full := fun _ _ c => [c]; NFKC := fun s => s |}.
  - intros s i c _. discriminate.
  - intros s i c d Hc [<- | []].
    destruct (char_in c lower_hexdigits) eqn:E; [| reflexivity].
    unfold char_in in E. apply existsb_exists in E.
    destruct E as [x [Hin Heq]]. apply Z.eqb_eq in Heq. subst x.
    cbv in Hin. repeat (destruct Hin as [<- | Hin]; [lia |]). contradiction.
  - reflexivity.
Defined.

End PlainTables.

(** A backend that frames the message to the length of the modulus instead of
    encrypting it.  It keeps nothing secret; it satisfies the laws of
    [Backend], which are therefore consistent, and lets the functions of the
    repository run on concrete keys. *)
Module Framing.
Import Py Cryptography.

Record key : Type := { bits : positive }.

Definition size (k : key) : Z := Z.pos (bits k).

Definition frame (k : key) (data : bytes) : bytes :=
  repeat x00 (Z.to_nat (octets (size k) - len data - 1)) ++ x01 :: data.

Fixpoint unframe (c : bytes) : option bytes :=
  match c with
  | [] => None
  | b :: rest =>
      if Byte.eqb b x00 then unframe rest
      else if Byte.eqb b x01 then Some rest
      else None
  end.

Definition fill (k : key) (data : bytes) : bytes :=
  firstn (Z.to_nat (octets (size k)))
         (data ++ repeat x00 (Z.to_nat (octets (size k)))).

Definition backend : Backend.
Proof.
  refine {|
    private_key := key;
    public_key := key;
    private_key_size := size;
    public_key_size := size;
    public_of := fun sk => sk;
    keygen := fun _ _ n => {| bits := Z.to_pos n |};
    oaep_encrypt := fun pk _ _ _ _ data => frame pk data;
    oaep_decrypt := fun _ _ _ _ c => unframe c;
    pss_sign := fun sk _ _ _ _ data => fill sk data |}.
  - reflexivity.
  - intros r e n Hn. unfold size. cbn. lia.
  - intros pk r m h l data H. unfold frame, len in *.
    rewrite length_app, repeat_length. cbn [length].
    assert (0 <= digest_size h) by (destruct h; cbn; lia). lia.
  - intros sk r m s h data _. unfold fill, len.
    assert (0 < octets (size sk))
      by (unfold octets, size; apply Z.div_str_pos; lia).
    rewrite length_firstn, length_app, repeat_length. lia.
  - intros sk r m h l data _. unfold frame.
    induction (Z.to_nat (octets (size sk) - len data - 1)); cbn; auto.
Defined.

Definition key4096 : key := {| bits := 4096 |}.

End Framing.

(* ================================================================== *)
(** ** Concrete inputs *)
(* ================================================================== *)

Module Samples.
Import Py Cryptography.

(** The seed ["a1" * 32] and the same seed in capitals. *)
Definition seed_a1 : str := concat (repeat (u "a1") 32).
Definition seed_A1 : str := concat (repeat (u "A1") 32).

(** The seed delivery payload for a plaintext under the 4096-bit framing key:
    the ciphertext and its base64 text. *)
Definition ciphertext_of (plaintext : str) : bytes :=
  Framing.frame Framing.key4096 (map z2b plaintext).

Definition payload_of (plaintext : str) : str :=
  map b2z (Base64.b64encode (ciphertext_of plaintext)).

(** A commit hash: forty hexadecimal digits. *)
Definition sample_commit : str := u "3f2c9a1b5d7e8f00112233445566778899aabbcc".

End Samples.

(* ================================================================== *)
(** ** Definitions that serve the proofs *)
(* ================================================================== *)

Module Support.
Import Py Base64 Config.

(** Octets as text, for comparing with literals. *)
Definition ascii_str (b : bytes) : str := map b2z b.

(** [bytes.hex()] *)
Definition hex (bs : bytes) : str :=
  flat_map (fun b => [nth (Z.to_nat (b2z b / 16)) lower_hexdigits 0;
                      nth (Z.to_nat (b2z b mod 16)) lower_hexdigits 0]) bs.

(** The values of an octet. *)
Definition bytes256 : list Z := map Z.of_nat (seq 0 256).

(** A base64 index, a base32 index. *)
Definition is_sextet (v : Z) : bool := (0 <=? v) && (v <? 64).

Definition is_quintet (v : Z) : bool := (0 <=? v) && (v <? 32).

(** The eight base32 indices of a 40-bit quantum, as [b32_quantum] takes them
    two by two. *)
Definition sextets (c : Z) : list Z :=
  [Z.shiftr c 30 / 32; Z.shiftr c 30 mod 32;
   Z.land (Z.shiftr c 20) 1023 / 32; Z.land (Z.shiftr c 20) 1023 mod 32;
   Z.land (Z.shiftr c 10) 1023 / 32; Z.land (Z.shiftr c 10) 1023 mod 32;
   Z.land c 1023 / 32; Z.land c 1023 mod 32].

(** The accumulator of [b32_acc] after the given indices. *)
Definition accumulate (idxs : list Z) (acc : Z) : Z :=
  fold_left (fun a v => Z.shiftl a 5 + v) idxs acc.

(** The characters kept of a partial quantum, and the pads after them. *)
Definition kept_chars (n : nat) : nat :=
  match n with
  | 1 => 2 | 2 => 4 | 3 => 5 | 4 => 7 | _ => 0
  end%nat.

Definition zero_filled (partial : bytes) : Z :=
  from_bytes (partial ++ repeat x00 (5 - length partial)).

(** The indices of the characters of [b32encode s] before the pads, and the
    number of pads. *)
Fixpoint body (s : bytes) : list Z :=
  match s with
  | a :: b :: c :: d :: e :: rest => sextets (from_bytes [a; b; c; d; e]) ++ body rest
  | partial => firstn (kept_chars (length partial)) (sextets (zero_filled partial))
  end.

Fixpoint pads (s : bytes) : nat :=
  match s with
  | _ :: _ :: _ :: _ :: _ :: rest => pads rest
  | [_] => 6
  | [_; _] => 4
  | [_; _; _] => 3
  | [_; _; _; _] => 1
  | [] => 0
  end%nat.

(** What the loop over the quanta leaves: the octets decoded so far and the
    accumulator of the last quantum. *)
Fixpoint quanta_result (s : bytes) : bytes * Z :=
  match s with
  | a :: b :: c :: d :: e :: rest =>
      match rest with
      | [] => ([a; b; c; d; e], from_bytes [a; b; c; d; e])
      | _ =>
          let '(decoded, last) := quanta_result rest in
          ([a; b; c; d; e] ++ decoded, last)
      end
  | [] => ([], 0)
  | partial =>
      let acc :=
        accumulate (firstn (kept_chars (length partial))
                           (sextets (zero_filled partial))) 0 in
      (to_bytes5 acc, acc)
  end.

(** The last step of [b32decode] applied to that result. *)
Definition fixed_up (s : bytes) : bytes :=
  let '(decoded, acc) := quanta_result s in
  let padchars := Z.of_nat (pads s) in
  if negb (padchars =? 0) && negb (len decoded =? 0) then
    firstn (length decoded - 5) decoded
      ++ firstn (Z.to_nat ((43 - 5 * padchars) / 8))
                (to_bytes5 (Z.shiftl acc (5 * padchars)))
  else decoded.

(** [t] as [n] octets, most significant first. *)
Fixpoint big_endian (n : nat) (t : Z) : bytes :=
  match n with
  | O => []
  | S n' => big_endian n' (t / 256) ++ [z2b t]
  end.

(** The [TOTP] object that [generate_totp_code] and [verify_totp_code] build
    for a seed of the given octets. *)
Definition totp_of (seed_bytes : bytes) : Pyotp.TOTP :=
  {| Pyotp.secret := map b2z (Base64.b32encode seed_bytes);
     Pyotp.digits := TOTP_DIGITS;
     Pyotp.interval := TOTP_PERIOD |}.

(** The window of one period on either side. *)
Definition window (t : Z) : list Z := [t - 1; t; t + 1].

End Support.

(* ================================================================== *)
(** ** Text read from a file: [str.strip] and universal newlines *)
(* ================================================================== *)

Module Text.
Import Py.

(** [str.isspace] of one character ([_PyUnicode_IsWhitespace]). *)
Definition is_whitespace (c : Z) : bool :=
  in_range 9 13 c || in_range 28 32 c || (c =? 133) || (c =? 160)
  || (c =? 5760) || in_range 8192 8202 c || (c =? 8232) || (c =? 8233)
  || (c =? 8239) || (c =? 8287) || (c =? 12288).

Fixpoint lstrip (s : str) : str :=
  match s with
  | [] => []
  | c :: rest => if is_whitespace c then lstrip rest else s
  end.

Definition rstrip (s : str) : str := rev (lstrip (rev s)).

(** [s.strip()] *)
Definition strip (s : str) : str := rstrip (lstrip s).

(** What reading in text mode does to line ends: a carriage return, with the
    line feed that may follow it, is read as one line feed. *)
Fixpoint newlines (after_cr : bool) (s : str) : str :=
  match s with
  | [] => []
  | c :: rest =>
      if c =? 13 then 10 :: newlines true rest
      else if (c =? 10) && after_cr then newlines false rest
      else c :: newlines false rest
  end.

(** [f.read()] of a file opened with [open(path, 'r')] whose text is
    [content]. *)
Definition read_text (content : str) : str := newlines false content.

End Text.

(* ================================================================== *)
(** ** [src/app.py]: the other endpoints *)
(* ================================================================== *)

Module Endpoints.
Import Py Text.

(** The JSON bodies of the answers, and the [HTTPException] with its status
    code and the text under ["error"]. *)
Inductive reply : Type :=
| code_reply (code : str) (valid_for : Z)
| valid_reply (valid : bool)
| health_reply (status : str)
| http_error (status_code : Z) (error : str).

Definition seed_not_decrypted : reply :=
  http_error 500 (u "Seed not decrypted yet").

Section Handlers.

Variable U : UnicodeData.

(** [disk] is the file at [SEED_FILE_PATH].  The clock is read twice, by
    [generate_totp_code] and then by [get_totp_remaining_seconds]: [now] and
    [later] are the two readings.  An [HTTPException] passes through; every
    other exception is answered with "Seed not decrypted yet". *)
Definition generate_2fa_endpoint (disk : App.storage) (now later : Z) : reply :=
  match disk with
  | None => seed_not_decrypted
  | Some content =>
      let hex_seed := strip (read_text content) in
      match CryptoUtils.generate_totp_code hex_seed now with
      | Ok code =>
          let valid_for := CryptoUtils.get_totp_remaining_seconds later in
          code_reply code valid_for
      | Raise _ => seed_not_decrypted
      end
  end.

Definition verify_2fa_endpoint (code : str) (disk : App.storage) (now : Z)
  : reply :=
  match code with
  | [] => http_error 400 (u "Missing code")
  | _ :: _ =>
      match disk with
      | None => seed_not_decrypted
      | Some content =>
          let hex_seed := strip (read_text content) in
          match CryptoUtils.verify_totp_code U hex_seed code now
                  Config.TOTP_VALID_WINDOW with
          | Ok is_valid => valid_reply is_valid
          | Raise _ => seed_not_decrypted
          end
      end
  end.

Definition health_check : reply := health_reply (u "healthy").

End Handlers.

End Endpoints.

(* ================================================================== *)
(** ** [scripts/log_2fa_cron.py] *)
(* ================================================================== *)

Module Cron.
Import Py Text.

(** What one run prints: a line on the standard output, or a line on the
    standard error, which for an exception [e] is
    ["Error generating TOTP code: "] followed by [str(e)]. *)
Inductive printed : Type :=
| stdout (line : str)
| stderr (line : str)
| stderr_exception (e : exn).

(** [seed_file_path] is [SEED_FILE_PATH], [disk] the file there, [now] the
    reading of the clock by [generate_totp_code] and [timestamp] what
    [datetime.utcnow().strftime("%Y-%m-%d %H:%M:%S")] returns after it. *)
Definition main (seed_file_path : str) (disk : App.storage) (now : Z)
  (timestamp : str) : printed :=
  match disk with
  | None => stderr (u "Error: Seed file not found at " ++ seed_file_path)
  | Some content =>
      let hex_seed := strip (read_text content) in
      match CryptoUtils.generate_totp_code hex_seed now with
      | Ok code => stdout (timestamp ++ u " - 2FA Code: " ++ code)
      | Raise e => stderr_exception e
      end
  end.

End Cron.

(* ================================================================== *)
(** ** [scripts/generate_proof.py]: the commit hash *)
(* ================================================================== *)

Module CommitHash.
Import Py Text Cryptography GenerateProof.

(** [git] is the outcome of [git log -1 --format=%H]: its standard output, or
    [None] when the command ended with a non-zero status.  The result is the
    hash, or the status the script exits with. *)
Definition get_commit_hash (git : option str) : str + Z :=
  match git with
  | Some output => inl (strip output)
  | None => inr 1
  end.

(** The script from its first line: the commit hash is read, then [main]
    goes on with it. *)
Definition script (B : Backend) (git : option str)
  (student_private : option (private_key B))
  (instructor_public : option (public_key B))
  (r_sign r_encrypt : entropy) : outcome :=
  match get_commit_hash git with
  | inr status => Exit status
  | inl commit_hash =>
      main B commit_hash student_private instructor_public r_sign r_encrypt
  end.

End CommitHash.

(* ================================================================== *)
(** ** The service over several requests *)
(* ================================================================== *)

Module Service.
Import Py Spec Cryptography.

(** The exceptions that are instances of [ValueError]: [binascii.Error],
    [UnicodeDecodeError] and [UnicodeEncodeError] are subclasses of it,
    [UnsupportedAlgorithm] is not. *)
Definition is_value_error (e : exn) : bool :=
  match e with
  | UnsupportedAlgorithm => false
  | _ => true
  end.


(** The seed file after the [/decrypt-seed] requests with the given bodies,
    served in order. *)
Fixpoint after_requests (B : Backend) (U : UnicodeData)
  (student_private_key : option (private_key B)) (requests : list str)
  (disk : App.storage) : App.storage :=
  match requests with
  | [] => disk
  | encrypted_seed :: rest =>
      after_requests B U student_private_key rest
        (snd (App.decrypt_seed_endpoint B U student_private_key encrypted_seed
                disk))
  end.

End Service.

(* ================================================================== *)
(** ** The models against known values *)
(* ================================================================== *)

Module Base64Tests.
Import Py Base64 Support.

Example b64_abc : b64decode (u "YWJj") = Ok (map z2b (u "abc")).
Proof. reflexivity. Qed.

Example b64_pad_reset : b64decode (u "YQ=a=") = Ok [z2b 97; z2b 6].
Proof. reflexivity. Qed.

Example b64_short : b64decode (u "YQ=") = Raise incorrect_padding.
Proof. reflexivity. Qed.

Example b64_five : b64decode (u "YWJjZ") = Raise (one_more_error 3).
Proof. reflexivity. Qed.

Example b64_enc : ascii_str (b64encode (map z2b (u "ab"))) = u "YWI=".
Proof. reflexivity. Qed.

Example b32_zero :
  ascii_str (b32encode (repeat x00 32))
  = u "AAAAAAAAAAAAAAAAAAAAAAAAAAAAAAAAAAAAAAAAAAAAAAAAAAAA====".
Proof. reflexivity. Qed.

Example b32_foobar :
  ascii_str (b32encode (map z2b (u "fooba"))) = u "MZXW6YTB"
  /\ ascii_str (b32encode (map z2b (u "foob"))) = u "MZXW6YQ="
  /\ b32decode (u "mzxw6yq=") true = Ok (map z2b (u "foob"))
  /\ b32decode (u "MZXW6===") true = Ok (map z2b (u "foo"))
  /\ b32decode (u "MZXW6YTBOI======") true = Ok (map z2b (u "foobar")).
Proof. repeat split; reflexivity. Qed.

End Base64Tests.

Module HashlibTests.
Import Py Hashlib Support.

Example sha1_abc :
  hex (sha1 (map z2b (u "abc"))) = u "a9993e364706816aba3e25717850c26c9cd0d89d".
Proof. vm_compute. reflexivity. Qed.

Example sha1_empty :
  hex (sha1 []) = u "da39a3ee5e6b4b0d3255bfef95601890afd80709".
Proof. vm_compute. reflexivity. Qed.

(** RFC 2202, test case 2. *)
Example hmac_jefe :
  hex (hmac_sha1 (map z2b (u "Jefe")) (map z2b (u "what do ya want for nothing?")))
  = u "effcdf6ae5eb2fa2d27416d5f184df9c259a7c79".
Proof. vm_compute. reflexivity. Qed.

End HashlibTests.

Module SpecTests.
Import Py Spec.

(** RFC 4226, appendix D: the first codes of the secret "12345678901234567890". *)
Example rfc4226_codes :
  map (current_code (map z2b (u "12345678901234567890"))) [0; 1; 2; 3]
  = [u "755224"; u "287082"; u "359152"; u "969429"].
Proof. vm_compute. reflexivity. Qed.

Example well_formed_examples :
  map well_formed_base64 [u "YWJj"; u "YQ=="; u "YWI="; u "!"; u "YQ="; u "Y=Q="]
  = [true; true; true; false; false; false].
Proof. reflexivity. Qed.

End SpecTests.

(* ================================================================== *)
(** ** Octets, text and hexadecimal digits *)
(* ================================================================== *)

Module PyFacts.
Import Py Spec.

Lemma b2z_range (b : byte) : 0 <= b2z b < 256.
Proof.
  unfold b2z. pose proof (Byte.to_N_bounded b). lia.
Qed.

Lemma z2b_b2z (b : byte) : z2b (b2z b) = b.
Proof.
  unfold z2b. rewrite Z.mod_small by apply b2z_range.
  unfold b2z. rewrite N2Z.id, Byte.of_to_N. reflexivity.
Qed.

Lemma b2z_z2b (z : Z) : b2z (z2b z) = z mod 256.
Proof.
  unfold z2b, b2z.
  assert (Hr : 0 <= z mod 256 < 256) by (apply Z.mod_pos_bound; lia).
  destruct (Byte.of_N (Z.to_N (z mod 256))) as [b |] eqn:E.
  - apply Byte.to_of_N in E. rewrite E. lia.
  - apply Byte.of_N_None_iff in E. lia.
Qed.

Lemma b2z_z2b_small (z : Z) : 0 <= z < 256 -> b2z (z2b z) = z.
Proof. intros H. rewrite b2z_z2b. apply Z.mod_small, H. Qed.

Lemma z2b_mod (z : Z) : z2b (z mod 256) = z2b z.
Proof. unfold z2b. rewrite Z.mod_mod by lia. reflexivity. Qed.

Lemma len_app {A} (a b : list A) : len (a ++ b) = len a + len b.
Proof. unfold len. rewrite length_app. lia. Qed.

Lemma len_map {A C} (f : A -> C) (l : list A) : len (map f l) = len l.
Proof. unfold len. rewrite length_map. reflexivity. Qed.

(** *** Hexadecimal digits *)

Lemma lower_hexdigit_iff (d : Z) :
  char_in d lower_hexdigits = true <-> 48 <= d <= 57 \/ 97 <= d <= 102.
Proof.
  unfold char_in. rewrite existsb_exists. split.
  - intros [x [Hin Heq]]. apply Z.eqb_eq in Heq. subst x.
    cbv in Hin. repeat (destruct Hin as [<- | Hin]; [lia |]). contradiction.
  - intros H. exists d. split; [| apply Z.eqb_refl].
    assert (E : d = 48 \/ d = 49 \/ d = 50 \/ d = 51 \/ d = 52 \/ d = 53
                \/ d = 54 \/ d = 55 \/ d = 56 \/ d = 57 \/ d = 97 \/ d = 98
                \/ d = 99 \/ d = 100 \/ d = 101 \/ d = 102) by lia.
    repeat (destruct E as [-> | E]; [cbv; tauto |]). subst d. cbv. tauto.
Qed.

Lemma is_hexdigit_iff (c : Z) :
  is_hexdigit c = true <-> 48 <= c <= 57 \/ 97 <= c <= 102 \/ 65 <= c <= 70.
Proof. unfold is_hexdigit, in_range. lia. Qed.

Lemma is_hexdigit_ascii (c : Z) : is_hexdigit c = true -> is_ascii c = true.
Proof. rewrite is_hexdigit_iff. unfold is_ascii. lia. Qed.

(** Lowering an ASCII character and testing it against the sixteen lowercase
    digits is the test for [[0-9a-fA-F]]. *)
Lemma lowered_hexdigit (c : Z) :
  char_in (ascii_lower c) lower_hexdigits = is_hexdigit c.
Proof.
  apply eq_true_iff_eq. rewrite lower_hexdigit_iff, is_hexdigit_iff.
  unfold ascii_lower. destruct ((65 <=? c) && (c <=? 90)) eqn:E; lia.
Qed.

Lemma forallb_false_of_nonempty {A} (f : A -> bool) (l : list A) :
  l <> [] -> (forall d, In d l -> f d = false) -> forallb f l = false.
Proof.
  destruct l as [| x l]; [congruence |]. intros _ H. cbn.
  rewrite (H x) by (left; reflexivity). reflexivity.
Qed.

Lemma lower_from_hex (U : UnicodeData) (whole : str) (i : nat) (s : str) :
  forallb (fun c => char_in c lower_hexdigits) (lower_from U whole i s)
  = forallb is_hexdigit s.
Proof.
  revert i. induction s as [| c s IH]; intros i; cbn [lower_from forallb].
  - reflexivity.
  - rewrite forallb_app, IH. f_equal.
    destruct (c <? 128) eqn:E.
    + cbn [forallb]. rewrite lowered_hexdigit, andb_true_r. reflexivity.
    + assert (Hc : 128 <= c) by lia.
      rewrite forallb_false_of_nonempty.
      * symmetry. apply not_true_is_false. rewrite is_hexdigit_iff. lia.
      * apply to_lower_full_nonempty, Hc.
      * intros d. apply to_lower_full_not_hex, Hc.
Qed.

(** The test of [decrypt_seed] on the lowered text, in terms of the text. *)
Lemma lower_hex_check (U : UnicodeData) (s : str) :
  forallb (fun c => char_in c (u "0123456789abcdef")) (lower U s)
  = forallb is_hexdigit s.
Proof. apply lower_from_hex. Qed.

(** On hexadecimal text [str.lower] is the ASCII lowering. *)
Lemma lower_from_ascii (U : UnicodeData) (whole : str) (i : nat) (s : str) :
  forallb is_ascii s = true -> lower_from U whole i s = map ascii_lower s.
Proof.
  revert i. induction s as [| c s IH]; intros i H; cbn in *.
  - reflexivity.
  - apply andb_true_iff in H. destruct H as [Hc Hs].
    unfold is_ascii in Hc. replace (c <? 128) with true by lia.
    cbn. rewrite IH by assumption. reflexivity.
Qed.

Lemma lower_ascii (U : UnicodeData) (s : str) :
  forallb is_ascii s = true -> lower U s = canonical s.
Proof. apply lower_from_ascii. Qed.

Lemma hex_text_ascii (s : str) :
  forallb is_hexdigit s = true -> forallb is_ascii s = true.
Proof.
  rewrite !forallb_forall. intros H x Hx. apply is_hexdigit_ascii, H, Hx.
Qed.

Lemma seed_text_inv (s : str) :
  is_seed_text s = true -> length s = 64%nat /\ forallb is_hexdigit s = true.
Proof.
  unfold is_seed_text. intros H. apply andb_true_iff in H.
  destruct H as [Hl Hh]. apply Nat.eqb_eq in Hl. auto.
Qed.

(** *** UTF-8 of ASCII text *)

Lemma encode_utf8_ascii (s : str) :
  forallb is_ascii s = true -> encode_utf8 s = Ok (map z2b s).
Proof.
  induction s as [| c s IH]; cbn; intros H.
  - reflexivity.
  - apply andb_true_iff in H. destruct H as [Hc Hs].
    rewrite IH by assumption. unfold encode_cp, is_surrogate, is_ascii in *.
    replace ((c <? 0) || (1114111 <? c) || ((55296 <=? c) && (c <=? 57343)))
      with false by lia.
    replace (c <? 128) with true by lia. reflexivity.
Qed.

Lemma decode_utf8_ascii (s : str) :
  forallb is_ascii s = true -> decode_utf8 (map z2b s) = Ok s.
Proof.
  induction s as [| c s IH]; cbn [map decode_utf8 forallb]; intros H.
  - reflexivity.
  - apply andb_true_iff in H. destruct H as [Hc Hs]. unfold is_ascii in Hc.
    rewrite b2z_z2b_small by lia.
    replace (c <? 128) with true by lia.
    rewrite IH by assumption. reflexivity.
Qed.

(** Octets below 128 decode to themselves. *)
Lemma decode_utf8_low (bs : bytes) :
  forallb (fun b => b2z b <? 128) bs = true -> decode_utf8 bs = Ok (map b2z bs).
Proof.
  induction bs as [| b bs IH]; cbn [map decode_utf8 forallb]; intros H.
  - reflexivity.
  - apply andb_true_iff in H. destruct H as [Hb Hs].
    rewrite Hb, IH by assumption. reflexivity.
Qed.

End PyFacts.

(* ================================================================== *)
(** ** Base64: what the decoder skips, what it rejects, what it inverts *)
(* ================================================================== *)

Module Base64Facts.
Import Py Spec Base64 Support PyFacts.

(** A property checked on every number below [n] holds of each of them. *)
Lemma below_checked (f : Z -> bool) (n : nat) :
  forallb f (map Z.of_nat (seq 0 n)) = true ->
  forall c, 0 <= c < Z.of_nat n -> f c = true.
Proof.
  intros H c Hc. rewrite forallb_forall in H. apply H.
  apply in_map_iff. exists (Z.to_nat c). split; [lia |].
  apply in_seq. lia.
Qed.

(** The characters with a value are those of the alphabet. *)
Lemma table_a2b_defined (c : Z) :
  0 <= c < 128 ->
  in_base64_alphabet c = match table_a2b_base64 c with Some _ => true | None => false end.
Proof.
  intros H. apply Bool.eqb_prop.
  apply (below_checked
           (fun c => Bool.eqb (in_base64_alphabet c)
                       match table_a2b_base64 c with
                       | Some _ => true
                       | None => false
                       end) 128); [vm_compute; reflexivity | exact H].
Qed.

(** Characters outside the alphabet leave no trace in the decoder. *)
Lemma a2b_loop_filter (s : str) :
  forallb is_ascii s = true ->
  forall quad_pos leftchar pads produced,
    a2b_loop (map z2b (filter in_alphabet_or_pad s)) quad_pos leftchar pads produced
    = a2b_loop (map z2b s) quad_pos leftchar pads produced.
Proof.
  induction s as [| c s IH]; intros Hs q l p n; [reflexivity |].
  cbn [forallb] in Hs. apply andb_true_iff in Hs. destruct Hs as [Hc Hs].
  unfold is_ascii in Hc. assert (Hr : 0 <= c < 128) by lia.
  cbn [filter]. unfold in_alphabet_or_pad at 1. rewrite (table_a2b_defined c Hr).
  destruct (table_a2b_base64 c) as [v |] eqn:Ev.
  - cbn [orb map a2b_loop]. rewrite b2z_z2b_small by lia.
    rewrite Ev. rewrite !IH by assumption. reflexivity.
  - cbn [orb]. destruct (Z.eqb_spec c BASE64_PAD) as [-> | Hne].
    + cbn [map a2b_loop]. rewrite b2z_z2b_small by (unfold BASE64_PAD; lia).
      rewrite Z.eqb_refl, !IH by assumption. reflexivity.
    + cbn [map a2b_loop]. rewrite b2z_z2b_small by lia.
      replace (c =? BASE64_PAD) with false by (symmetry; apply Z.eqb_neq, Hne).
      rewrite Ev. apply IH, Hs.
Qed.

Lemma filter_ascii (f : Z -> bool) (s : str) :
  forallb is_ascii s = true -> forallb is_ascii (filter f s) = true.
Proof.
  rewrite !forallb_forall. intros H x Hx. apply filter_In in Hx. apply H, Hx.
Qed.

Lemma b64decode_filter (s : str) :
  forallb is_ascii s = true -> b64decode (filter in_alphabet_or_pad s) = b64decode s.
Proof.
  intros H. unfold b64decode, bytes_from_decode_data.
  rewrite H, (filter_ascii in_alphabet_or_pad s H). cbn [bind].
  apply a2b_loop_filter, H.
Qed.

(** The decoder raises nothing but its own exception. *)
Lemma a2b_loop_error (data : bytes) :
  forall quad_pos leftchar pads produced e,
    a2b_loop data quad_pos leftchar pads produced = Raise e ->
    exists msg, e = BinasciiError msg.
Proof.
  induction data as [| ch data IH]; intros q l p n e; cbn [a2b_loop].
  - destruct (q =? 0); [discriminate |].
    destruct (q =? 1); intros [= <-]; eexists; reflexivity.
  - destruct (b2z ch =? BASE64_PAD).
    + destruct (2 <=? q); [| apply IH].
      destruct (4 <=? q + (p + 1)); [discriminate | apply IH].
    + destruct (table_a2b_base64 (b2z ch)) as [v |]; [| apply IH].
      destruct (q =? 0); [apply IH |].
      destruct (q =? 1);
        [| destruct (q =? 2)];
        match goal with
        | |- bind ?r _ = _ -> _ =>
            destruct r as [tl | e'] eqn:E; cbn [bind];
            [discriminate | intros [= <-]; apply IH in E; exact E]
        end.
Qed.

Lemma b64decode_error (s : str) (e : exn) :
  b64decode s = Raise e -> is_encoding_error e = true.
Proof.
  unfold b64decode, bytes_from_decode_data.
  destruct (forallb is_ascii s); cbn [bind].
  - intros H. apply a2b_loop_error in H. destruct H as [msg ->]. reflexivity.
  - intros [= <-]. reflexivity.
Qed.

(** *** Decoding what was encoded *)

Lemma checked_on_bytes (f : Z -> bool) :
  forallb f bytes256 = true -> forall a : byte, f (b2z a) = true.
Proof.
  intros H a. apply (below_checked f 256 H). apply b2z_range.
Qed.

Lemma checked_on_byte_pairs (f : Z -> Z -> bool) :
  forallb (fun a => forallb (f a) bytes256) bytes256 = true ->
  forall a b : byte, f (b2z a) (b2z b) = true.
Proof.
  intros H a b.
  apply (checked_on_bytes (f (b2z a))).
  apply (checked_on_bytes (fun a => forallb (f a) bytes256) H).
Qed.

(** A character of the alphabet is not [=] and has its index as value. *)
Lemma b2a_inverse (i : Z) :
  is_sextet i = true ->
  (b2z (b2a i) =? BASE64_PAD) = false
  /\ table_a2b_base64 (b2z (b2a i)) = Some i.
Proof.
  intros H. unfold is_sextet in H.
  assert (C : (negb (b2z (b2a i) =? BASE64_PAD)
               && match table_a2b_base64 (b2z (b2a i)) with
                  | Some v => v =? i
                  | None => false
                  end) = true).
  { apply (below_checked
             (fun i => negb (b2z (b2a i) =? BASE64_PAD)
                       && match table_a2b_base64 (b2z (b2a i)) with
                          | Some v => v =? i
                          | None => false
                          end) 64); [vm_compute; reflexivity | lia]. }
  apply andb_true_iff in C. destruct C as [C1 C2].
  split; [apply negb_true_iff, C1 |].
  destruct (table_a2b_base64 (b2z (b2a i))); [| discriminate].
  apply Z.eqb_eq in C2. subst. reflexivity.
Qed.

(** One step of the decoder on a character of the alphabet. *)
Lemma a2b_loop_sextet (i : Z) (rest : bytes) (q l p n : Z) :
  is_sextet i = true ->
  a2b_loop (b2a i :: rest) q l p n
  = if q =? 0 then a2b_loop rest 1 i 0 n
    else if q =? 1 then
      bind (a2b_loop rest 2 (Z.land i 15) 0 (n + 1)) (fun tl =>
      Ok (z2b (Z.lor (Z.shiftl l 2) (Z.shiftr i 4)) :: tl))
    else if q =? 2 then
      bind (a2b_loop rest 3 (Z.land i 3) 0 (n + 1)) (fun tl =>
      Ok (z2b (Z.lor (Z.shiftl l 4) (Z.shiftr i 2)) :: tl))
    else
      bind (a2b_loop rest 0 0 0 (n + 1)) (fun tl =>
      Ok (z2b (Z.lor (Z.shiftl l 6) i) :: tl)).
Proof.
  intros H. destruct (b2a_inverse i H) as [Hp Hv].
  cbn [a2b_loop]. rewrite Hp, Hv. reflexivity.
Qed.

(** The four sextets of three octets, and what the decoder rebuilds. *)
Lemma first_sextet (a : byte) : is_sextet (Z.shiftr (b2z a) 2) = true.
Proof.
  apply (checked_on_bytes (fun a => is_sextet (Z.shiftr a 2))).
  vm_compute. reflexivity.
Qed.

Lemma second_sextet (a b : byte) :
  let v := Z.lor (Z.shiftl (Z.land (b2z a) 3) 4) (Z.shiftr (b2z b) 4) in
  is_sextet v = true
  /\ Z.lor (Z.shiftl (Z.shiftr (b2z a) 2) 2) (Z.shiftr v 4) = b2z a
  /\ Z.land v 15 = Z.shiftr (b2z b) 4.
Proof.
  pose proof (checked_on_byte_pairs
    (fun a b =>
       let v := Z.lor (Z.shiftl (Z.land a 3) 4) (Z.shiftr b 4) in
       is_sextet v
       && (Z.lor (Z.shiftl (Z.shiftr a 2) 2) (Z.shiftr v 4) =? a)
       && (Z.land v 15 =? Z.shiftr b 4))
    ltac:(vm_compute; reflexivity) a b) as H.
  cbv zeta in *. apply andb_true_iff in H. destruct H as [H H3].
  apply andb_true_iff in H. destruct H as [H1 H2].
  apply Z.eqb_eq in H2, H3. auto.
Qed.

Lemma third_sextet (b c : byte) :
  let v := Z.lor (Z.shiftl (Z.land (b2z b) 15) 2) (Z.shiftr (b2z c) 6) in
  is_sextet v = true
  /\ Z.lor (Z.shiftl (Z.shiftr (b2z b) 4) 4) (Z.shiftr v 2) = b2z b
  /\ Z.land v 3 = Z.shiftr (b2z c) 6.
Proof.
  pose proof (checked_on_byte_pairs
    (fun b c =>
       let v := Z.lor (Z.shiftl (Z.land b 15) 2) (Z.shiftr c 6) in
       is_sextet v
       && (Z.lor (Z.shiftl (Z.shiftr b 4) 4) (Z.shiftr v 2) =? b)
       && (Z.land v 3 =? Z.shiftr c 6))
    ltac:(vm_compute; reflexivity) b c) as H.
  cbv zeta in *. apply andb_true_iff in H. destruct H as [H H3].
  apply andb_true_iff in H. destruct H as [H1 H2].
  apply Z.eqb_eq in H2, H3. auto.
Qed.

Lemma fourth_sextet (c : byte) :
  is_sextet (Z.land (b2z c) 63) = true
  /\ Z.lor (Z.shiftl (Z.shiftr (b2z c) 6) 6) (Z.land (b2z c) 63) = b2z c.
Proof.
  pose proof (checked_on_bytes
    (fun c => is_sextet (Z.land c 63)
              && (Z.lor (Z.shiftl (Z.shiftr c 6) 6) (Z.land c 63) =? c))
    ltac:(vm_compute; reflexivity) c) as H.
  apply andb_true_iff in H. destruct H as [H1 H2].
  apply Z.eqb_eq in H2. auto.
Qed.

Lemma zero_octet : b2z x00 = 0.
Proof. reflexivity. Qed.

Lemma a2b_b2a_upto (k : nat) :
  forall data, (length data <= k)%nat ->
  forall l p n, a2b_loop (b2a_base64 data) 0 l p n = Ok data.
Proof.
  induction k as [| k IH]; intros data Hk l p n.
  - destruct data; [reflexivity | cbn in Hk; lia].
  - destruct data as [| a [| b [| c rest]]].
    + reflexivity.
    + cbn [b2a_base64].
      pose proof (first_sextet a) as H1.
      destruct (second_sextet a x00) as [H2 [H2a _]].
      rewrite zero_octet, Z.shiftr_0_l, Z.lor_0_r in H2, H2a.
      rewrite (a2b_loop_sextet _ _ _ _ _ _ H1). cbn [Z.eqb].
      rewrite (a2b_loop_sextet _ _ _ _ _ _ H2). cbn [Z.eqb Pos.eqb].
      rewrite H2a, z2b_b2z. reflexivity.
    + cbn [b2a_base64].
      pose proof (first_sextet a) as H1.
      destruct (second_sextet a b) as [H2 [H2a H2b]].
      destruct (third_sextet b x00) as [H3 [H3a _]].
      rewrite zero_octet, Z.shiftr_0_l, Z.lor_0_r in H3, H3a.
      rewrite (a2b_loop_sextet _ _ _ _ _ _ H1). cbn [Z.eqb].
      rewrite (a2b_loop_sextet _ _ _ _ _ _ H2). cbn [Z.eqb Pos.eqb].
      rewrite (a2b_loop_sextet _ _ _ _ _ _ H3). cbn [Z.eqb Pos.eqb].
      rewrite H2a, H2b, H3a, !z2b_b2z. reflexivity.
    + cbn [b2a_base64].
      pose proof (first_sextet a) as H1.
      destruct (second_sextet a b) as [H2 [H2a H2b]].
      destruct (third_sextet b c) as [H3 [H3a H3b]].
      destruct (fourth_sextet c) as [H4 H4a].
      rewrite (a2b_loop_sextet _ _ _ _ _ _ H1). cbn [Z.eqb].
      rewrite (a2b_loop_sextet _ _ _ _ _ _ H2). cbn [Z.eqb Pos.eqb].
      rewrite (a2b_loop_sextet _ _ _ _ _ _ H3). cbn [Z.eqb Pos.eqb].
      rewrite (a2b_loop_sextet _ _ _ _ _ _ H4). cbn [Z.eqb Pos.eqb].
      rewrite IH by (cbn [length] in Hk; lia). cbn [bind].
      rewrite H2a, H2b, H3a, H3b, H4a, !z2b_b2z. reflexivity.
Qed.

(** [binascii.a2b_base64] inverts [binascii.b2a_base64]. *)
Lemma a2b_b2a (data : bytes) : a2b_base64 (b2a_base64 data) = Ok data.
Proof. apply (a2b_b2a_upto (length data)). lia. Qed.

Lemma b2a_ascii (i : Z) : (b2z (b2a i) <? 128) = true.
Proof.
  unfold b2a. destruct (Z.to_nat i <? 64)%nat eqn:E.
  - apply Nat.ltb_lt in E.
    pose proof (below_checked
                  (fun k => b2z (z2b (nth (Z.to_nat k) table_b2a_base64 0)) <? 128)
                  64 ltac:(vm_compute; reflexivity)
                  (Z.of_nat (Z.to_nat i)) ltac:(lia)) as H.
    cbv beta in H. rewrite Nat2Z.id in H. exact H.
  - apply Nat.ltb_ge in E. rewrite nth_overflow by exact E. reflexivity.
Qed.

End Base64Facts.

(* ================================================================== *)
(** ** Seed decryption and validation *)
(* ================================================================== *)

Module SeedFacts.
Import Py Spec Cryptography CryptoUtils PyFacts.

Section Decrypted.

Variable B : Backend.
Variable U : UnicodeData.
Variable encrypted_seed_b64 : str.
Variable key : private_key B.
Variable ciphertext plaintext : bytes.
Variable hex_seed : str.

Hypothesis transport : Base64.b64decode encrypted_seed_b64 = Ok ciphertext.
Hypothesis decryption :
  decrypt B key ciphertext (OAEP (MGF1 SHA256) SHA256 None) = Ok plaintext.
Hypothesis text : decode_utf8 plaintext = Ok hex_seed.

(** After the three decoding steps, [decrypt_seed] is its two checks. *)
Lemma decrypt_seed_checks :
  decrypt_seed B U encrypted_seed_b64 key
  = if negb (length hex_seed =? 64)%nat
    then Raise (invalid_seed_length (len hex_seed))
    else if forallb is_hexdigit hex_seed then Ok hex_seed
         else Raise non_hexadecimal_seed.
Proof.
  unfold decrypt_seed. rewrite transport. cbn [bind].
  rewrite decryption. cbn [bind]. rewrite text. cbn [bind].
  rewrite lower_hex_check.
  replace (len hex_seed =? 64) with (length hex_seed =? 64)%nat.
  - destruct (forallb is_hexdigit hex_seed); reflexivity.
  - unfold len. destruct (Nat.eqb_spec (length hex_seed) 64);
      [rewrite e; reflexivity | symmetry; apply Z.eqb_neq; lia].
Qed.

End Decrypted.

(** C8: the validation in [decrypt_seed] accepts exactly the strings matching
    [^[0-9a-fA-F]{64}$].  Whatever text the ciphertext decrypts to, the call
    returns it when it has 64 characters, all of them hexadecimal digits, and
    otherwise raises one of the two seed-format errors: the length error when
    the text is shorter or longer (the empty text included), the
    non-hexadecimal error when it has 64 characters of which one is not a
    digit. *)
Theorem seed_validation (B : Backend) (U : UnicodeData) (encrypted_seed_b64 : str)
  (key : private_key B) (ciphertext plaintext : bytes) (hex_seed : str) :
  Base64.b64decode encrypted_seed_b64 = Ok ciphertext ->
  decrypt B key ciphertext (OAEP (MGF1 SHA256) SHA256 None) = Ok plaintext ->
  decode_utf8 plaintext = Ok hex_seed ->
  (is_seed_text hex_seed = true ->
     decrypt_seed B U encrypted_seed_b64 key = Ok hex_seed)
  /\ (is_seed_text hex_seed = false ->
        decrypt_seed B U encrypted_seed_b64 key
        = Raise (if (length hex_seed =? 64)%nat then non_hexadecimal_seed
                 else invalid_seed_length (len hex_seed))).
Proof.
  intros Ht Hd Hx.
  rewrite (decrypt_seed_checks B U _ _ _ _ _ Ht Hd Hx).
  unfold is_seed_text.
  destruct (length hex_seed =? 64)%nat; cbn [negb andb];
    destruct (forallb is_hexdigit hex_seed); split; intros; congruence.
Qed.

Lemma seed_validation_witness :
  decrypt_seed Framing.backend PlainTables.tables
    (Samples.payload_of Samples.seed_a1) Framing.key4096
  = Ok Samples.seed_a1
  /\ decrypt_seed Framing.backend PlainTables.tables
       (Samples.payload_of (u "a1")) Framing.key4096
     = Raise (invalid_seed_length 2).
Proof.
  split.
  - apply (seed_validation Framing.backend PlainTables.tables
             (Samples.payload_of Samples.seed_a1) Framing.key4096
             (Samples.ciphertext_of Samples.seed_a1)
             (map z2b Samples.seed_a1) Samples.seed_a1);
      vm_compute; reflexivity.
  - apply (seed_validation Framing.backend PlainTables.tables
             (Samples.payload_of (u "a1")) Framing.key4096
             (Samples.ciphertext_of (u "a1"))
             (map z2b (u "a1")) (u "a1"));
      vm_compute; reflexivity.
Defined.

Lemma has_uppercase_not_canonical (s : str) :
  has_uppercase s = true -> s <> canonical s.
Proof.
  induction s as [| c s IH]; cbn; [discriminate |].
  intros H E. injection E as Ec Es.
  apply orb_true_iff in H. destruct H as [H | H].
  - unfold ascii_lower, in_range in *. rewrite H in Ec. lia.
  - apply (IH H Es).
Qed.

(** C2, as the code has it: a ciphertext whose plaintext is a 64-character
    hexadecimal string is decrypted to that string as it stands.  The letters
    keep their case: the value returned, which the endpoint then writes to the
    seed file, is the plaintext itself, and it differs from the lowercase
    canonical form as soon as it holds a capital letter. *)
Theorem decrypted_seed_keeps_case (B : Backend) (U : UnicodeData)
  (encrypted_seed_b64 : str) (key : private_key B)
  (ciphertext plaintext : bytes) (hex_seed : str) (disk : App.storage) :
  Base64.b64decode encrypted_seed_b64 = Ok ciphertext ->
  decrypt B key ciphertext (OAEP (MGF1 SHA256) SHA256 None) = Ok plaintext ->
  decode_utf8 plaintext = Ok hex_seed ->
  is_seed_text hex_seed = true ->
  decrypt_seed B U encrypted_seed_b64 key = Ok hex_seed
  /\ App.decrypt_seed_endpoint B U (Some key) encrypted_seed_b64 disk
     = (App.status_ok, Some hex_seed)
  /\ (has_uppercase hex_seed = true -> hex_seed <> canonical hex_seed).
Proof.
  intros Ht Hd Hx Hs.
  assert (E : decrypt_seed B U encrypted_seed_b64 key = Ok hex_seed).
  { rewrite (decrypt_seed_checks B U _ _ _ _ _ Ht Hd Hx).
    apply seed_text_inv in Hs. destruct Hs as [Hl Hh].
    rewrite Hl, Hh. reflexivity. }
  split; [exact E |]. split.
  - unfold App.decrypt_seed_endpoint. rewrite E. reflexivity.
  - apply has_uppercase_not_canonical.
Qed.

Lemma decrypted_seed_keeps_case_witness :
  decrypt_seed Framing.backend PlainTables.tables
    (Samples.payload_of Samples.seed_A1) Framing.key4096
  = Ok Samples.seed_A1
  /\ App.decrypt_seed_endpoint Framing.backend PlainTables.tables
       (Some Framing.key4096) (Samples.payload_of Samples.seed_A1) None
     = (App.status_ok, Some Samples.seed_A1)
  /\ (has_uppercase Samples.seed_A1 = true ->
      Samples.seed_A1 <> canonical Samples.seed_A1).
Proof.
  apply (decrypted_seed_keeps_case Framing.backend PlainTables.tables
           (Samples.payload_of Samples.seed_A1) Framing.key4096
           (Samples.ciphertext_of Samples.seed_A1)
           (map z2b Samples.seed_A1) Samples.seed_A1 None);
    vm_compute; reflexivity.
Defined.

(** C2 as stated fails: the plaintext ["A1" * 32] holds capital letters, and
    the value returned and persisted is that text, not ["a1" * 32]. *)
Lemma seed_not_normalised :
  is_seed_text Samples.seed_A1 = true
  /\ has_uppercase Samples.seed_A1 = true
  /\ canonical Samples.seed_A1 = Samples.seed_a1
  /\ decrypt_seed Framing.backend PlainTables.tables
       (Samples.payload_of Samples.seed_A1) Framing.key4096
     = Ok Samples.seed_A1
  /\ decrypt_seed Framing.backend PlainTables.tables
       (Samples.payload_of Samples.seed_A1) Framing.key4096
     <> Ok (canonical Samples.seed_A1)
  /\ snd (App.decrypt_seed_endpoint Framing.backend PlainTables.tables
            (Some Framing.key4096) (Samples.payload_of Samples.seed_A1) None)
     <> Some (canonical Samples.seed_A1).
Proof.
  repeat split; try (vm_compute; reflexivity); vm_compute; discriminate.
Qed.

(** *** Errors of the later stages *)

Lemma decode_utf8_error_upto (n : nat) :
  forall bs, (length bs <= n)%nat ->
  forall e, decode_utf8 bs = Raise e -> e = UnicodeDecodeError.
Proof.
  induction n as [| n IH]; intros bs Hl e.
  - destruct bs; [cbn; discriminate | cbn in Hl; lia].
  - destruct bs as [| b0 r0]; [cbn; discriminate |].
    cbn [decode_utf8]. cbv zeta.
    repeat match goal with
    | |- Raise _ = Raise _ -> _ => intros [= <-]; reflexivity
    | |- bind (decode_utf8 ?r) _ = _ -> _ =>
        let E := fresh "E" in
        destruct (decode_utf8 r) eqn:E; cbn [bind];
        [discriminate
        | intros [= <-]; apply (IH r); [cbn [length] in Hl |- *; lia | exact E]]
    | |- (if ?c then _ else _) = _ -> _ => destruct c
    | |- match ?l with [] => _ | _ :: _ => _ end = _ -> _ => destruct l
    end.
Qed.

Lemma decode_utf8_error (bs : bytes) (e : exn) :
  decode_utf8 bs = Raise e -> e = UnicodeDecodeError.
Proof. apply (decode_utf8_error_upto (length bs)). lia. Qed.

Lemma decrypt_oaep_error (B : Backend) (key : private_key B) (c : bytes)
  m h l (e : exn) :
  decrypt B key c (OAEP m h l) = Raise e ->
  e = ciphertext_length_error \/ e = decryption_failed.
Proof.
  unfold decrypt. destruct (negb _); [intros [= <-]; auto |].
  destruct (oaep_decrypt _ _ _ _ _ _); [discriminate | intros [= <-]; auto].
Qed.

(** Once the text has been decoded, no later failure is an encoding error. *)
Lemma later_errors (B : Backend) (U : UnicodeData) (s : str)
  (key : private_key B) (ct : bytes) (e : exn) :
  Base64.b64decode s = Ok ct ->
  decrypt_seed B U s key = Raise e -> is_encoding_error e = false.
Proof.
  intros Ht. unfold decrypt_seed. rewrite Ht. cbn [bind].
  destruct (decrypt B key ct _) as [plain | e1] eqn:Ed; cbn [bind].
  - destruct (decode_utf8 plain) as [hex | e2] eqn:Ex; cbn [bind].
    + destruct (negb (len hex =? 64)); [intros [= <-]; reflexivity |].
      destruct (negb _); [intros [= <-]; reflexivity | discriminate].
    + intros [= <-]. apply decode_utf8_error in Ex. subst e2. reflexivity.
  - intros [= <-]. apply decrypt_oaep_error in Ed.
    destruct Ed as [-> | ->]; reflexivity.
Qed.

(** C3, as the code has it: [decrypt_seed] fails with an encoding error, the
    decoder's own and distinct from every decryption error, exactly when
    [base64.b64decode] in its default, non-validating mode raises; the error is
    passed on unchanged.  That mode does not reject characters outside the
    alphabet: it discards them, so that on ASCII text the call behaves as on
    the text with those characters removed. *)
Theorem base64_errors_only_from_decoder (B : Backend) (U : UnicodeData)
  (s : str) (key : private_key B) :
  (forall e, Base64.b64decode s = Raise e ->
             decrypt_seed B U s key = Raise e /\ is_encoding_error e = true)
  /\ (forall ct e, Base64.b64decode s = Ok ct ->
                   decrypt_seed B U s key = Raise e ->
                   is_encoding_error e = false)
  /\ (forallb is_ascii s = true ->
      decrypt_seed B U (filter in_alphabet_or_pad s) key = decrypt_seed B U s key).
Proof.
  split; [| split].
  - intros e He. split.
    + unfold decrypt_seed. rewrite He. reflexivity.
    + apply (Base64Facts.b64decode_error s e He).
  - intros ct e. apply later_errors.
  - intros Hs. unfold decrypt_seed.
    rewrite (Base64Facts.b64decode_filter s Hs). reflexivity.
Qed.

Lemma base64_errors_only_from_decoder_witness :
  decrypt_seed Framing.backend PlainTables.tables (u "YQ=") Framing.key4096
  = Raise Base64.incorrect_padding
  /\ is_encoding_error Base64.incorrect_padding = true.
Proof.
  apply (base64_errors_only_from_decoder Framing.backend PlainTables.tables
           (u "YQ=") Framing.key4096).
  vm_compute. reflexivity.
Defined.

(** C3 as stated fails.  The text ["!"] is not well-formed base64, yet it is
    decoded (to no octets at all) and the failure that follows is the
    decryption step's, not an encoding error.  A seed payload with ["!"] put in
    front is not well-formed either, and it is accepted. *)
Lemma malformed_base64_not_detected :
  well_formed_base64 (u "!") = false
  /\ Base64.b64decode (u "!") = Ok []
  /\ decrypt_seed Framing.backend PlainTables.tables (u "!") Framing.key4096
     = Raise ciphertext_length_error
  /\ is_encoding_error ciphertext_length_error = false
  /\ well_formed_base64 (u "!" ++ Samples.payload_of Samples.seed_a1) = false
  /\ decrypt_seed Framing.backend PlainTables.tables
       (u "!" ++ Samples.payload_of Samples.seed_a1) Framing.key4096
     = Ok Samples.seed_a1.
Proof.
  repeat split; vm_compute; reflexivity.
Qed.

End SeedFacts.

(* ================================================================== *)
(** ** The remaining seconds of a period *)
(* ================================================================== *)

Module ClockFacts.
Import Config CryptoUtils.

(** C6: [get_totp_remaining_seconds] returns [30 - (now mod 30)], and whatever
    the clock reads this lies between 1 and 30, both included. *)
Theorem remaining_seconds_range (current_time : Z) :
  get_totp_remaining_seconds current_time = 30 - current_time mod 30
  /\ 1 <= get_totp_remaining_seconds current_time <= 30.
Proof.
  unfold get_totp_remaining_seconds, TOTP_PERIOD.
  pose proof (Z.mod_pos_bound current_time 30 ltac:(lia)). lia.
Qed.

Example remaining_at_boundary :
  map get_totp_remaining_seconds [0; 5; 29; 30; 1700000005; -1]
  = [30; 25; 1; 30; 5; 1].
Proof. reflexivity. Qed.

End ClockFacts.

(* ================================================================== *)
(** ** The case of the seed in the TOTP derivation *)
(* ================================================================== *)

Module SeedCaseFacts.
Import Py Spec CryptoUtils PyFacts.

Lemma is_ascii_lower (c : Z) : is_ascii (ascii_lower c) = is_ascii c.
Proof.
  unfold is_ascii, ascii_lower.
  destruct ((65 <=? c) && (c <=? 90)) eqn:E; lia.
Qed.

Lemma is_space_lower (c : Z) : is_space (ascii_lower c) = is_space c.
Proof.
  unfold is_space, in_range, ascii_lower.
  destruct ((65 <=? c) && (c <=? 90)) eqn:E; lia.
Qed.

Lemma hex_value_lower (c : Z) : hex_value (ascii_lower c) = hex_value c.
Proof.
  unfold hex_value, in_range, ascii_lower.
  destruct ((65 <=? c) && (c <=? 90)) eqn:E; [| reflexivity].
  replace ((48 <=? c + 32) && (c + 32 <=? 57)) with false by lia.
  replace ((48 <=? c) && (c <=? 57)) with false by lia.
  replace ((97 <=? c) && (c <=? 102)) with false by lia.
  replace ((65 <=? c + 32) && (c + 32 <=? 70)) with false by lia.
  destruct ((65 <=? c) && (c <=? 70)) eqn:F.
  - replace ((97 <=? c + 32) && (c + 32 <=? 102)) with true by lia.
    f_equal. lia.
  - replace ((97 <=? c + 32) && (c + 32 <=? 102)) with false by lia.
    reflexivity.
Qed.

Lemma first_non_ascii_lower (s : str) (pos : Z) :
  first_non_ascii pos (canonical s) = first_non_ascii pos s.
Proof.
  revert pos. induction s as [| c s IH]; intros pos; cbn; [reflexivity |].
  rewrite is_ascii_lower, IH. reflexivity.
Qed.

Lemma fromhex_from_lower_upto (n : nat) :
  forall s pos, (length s <= n)%nat ->
  fromhex_from pos (canonical s) = fromhex_from pos s.
Proof.
  induction n as [| n IH]; intros s pos Hl.
  - destruct s; [reflexivity | cbn in Hl; lia].
  - destruct s as [| c s]; [reflexivity |].
    cbn [canonical map fromhex_from]. rewrite is_space_lower, hex_value_lower.
    cbn [length] in Hl.
    destruct (is_space c); [apply IH; lia |].
    destruct (hex_value c); [| reflexivity].
    destruct s as [| d s]; [reflexivity |].
    cbn [map]. rewrite hex_value_lower.
    destruct (hex_value d); [| reflexivity].
    fold (canonical s). rewrite IH by (cbn [length] in Hl; lia). reflexivity.
Qed.

(** [bytes.fromhex] reads capital and small digits alike. *)
Lemma fromhex_lower (s : str) : fromhex (canonical s) = fromhex s.
Proof.
  unfold fromhex. rewrite first_non_ascii_lower.
  destruct (first_non_ascii 0 s); [reflexivity |].
  apply (fromhex_from_lower_upto (length s)). lia.
Qed.

(** C10: the TOTP derivation does not depend on the case of the seed, although
    nothing normalises it.  For a 64-character hexadecimal string [S],
    [hex_to_base32] gives the same text for [S] and for [S.lower()], and so
    [generate_totp_code] and [verify_totp_code] give, at the same instant, the
    same results for both. *)
Theorem totp_ignores_seed_case (U : UnicodeData) (S : str) :
  is_seed_text S = true ->
  hex_to_base32 S = hex_to_base32 (lower U S)
  /\ (forall now, generate_totp_code S now = generate_totp_code (lower U S) now)
  /\ (forall code now valid_window,
        verify_totp_code U S code now valid_window
        = verify_totp_code U (lower U S) code now valid_window).
Proof.
  intros H. apply seed_text_inv in H. destruct H as [_ Hh].
  assert (E : hex_to_base32 S = hex_to_base32 (lower U S)).
  { unfold hex_to_base32.
    rewrite (lower_ascii U S (hex_text_ascii S Hh)), fromhex_lower.
    reflexivity. }
  split; [exact E |]. split.
  - intros now. unfold generate_totp_code. rewrite E. reflexivity.
  - intros code now w. unfold verify_totp_code. rewrite E. reflexivity.
Qed.

Lemma totp_ignores_seed_case_witness :
  hex_to_base32 Samples.seed_A1
  = hex_to_base32 (lower PlainTables.tables Samples.seed_A1)
  /\ (forall now,
        generate_totp_code Samples.seed_A1 now
        = generate_totp_code (lower PlainTables.tables Samples.seed_A1) now)
  /\ (forall code now valid_window,
        verify_totp_code PlainTables.tables Samples.seed_A1 code now valid_window
        = verify_totp_code PlainTables.tables
            (lower PlainTables.tables Samples.seed_A1) code now valid_window).
Proof.
  apply (totp_ignores_seed_case PlainTables.tables Samples.seed_A1).
  vm_compute. reflexivity.
Defined.

Example lowered_sample :
  lower PlainTables.tables Samples.seed_A1 = Samples.seed_a1
  /\ Samples.seed_A1 <> Samples.seed_a1.
Proof. split; [reflexivity | vm_compute; discriminate]. Qed.

End SeedCaseFacts.

(* ================================================================== *)
(** ** Signing, and the size of what is signed and encrypted *)
(* ================================================================== *)

Module ProofFacts.
Import Py Spec Cryptography CryptoUtils GenerateProof PyFacts.

Lemma fromhex_from_length_upto (n : nat) :
  forall s pos raw, (length s <= n)%nat ->
  fromhex_from pos s = Ok raw -> (2 * length raw <= length s)%nat.
Proof.
  induction n as [| n IH]; intros s pos raw Hl.
  - destruct s; [intros [= <-]; cbn; lia | cbn in Hl; lia].
  - destruct s as [| c s]; [intros [= <-]; cbn; lia |].
    cbn [fromhex_from length] in *.
    destruct (is_space c).
    { intros H. apply IH in H; lia. }
    destruct (hex_value c); [| discriminate].
    destruct s as [| d s]; [discriminate |].
    destruct (hex_value d); [| discriminate].
    destruct (fromhex_from (pos + 2) s) as [tl |] eqn:E; cbn [bind];
      [| discriminate].
    intros [= <-]. cbn [length] in *. apply IH in E; lia.
Qed.

Lemma fromhex_length (s : str) (raw : bytes) :
  fromhex s = Ok raw -> (2 * length raw <= length s)%nat.
Proof.
  unfold fromhex. destruct (first_non_ascii 0 s); [discriminate |].
  apply (fromhex_from_length_upto (length s)). lia.
Qed.

Lemma encode_utf8_length (s : str) (b : bytes) :
  encode_utf8 s = Ok b -> (length s <= length b)%nat.
Proof.
  revert b. induction s as [| c s IH]; intros b; cbn [encode_utf8].
  - intros [= <-]. cbn. lia.
  - destruct (encode_cp c) as [bs |] eqn:Ec; cbn [bind]; [| discriminate].
    destruct (encode_utf8 s) as [tl |]; cbn [bind]; [| discriminate].
    intros [= <-]. specialize (IH tl eq_refl).
    assert (1 <= length bs)%nat.
    { unfold encode_cp in Ec.
      repeat match type of Ec with
             | (if ?c then _ else _) = _ => destruct c
             end;
        try discriminate; injection Ec as <-; cbn; lia. }
    rewrite length_app. cbn [length]. lia.
Qed.

(** The octets of a text are never the octets its hexadecimal digits stand
    for. *)
Lemma text_is_not_its_hex_decoding (message : str) (raw : bytes) :
  message <> [] -> fromhex message = Ok raw -> encode_utf8 message <> Ok raw.
Proof.
  intros Hne Hx He. apply fromhex_length in Hx. apply encode_utf8_length in He.
  destruct message; [congruence | cbn [length] in *; lia].
Qed.

(** C9: [sign_message] signs the UTF-8 encoding of the message text.  For
    every message, the octets handed to the signing primitive are
    [message.encode('utf-8')], under PSS with MGF1 over SHA-256, the maximum
    salt length and the SHA-256 digest; with a key that leaves room for a salt
    the result is the RSASSA-PSS signature of exactly those octets.  They are
    never the binary decoding of a hexadecimal message: for a non-empty
    message that [bytes.fromhex] can decode, the two differ. *)
Theorem sign_message_signs_text (B : Backend) (message : str)
  (key : private_key B) (r : entropy) :
  sign_message B message key r
  = bind (encode_utf8 message) (fun message_bytes =>
      sign B key r message_bytes (PSS (MGF1 SHA256) MAX_LENGTH) SHA256)
  /\ (forall message_bytes,
        encode_utf8 message = Ok message_bytes ->
        0 <= max_pss_salt_length (private_key_size B key) SHA256 ->
        sign_message B message key r
        = Ok (pss_sign B key r (MGF1 SHA256)
                (max_pss_salt_length (private_key_size B key) SHA256) SHA256
                message_bytes))
  /\ (forall raw,
        message <> [] -> fromhex message = Ok raw ->
        encode_utf8 message <> Ok raw).
Proof.
  split; [reflexivity |]. split.
  - intros mb He Hs. unfold sign_message, sign. rewrite He. cbn [bind].
    assert (Hm : max_pss_salt_length (private_key_size B key) SHA256
                 <= octets (private_key_size B key) - digest_size SHA256 - 2).
    { unfold max_pss_salt_length, octets.
      pose proof (Z.div_le_mono (private_key_size B key + 6)
                    (private_key_size B key + 7) 8 ltac:(lia) ltac:(lia)).
      lia. }
    replace (octets (private_key_size B key) - digest_size SHA256 - 2 <? 0)
      with false by lia.
    replace (max_pss_salt_length (private_key_size B key) SHA256 <? 0)
      with false by lia.
    rewrite Z.ltb_irrefl. reflexivity.
  - intros raw. apply text_is_not_its_hex_decoding.
Qed.

Example sample_commit_signed :
  sign_message Framing.backend Samples.sample_commit Framing.key4096 []
  = Ok (Framing.fill Framing.key4096 (map z2b Samples.sample_commit))
  /\ fromhex Samples.sample_commit
     = Ok (map z2b [63; 44; 154; 27; 93; 126; 143; 0; 17; 34; 51; 68; 85; 102;
                    119; 136; 153; 170; 187; 204])
  /\ encode_utf8 Samples.sample_commit = Ok (map z2b Samples.sample_commit).
Proof. repeat split; vm_compute; reflexivity. Qed.

(** C1, as the code has it: with a 4096-bit holder key the signature has 512
    octets, and [encrypt_with_public_key] accepts it exactly when the issuer's
    modulus has at least 578 octets.  Under a 4096-bit issuer key the bound on
    the payload is 446 octets: the encryption raises the payload-size error
    and the script ends with it. *)
Theorem proof_needs_longer_issuer_key (B : Backend) (commit_hash : str)
  (message_bytes : bytes) (student_private_key : private_key B)
  (instructor_public_key : public_key B) (r_sign r_encrypt : entropy) :
  encode_utf8 commit_hash = Ok message_bytes ->
  private_key_size B student_private_key = 4096 ->
  exists signature,
    sign_message B commit_hash student_private_key r_sign = Ok signature
    /\ len signature = 512
    /\ (is_ok (encrypt_with_public_key B signature instructor_public_key r_encrypt)
        = true
        <-> 578 <= octets (public_key_size B instructor_public_key))
    /\ (public_key_size B instructor_public_key = 4096 ->
        oaep_max_payload (public_key_size B instructor_public_key) SHA256 = 446
        /\ encrypt_with_public_key B signature instructor_public_key r_encrypt
           = Raise encryption_failed
        /\ main B commit_hash (Some student_private_key)
             (Some instructor_public_key) r_sign r_encrypt
           = Uncaught encryption_failed).
Proof.
  intros He Hk.
  assert (Hs : sign_message B commit_hash student_private_key r_sign
               = Ok (pss_sign B student_private_key r_sign (MGF1 SHA256) 478
                       SHA256 message_bytes)).
  { unfold sign_message, sign. rewrite He, Hk. reflexivity. }
  eexists. split; [exact Hs |].
  assert (Hl : len (pss_sign B student_private_key r_sign (MGF1 SHA256) 478
                      SHA256 message_bytes) = 512).
  { rewrite pss_sign_length by (rewrite Hk; cbn; lia). rewrite Hk. reflexivity. }
  split; [exact Hl |]. split.
  - unfold encrypt_with_public_key, encrypt, oaep_max_payload. rewrite Hl.
    cbn [digest_size].
    destruct (octets (public_key_size B instructor_public_key) - 2 * 32 - 2 <? 512)
      eqn:E; cbn [is_ok]; split; intros; try discriminate; try reflexivity; lia.
  - intros Hp.
    assert (Hx : encrypt_with_public_key B
                   (pss_sign B student_private_key r_sign (MGF1 SHA256) 478
                      SHA256 message_bytes) instructor_public_key r_encrypt
                 = Raise encryption_failed).
    { unfold encrypt_with_public_key, encrypt. rewrite Hl, Hp. reflexivity. }
    split; [rewrite Hp; reflexivity |]. split; [exact Hx |].
    unfold main, run. rewrite Hs, Hx. reflexivity.
Qed.

Lemma proof_needs_longer_issuer_key_witness :
  exists signature,
    sign_message Framing.backend Samples.sample_commit Framing.key4096 [] = Ok signature
    /\ len signature = 512
    /\ (is_ok (encrypt_with_public_key Framing.backend signature
                 Framing.key4096 []) = true
        <-> 578 <= octets (public_key_size Framing.backend Framing.key4096))
    /\ (public_key_size Framing.backend Framing.key4096 = 4096 ->
        oaep_max_payload (public_key_size Framing.backend Framing.key4096) SHA256
        = 446
        /\ encrypt_with_public_key Framing.backend signature Framing.key4096 []
           = Raise encryption_failed
        /\ main Framing.backend Samples.sample_commit (Some Framing.key4096)
             (Some Framing.key4096) [] []
           = Uncaught encryption_failed).
Proof.
  apply (proof_needs_longer_issuer_key Framing.backend Samples.sample_commit
           (map z2b Samples.sample_commit) Framing.key4096 Framing.key4096 [] []);
    vm_compute; reflexivity.
Defined.

(** C1 as stated fails: with 4096-bit keys on both sides the signature of 512
    octets exceeds the bound of 446, and building the proof ends with the
    payload-size error. *)
Lemma proof_fails_with_4096_bit_keys :
  private_key_size Framing.backend Framing.key4096 = 4096
  /\ public_key_size Framing.backend Framing.key4096 = 4096
  /\ (exists signature,
        sign_message Framing.backend Samples.sample_commit Framing.key4096 []
        = Ok signature
        /\ len signature = 512
        /\ encrypt_with_public_key Framing.backend signature Framing.key4096 []
           = Raise encryption_failed)
  /\ main Framing.backend Samples.sample_commit (Some Framing.key4096)
       (Some Framing.key4096) [] []
     = Uncaught encryption_failed.
Proof.
  split; [reflexivity |]. split; [reflexivity |]. split.
  - eexists. split; [vm_compute; reflexivity |].
    split; vm_compute; reflexivity.
  - vm_compute. reflexivity.
Qed.

(** With an issuer key of 8192 bits the same script prints the proof. *)
Example proof_with_longer_issuer_key :
  exists text,
    main Framing.backend Samples.sample_commit (Some Framing.key4096)
      (Some {| Framing.bits := 8192 |}) [] []
    = Printed Samples.sample_commit text.
Proof. eexists. vm_compute. reflexivity. Qed.

End ProofFacts.

(* ================================================================== *)
(** ** Encrypting a seed and decrypting it again *)
(* ================================================================== *)

Module RoundTrip.
Import Py Spec Cryptography Config CryptoUtils PyFacts.

Lemma b2a_base64_ascii_upto (k : nat) :
  forall data, (length data <= k)%nat ->
  forallb (fun b => b2z b <? 128) (Base64.b2a_base64 data) = true.
Proof.
  induction k as [| k IH]; intros data Hk.
  - destruct data; [reflexivity | cbn in Hk; lia].
  - destruct data as [| a [| b [| c rest]]]; cbn [Base64.b2a_base64 forallb].
    + reflexivity.
    + rewrite !Base64Facts.b2a_ascii. reflexivity.
    + rewrite !Base64Facts.b2a_ascii. reflexivity.
    + rewrite !Base64Facts.b2a_ascii, IH by (cbn [length] in Hk; lia).
      reflexivity.
Qed.

Lemma b64encode_ascii (data : bytes) :
  forallb (fun b => b2z b <? 128) (Base64.b64encode data) = true.
Proof. apply (b2a_base64_ascii_upto (length data)). lia. Qed.

Lemma low_octets_ascii (bs : bytes) :
  forallb (fun b => b2z b <? 128) bs = true ->
  forallb is_ascii (map b2z bs) = true.
Proof.
  induction bs as [| b bs IH]; cbn [map forallb]; [reflexivity |].
  intros H. apply andb_true_iff in H. destruct H as [Hb Hs].
  rewrite IH by assumption. unfold is_ascii. pose proof (b2z_range b). lia.
Qed.

Lemma map_z2b_b2z (bs : bytes) : map z2b (map b2z bs) = bs.
Proof.
  rewrite map_map. rewrite <- (map_id bs) at 2.
  apply map_ext. apply z2b_b2z.
Qed.

(** The base64 text of some octets decodes to them. *)
Lemma b64decode_b64encode (data : bytes) :
  decode_utf8 (Base64.b64encode data) = Ok (map b2z (Base64.b64encode data))
  /\ Base64.b64decode (map b2z (Base64.b64encode data)) = Ok data.
Proof.
  pose proof (b64encode_ascii data) as Ha. split.
  - apply decode_utf8_low, Ha.
  - unfold Base64.b64decode, Base64.bytes_from_decode_data.
    rewrite (low_octets_ascii _ Ha). cbn [bind].
    rewrite map_z2b_b2z. apply Base64Facts.a2b_b2a.
Qed.

Lemma generated_sizes (B : Backend) (r : entropy) (key_size : Z)
  (sk : private_key B) (pk : public_key B) :
  generate_rsa_keypair B r key_size = Ok (sk, pk) ->
  pk = public_of B sk
  /\ private_key_size B sk = key_size
  /\ public_key_size B pk = key_size.
Proof.
  unfold generate_rsa_keypair, generate_private_key, RSA_PUBLIC_EXPONENT.
  cbn [Z.eqb Pos.eqb orb negb].
  destruct (key_size <? 512) eqn:E; cbn [bind]; [discriminate |].
  intros [= <- <-].
  assert (Hs : private_key_size B (keygen B r 65537 key_size) = key_size)
    by (apply keygen_size; lia).
  rewrite public_of_size. auto.
Qed.

(** The round trip at any key size whose payload bound admits the 64 octets
    of a seed. *)
Lemma round_trip_when_seed_fits (B : Backend) (U : UnicodeData)
  (r_keys r_encrypt : entropy) (key_size : Z) (sk : private_key B)
  (pk : public_key B) (S : str) :
  is_seed_text S = true ->
  generate_rsa_keypair B r_keys key_size = Ok (sk, pk) ->
  64 <= oaep_max_payload key_size SHA256 ->
  exists plaintext ciphertext text,
    encode_utf8 S = Ok plaintext
    /\ encrypt_with_public_key B plaintext pk r_encrypt = Ok ciphertext
    /\ decode_utf8 (Base64.b64encode ciphertext) = Ok text
    /\ decrypt_seed B U text sk = Ok S.
Proof.
  intros HS Hg Hfit.
  destruct (generated_sizes B _ _ _ _ Hg) as [-> [Hsk Hpk]].
  destruct (seed_text_inv S HS) as [Hlen Hhex].
  pose proof (hex_text_ascii S Hhex) as Hascii.
  set (plaintext := map z2b S).
  assert (Hl : len plaintext = 64).
  { unfold plaintext. rewrite len_map. unfold len. rewrite Hlen. reflexivity. }
  set (ciphertext :=
         oaep_encrypt B (public_of B sk) r_encrypt (MGF1 SHA256) SHA256 None
           plaintext).
  destruct (b64decode_b64encode ciphertext) as [Htext Hback].
  exists plaintext, ciphertext, (map b2z (Base64.b64encode ciphertext)).
  split; [apply encode_utf8_ascii, Hascii |].
  split.
  { unfold encrypt_with_public_key, encrypt. rewrite Hpk, Hl.
    replace (oaep_max_payload key_size SHA256 <? 64) with false by lia.
    reflexivity. }
  split; [exact Htext |].
  rewrite (SeedFacts.decrypt_seed_checks B U _ sk ciphertext plaintext S Hback).
  - rewrite Hlen, Hhex. reflexivity.
  - unfold decrypt. unfold ciphertext at 1.
    unfold oaep_max_payload in Hfit.
    rewrite oaep_encrypt_length by (rewrite Hpk, Hl; exact Hfit).
    rewrite Hpk, Hsk, Z.eqb_refl. cbn [negb].
    unfold ciphertext. rewrite oaep_decrypt_encrypt by (rewrite Hsk, Hl; exact Hfit).
    reflexivity.
  - apply decode_utf8_ascii, Hascii.
Qed.

(** C7: round trip.  For every 64-character hexadecimal string [S] and every
    key pair that [generate_rsa_keypair] produces at its size of 4096 bits,
    encrypting the UTF-8 octets of [S] with [encrypt_with_public_key] under
    the public key and handing the base64 text of the ciphertext to
    [decrypt_seed] with the private key succeeds and returns [S]. *)
Theorem seed_round_trip (B : Backend) (U : UnicodeData) (r_keys r_encrypt : entropy)
  (sk : private_key B) (pk : public_key B) (S : str) :
  is_seed_text S = true ->
  generate_rsa_keypair B r_keys RSA_KEY_SIZE = Ok (sk, pk) ->
  exists plaintext ciphertext text,
    encode_utf8 S = Ok plaintext
    /\ encrypt_with_public_key B plaintext pk r_encrypt = Ok ciphertext
    /\ decode_utf8 (Base64.b64encode ciphertext) = Ok text
    /\ decrypt_seed B U text sk = Ok S.
Proof.
  intros HS Hg.
  apply (round_trip_when_seed_fits B U r_keys r_encrypt RSA_KEY_SIZE sk pk S HS Hg).
  unfold oaep_max_payload, RSA_KEY_SIZE. cbn. lia.
Qed.

Lemma seed_round_trip_witness :
  exists plaintext ciphertext text,
    encode_utf8 Samples.seed_a1 = Ok plaintext
    /\ encrypt_with_public_key Framing.backend plaintext Framing.key4096 []
       = Ok ciphertext
    /\ decode_utf8 (Base64.b64encode ciphertext) = Ok text
    /\ decrypt_seed Framing.backend PlainTables.tables text Framing.key4096
       = Ok Samples.seed_a1.
Proof.
  apply (seed_round_trip Framing.backend PlainTables.tables [] []
           Framing.key4096 Framing.key4096 Samples.seed_a1);
    vm_compute; reflexivity.
Defined.

(** A key of 1024 bits admits 62 octets: the seed does not fit. *)
Example seed_too_long_for_1024_bits :
  oaep_max_payload 1024 SHA256 = 62
  /\ encrypt_with_public_key Framing.backend (map z2b Samples.seed_a1)
       {| Framing.bits := 1024 |} []
     = Raise encryption_failed.
Proof. split; vm_compute; reflexivity. Qed.

End RoundTrip.

(* ================================================================== *)
(** ** Base32: decoding what was encoded *)
(* ================================================================== *)

Module Base32Facts.
Import Py Base64 Support PyFacts Base64Facts.

Lemma land_1023 x : Z.land x 1023 = x mod 1024.
Proof. change 1023 with (Z.ones 10). rewrite Z.land_ones by lia. reflexivity. Qed.

Ltac to_arith :=
  rewrite ?land_1023, ?Z.shiftl_mul_pow2, ?Z.shiftr_div_pow2 by lia;
  change (2 ^ 5) with 32 in *; change (2 ^ 8) with 256 in *;
  change (2 ^ 10) with 1024 in *; change (2 ^ 16) with 65536 in *;
  change (2 ^ 20) with 1048576 in *; change (2 ^ 24) with 16777216 in *;
  change (2 ^ 30) with 1073741824 in *; change (2 ^ 32) with 4294967296 in *;
  change (2 ^ 40) with 1099511627776 in *.

Lemma sextets_value c : 0 <= c < 2 ^ 40 -> accumulate (sextets c) 0 = c.
Proof.
  intros H. unfold sextets, accumulate. cbn [fold_left]. to_arith.
  Z.to_euclidean_division_equations; lia.
Qed.

Lemma sextets_range c :
  0 <= c < 2 ^ 40 -> forallb is_quintet (sextets c) = true.
Proof.
  intros H. unfold sextets, is_quintet. cbn [forallb]. to_arith.
  rewrite !andb_true_iff. repeat split; Z.to_euclidean_division_equations; lia.
Qed.

Lemma b32tab_inverse (i : Z) :
  is_quintet i = true ->
  b32rev (b2z (b32tab i)) = Some i
  /\ (b2z (b32tab i) =? BASE64_PAD) = false
  /\ bytes_upper (b32tab i) = b32tab i
  /\ (b2z (b32tab i) <? 128) = true.
Proof.
  intros H. unfold is_quintet in H.
  pose proof (below_checked
    (fun i => match b32rev (b2z (b32tab i)) with Some v => v =? i | None => false end
              && negb (b2z (b32tab i) =? BASE64_PAD)
              && Byte.eqb (bytes_upper (b32tab i)) (b32tab i)
              && (b2z (b32tab i) <? 128))
    32 ltac:(vm_compute; reflexivity) i ltac:(lia)) as C.
  cbv beta in C. rewrite !andb_true_iff in C.
  destruct C as [[[C1 C2] C3] C4].
  destruct (b32rev (b2z (b32tab i))); [| discriminate].
  apply Z.eqb_eq in C1. subst. apply negb_true_iff in C2.
  apply Byte.byte_dec_bl in C3. auto.
Qed.

Lemma b32_acc_tabs (idxs : list Z) :
  forallb is_quintet idxs = true ->
  forall acc, b32_acc (map b32tab idxs) acc = Ok (accumulate idxs acc).
Proof.
  induction idxs as [| i idxs IH]; intros H acc; [reflexivity |].
  cbn [forallb] in H. apply andb_true_iff in H. destruct H as [Hi Hs].
  cbn [map b32_acc]. destruct (b32tab_inverse i Hi) as [-> _].
  apply IH, Hs.
Qed.

Lemma from_bytes5 (a b c d e : byte) :
  from_bytes [a; b; c; d; e]
  = (((b2z a * 256 + b2z b) * 256 + b2z c) * 256 + b2z d) * 256 + b2z e.
Proof. reflexivity. Qed.

Lemma from_bytes5_range (a b c d e : byte) :
  0 <= from_bytes [a; b; c; d; e] < 2 ^ 40.
Proof.
  rewrite from_bytes5.
  pose proof (b2z_range a). pose proof (b2z_range b). pose proof (b2z_range c).
  pose proof (b2z_range d). pose proof (b2z_range e). lia.
Qed.

Lemma z2b_eq (z : Z) (b : byte) : z mod 256 = b2z b -> z2b z = b.
Proof. intros H. rewrite <- z2b_mod, H. apply z2b_b2z. Qed.

Lemma to_bytes5_from_bytes (a b c d e : byte) :
  to_bytes5 (from_bytes [a; b; c; d; e]) = [a; b; c; d; e].
Proof.
  rewrite from_bytes5. unfold to_bytes5.
  pose proof (b2z_range a). pose proof (b2z_range b). pose proof (b2z_range c).
  pose proof (b2z_range d). pose proof (b2z_range e).
  repeat f_equal; apply z2b_eq; to_arith;
    Z.to_euclidean_division_equations; lia.
Qed.

(** Induction over octets five at a time. *)
Lemma by_fives (P : bytes -> Prop) :
  P [] -> (forall a, P [a]) -> (forall a b, P [a; b]) ->
  (forall a b c, P [a; b; c]) -> (forall a b c d, P [a; b; c; d]) ->
  (forall a b c d e rest, P rest -> P (a :: b :: c :: d :: e :: rest)) ->
  forall s, P s.
Proof.
  intros H0 H1 H2 H3 H4 H5 s.
  assert (G : forall n s, (length s <= n)%nat -> P s).
  { induction n as [| n IH]; intros t Ht.
    - destruct t; [exact H0 | cbn in Ht; lia].
    - destruct t as [| a [| b [| c [| d [| e rest]]]]]; auto.
      apply H5, IH. cbn [length] in Ht. lia. }
  apply (G (length s)). lia.
Qed.

Lemma b32encode_shape (s : bytes) :
  b32encode s = map b32tab (body s) ++ pad_chars (pads s).
Proof.
  induction s as [| a | a b | a b c | a b c d | a b c d e rest IH] using by_fives;
    try reflexivity.
  cbn [b32encode body pads]. rewrite IH, map_app, <- app_assoc. reflexivity.
Qed.

Lemma zero_filled_range (partial : bytes) :
  (length partial <= 5)%nat -> 0 <= zero_filled partial < 2 ^ 40.
Proof.
  intros H. unfold zero_filled.
  destruct partial as [| a [| b [| c [| d [| e [| f rest]]]]]];
    cbn [length] in H; try lia; cbn [app repeat length Nat.sub];
    apply from_bytes5_range.
Qed.

Lemma forallb_firstn {A} (f : A -> bool) (n : nat) (l : list A) :
  forallb f l = true -> forallb f (firstn n l) = true.
Proof.
  revert l. induction n as [| n IH]; intros [| x l]; cbn; auto.
  intros H. apply andb_true_iff in H. destruct H as [-> H]. apply IH, H.
Qed.

Lemma body_range (s : bytes) : forallb is_quintet (body s) = true.
Proof.
  induction s as [| a | a b | a b c | a b c d | a b c d e rest IH] using by_fives;
    try (apply forallb_firstn, sextets_range, zero_filled_range; cbn; lia).
  cbn [body]. rewrite forallb_app, IH, sextets_range by apply from_bytes5_range.
  reflexivity.
Qed.

Lemma b32_quanta_partial (idxs : list Z) :
  forallb is_quintet idxs = true -> (0 < length idxs <= 8)%nat ->
  b32_quanta (map b32tab idxs)
  = Ok (to_bytes5 (accumulate idxs 0), accumulate idxs 0).
Proof.
  intros Hr Hl.
  assert (E : b32_quanta (map b32tab idxs)
              = bind (b32_acc (map b32tab idxs) 0)
                     (fun acc => Ok (to_bytes5 acc, acc))).
  { destruct idxs as [| i0 [| i1 [| i2 [| i3 [| i4 [| i5 [| i6 [| i7 [| i8 r]]]]]]]]];
      cbn [length] in Hl; try lia; reflexivity. }
  rewrite E, b32_acc_tabs by exact Hr. reflexivity.
Qed.

Lemma body_nonempty (s : bytes) : s <> [] -> body s <> [].
Proof.
  destruct s as [| a [| b [| c [| d [| e rest]]]]]; try congruence;
    intros _; discriminate.
Qed.

Lemma b32_quanta_full (c : Z) (rest : list Z) :
  0 <= c < 2 ^ 40 -> forallb is_quintet rest = true -> rest <> [] ->
  b32_quanta (map b32tab (sextets c ++ rest))
  = bind (b32_quanta (map b32tab rest)) (fun '(decoded, last) =>
      Ok (to_bytes5 c ++ decoded, last)).
Proof.
  intros Hc Hr Hne. destruct rest as [| r0 rest]; [congruence |].
  pose proof (b32_acc_tabs (sextets c) (sextets_range c Hc) 0) as Ha.
  rewrite sextets_value in Ha by exact Hc.
  unfold sextets in *. cbn [map app] in *. cbn [b32_quanta].
  rewrite Ha. reflexivity.
Qed.

Lemma b32_quanta_body (s : bytes) :
  b32_quanta (map b32tab (body s)) = Ok (quanta_result s).
Proof.
  induction s as [| a | a b | a b c | a b c d | a b c d e rest IH] using by_fives;
    try reflexivity;
    try (apply b32_quanta_partial;
         [apply forallb_firstn, sextets_range, zero_filled_range; cbn; lia
         | cbn; lia]).
  cbn [body quanta_result].
  destruct rest as [| r0 rest'] eqn:Er.
  - cbn [body kept_chars length firstn]. rewrite app_nil_r.
    rewrite b32_quanta_partial.
    + rewrite sextets_value by apply from_bytes5_range.
      rewrite to_bytes5_from_bytes. reflexivity.
    + apply sextets_range, from_bytes5_range.
    + cbn. lia.
  - rewrite <- Er in *. rewrite b32_quanta_full.
    + rewrite IH. cbn [bind]. destruct (quanta_result rest).
      rewrite to_bytes5_from_bytes. reflexivity.
    + apply from_bytes5_range.
    + apply body_range.
    + apply body_nonempty. subst rest. discriminate.
Qed.

Lemma partial_restored (partial : bytes) :
  (0 < length partial < 5)%nat ->
  Z.shiftl (accumulate (firstn (kept_chars (length partial))
                               (sextets (zero_filled partial))) 0)
           (5 * Z.of_nat (pads partial))
  = zero_filled partial.
Proof.
  intros H.
  destruct partial as [| a [| b [| c [| d [| e rest]]]]];
    cbn [length] in H; try lia;
    unfold zero_filled; cbn [length Nat.sub repeat app];
    rewrite from_bytes5, zero_octet;
    cbn [kept_chars length firstn sextets pads accumulate fold_left];
    [pose proof (b2z_range a)
    |pose proof (b2z_range a); pose proof (b2z_range b)
    |pose proof (b2z_range a); pose proof (b2z_range b); pose proof (b2z_range c)
    |pose proof (b2z_range a); pose proof (b2z_range b); pose proof (b2z_range c);
     pose proof (b2z_range d)];
    rewrite ?land_1023, ?Z.shiftl_mul_pow2, ?Z.shiftr_div_pow2 by lia;
    cbn [Z.of_nat Pos.of_succ_nat Pos.succ Z.mul Pos.mul Pos.add];
    change (2 ^ 5) with 32; change (2 ^ 10) with 1024;
    change (2 ^ 20) with 1048576; change (2 ^ 30) with 1073741824;
    change (2 ^ 15) with 32768;
    Z.to_euclidean_division_equations; lia.
Qed.

Lemma to_bytes5_zero_filled (partial : bytes) :
  (length partial <= 5)%nat ->
  to_bytes5 (zero_filled partial) = partial ++ repeat x00 (5 - length partial).
Proof.
  intros H. unfold zero_filled.
  destruct partial as [| a [| b [| c [| d [| e [| f rest]]]]]];
    cbn [length] in H; try lia; cbn [app repeat length Nat.sub];
    apply to_bytes5_from_bytes.
Qed.

Lemma fixed_up_partial (partial : bytes) :
  (0 < length partial < 5)%nat -> fixed_up partial = partial.
Proof.
  intros H. unfold fixed_up.
  assert (E : quanta_result partial
              = (to_bytes5 (accumulate (firstn (kept_chars (length partial))
                                          (sextets (zero_filled partial))) 0),
                 accumulate (firstn (kept_chars (length partial))
                                    (sextets (zero_filled partial))) 0)).
  { destruct partial as [| a [| b [| c [| d [| e rest]]]]];
      cbn [length] in H; try lia; reflexivity. }
  rewrite E, partial_restored, to_bytes5_zero_filled by lia.
  destruct partial as [| a [| b [| c [| d [| e rest]]]]];
    cbn [length] in H; try lia; reflexivity.
Qed.

Lemma quanta_result_cons (a b c d e : byte) (rest : bytes) :
  rest <> [] ->
  quanta_result (a :: b :: c :: d :: e :: rest)
  = ([a; b; c; d; e] ++ fst (quanta_result rest), snd (quanta_result rest)).
Proof.
  destruct rest as [| r0 rest']; [congruence |]. intros _.
  change (quanta_result (a :: b :: c :: d :: e :: r0 :: rest'))
    with (let '(decoded, last) := quanta_result (r0 :: rest') in
          ([a; b; c; d; e] ++ decoded, last)).
  destruct (quanta_result (r0 :: rest')). reflexivity.
Qed.

Lemma quanta_result_length (s : bytes) :
  s <> [] -> (5 <= length (fst (quanta_result s)))%nat.
Proof.
  induction s as [| a | a b | a b c | a b c d | a b c d e rest IH] using by_fives;
    try congruence; try (intros _; cbn; lia).
  intros _. destruct rest as [| r0 rest']; [cbn; lia |].
  rewrite quanta_result_cons by discriminate. cbn [fst].
  rewrite length_app. cbn [length]. lia.
Qed.

Lemma fixed_up_correct (s : bytes) : fixed_up s = s.
Proof.
  induction s as [| a | a b | a b c | a b c d | a b c d e rest IH] using by_fives;
    try (apply fixed_up_partial; cbn; lia); [reflexivity |].
  destruct rest as [| r0 rest'] eqn:Er; [reflexivity |].
  rewrite <- Er in *.
  assert (Hne : rest <> []) by (subst rest; discriminate).
  pose proof (quanta_result_length rest Hne) as Hl.
  unfold fixed_up in *. rewrite (quanta_result_cons a b c d e rest Hne).
  cbn [pads]. destruct (quanta_result rest) as [decoded last]. cbn [fst snd] in *.
  replace (len ([a; b; c; d; e] ++ decoded) =? 0) with false
    by (symmetry; apply Z.eqb_neq; rewrite len_app; unfold len; cbn [length]; lia).
  replace (len decoded =? 0) with false in IH
    by (symmetry; apply Z.eqb_neq; unfold len; lia).
  replace (pads (a :: b :: c :: d :: e :: rest)) with (pads rest)
    by (subst rest; reflexivity).
  destruct (negb (Z.of_nat (pads rest) =? 0)); cbn [andb negb] in *.
  - replace (length ([a; b; c; d; e] ++ decoded) - 5)%nat
      with (5 + (length decoded - 5))%nat
      by (rewrite length_app; cbn [length]; lia).
    cbn [app Nat.add firstn]. do 5 f_equal. exact IH.
  - rewrite IH. reflexivity.
Qed.

Lemma pads_allowed (s : bytes) :
  existsb (Z.eqb (Z.of_nat (pads s))) [0; 1; 3; 4; 6] = true.
Proof.
  induction s as [| a | a b | a b c | a b c d | a b c d e rest IH] using by_fives;
    try reflexivity.
  exact IH.
Qed.

Lemma encoded_length (s : bytes) :
  exists k, (length (body s) + pads s = 8 * k)%nat.
Proof.
  induction s as [| a | a b | a b c | a b c d | a b c d e rest IH] using by_fives;
    try (exists 1%nat; reflexivity); [exists 0%nat; reflexivity |].
  destruct IH as [k Hk]. exists (S k).
  cbn [body pads]. rewrite length_app. cbn [sextets length]. lia.
Qed.

Lemma rstrip_pad_rev_repeat (k : nat) (r : bytes) :
  rstrip_pad_rev (repeat (z2b BASE64_PAD) k ++ r) = rstrip_pad_rev r.
Proof. induction k; cbn [repeat app rstrip_pad_rev]; auto. Qed.

Lemma rstrip_pad_rev_keeps (r : bytes) :
  forallb (fun c => negb (b2z c =? BASE64_PAD)) r = true ->
  rstrip_pad_rev r = r.
Proof.
  destruct r as [| c r]; [reflexivity |]. cbn [forallb rstrip_pad_rev].
  intros H. apply andb_true_iff in H. destruct H as [Hc _].
  apply negb_true_iff in Hc. rewrite Hc. reflexivity.
Qed.

Lemma forallb_rev_true {A} (f : A -> bool) (l : list A) :
  forallb f l = true -> forallb f (rev l) = true.
Proof.
  rewrite !forallb_forall. intros H x Hx. apply H, in_rev, Hx.
Qed.

Lemma rstrip_pad_pads (x : bytes) (k : nat) :
  forallb (fun c => negb (b2z c =? BASE64_PAD)) x = true ->
  rstrip_pad (x ++ pad_chars k) = x.
Proof.
  intros H. unfold rstrip_pad, pad_chars.
  rewrite rev_app_distr, rev_repeat, rstrip_pad_rev_repeat.
  rewrite rstrip_pad_rev_keeps by apply forallb_rev_true, H.
  apply rev_involutive.
Qed.

Lemma tabs_facts (idxs : list Z) :
  forallb is_quintet idxs = true ->
  forallb (fun c => negb (b2z c =? BASE64_PAD)) (map b32tab idxs) = true
  /\ map bytes_upper (map b32tab idxs) = map b32tab idxs
  /\ forallb (fun b => b2z b <? 128) (map b32tab idxs) = true.
Proof.
  induction idxs as [| i idxs IH]; cbn [forallb map]; [auto |].
  intros H. apply andb_true_iff in H. destruct H as [Hi Hs].
  destruct (IH Hs) as [I1 [I2 I3]].
  destruct (b32tab_inverse i Hi) as [_ [T1 [T2 T3]]].
  rewrite T1, T2, T3, I1, I2, I3. auto.
Qed.

Lemma pads_facts (k : nat) :
  map bytes_upper (pad_chars k) = pad_chars k
  /\ forallb (fun b => b2z b <? 128) (pad_chars k) = true.
Proof.
  unfold pad_chars. induction k as [| k [I1 I2]]; cbn [repeat map forallb]; [auto |].
  rewrite I1, I2. auto.
Qed.

(** [base64.b32decode(_, casefold=True)] inverts [base64.b32encode]. *)
Lemma b32decode_b32encode (data : bytes) :
  decode_utf8 (b32encode data) = Ok (map b2z (b32encode data))
  /\ b32decode (map b2z (b32encode data)) true = Ok data.
Proof.
  pose proof (body_range data) as Hr.
  destruct (tabs_facts (body data) Hr) as [Hnp [Hup Hlow]].
  destruct (pads_facts (pads data)) as [Pup Plow].
  assert (Ha : forallb (fun b => b2z b <? 128) (b32encode data) = true).
  { rewrite b32encode_shape, forallb_app, Hlow, Plow. reflexivity. }
  split; [apply decode_utf8_low, Ha |].
  unfold b32decode, bytes_from_decode_data.
  rewrite (RoundTrip.low_octets_ascii _ Ha). cbn [bind].
  rewrite RoundTrip.map_z2b_b2z, b32encode_shape.
  destruct (encoded_length data) as [k Hk].
  assert (Hlen : len (map b32tab (body data) ++ pad_chars (pads data))
                 = 8 * Z.of_nat k).
  { unfold len, pad_chars.
    rewrite length_app, length_map, repeat_length. lia. }
  rewrite Hlen.
  replace (8 * Z.of_nat k mod 8) with 0
    by (symmetry; rewrite Z.mul_comm; apply Z.mod_mul; lia).
  cbn [Z.eqb negb].
  rewrite map_app, Hup, Pup, Hlen, rstrip_pad_pads by exact Hnp.
  rewrite b32_quanta_body. cbn [bind].
  pose proof (fixed_up_correct data) as Hfix. unfold fixed_up in Hfix.
  destruct (quanta_result data) as [decoded acc].
  assert (Hp : 8 * Z.of_nat k - len (map b32tab (body data))
               = Z.of_nat (pads data)).
  { unfold len. rewrite length_map. lia. }
  rewrite Hp, pads_allowed. cbn [negb].
  destruct (negb (Z.of_nat (pads data) =? 0) && negb (len decoded =? 0));
    rewrite Hfix; reflexivity.
Qed.

End Base32Facts.

(* ================================================================== *)
(** ** The pieces of a one-time code *)
(* ================================================================== *)

Module OtpFacts.
Import Py Spec Support PyFacts.

Lemma lor_shiftl_add (hi lo n : Z) :
  0 <= n -> 0 <= lo < 2 ^ n -> Z.lor (Z.shiftl hi n) lo = hi * 2 ^ n + lo.
Proof.
  intros Hn Hlo.
  rewrite <- (Z.shiftl_mul_pow2 hi n Hn), <- Z.add_lor_land.
  replace (Z.land (Z.shiftl hi n) lo) with 0; [lia |].
  symmetry. apply Z.bits_inj'. intros k Hk.
  rewrite Z.land_spec, Z.bits_0.
  destruct (Z.ltb_spec k n) as [Hlt | Hge].
  - rewrite Z.shiftl_spec_low by exact Hlt. reflexivity.
  - replace (Z.testbit lo k) with false; [apply andb_false_r |].
    symmetry. destruct (Z.eq_dec lo 0) as [-> | Hne]; [apply Z.bits_0 |].
    apply Z.bits_above_log2; [lia |].
    apply Z.log2_lt_pow2; [lia |].
    apply Z.lt_le_trans with (2 ^ n); [lia |].
    apply Z.pow_le_mono_r; lia.
Qed.

(** *** Dynamic truncation *)

Lemma nth_last {A} (l : list A) (d : A) : nth (length l - 1) l d = last l d.
Proof.
  induction l as [| x l IH]; [reflexivity |].
  destruct l as [| y l]; [reflexivity |].
  cbn [length last] in *. rewrite <- IH.
  replace (S (S (length l)) - 1)%nat with (S (S (length l) - 1)) by lia.
  reflexivity.
Qed.

Lemma land_low (x : Z) (n : Z) (m : Z) :
  0 <= n -> m = Z.ones n -> Z.land x m = x mod 2 ^ n.
Proof. intros Hn ->. apply Z.land_ones, Hn. Qed.

Lemma truncation_agrees (h : bytes) :
  let offset := Z.land (Pyotp.at_index h (len h - 1)) 15 in
  Z.lor (Z.lor (Z.lor
    (Z.shiftl (Z.land (Pyotp.at_index h offset) 127) 24)
    (Z.shiftl (Z.land (Pyotp.at_index h (offset + 1)) 255) 16))
    (Z.shiftl (Z.land (Pyotp.at_index h (offset + 2)) 255) 8))
    (Z.land (Pyotp.at_index h (offset + 3)) 255)
  = dynamic_truncation h.
Proof.
  cbv zeta. unfold dynamic_truncation, Pyotp.at_index.
  replace (Z.to_nat (len h - 1)) with (length h - 1)%nat by (unfold len; lia).
  rewrite nth_last.
  rewrite (land_low _ 4 15), (land_low _ 7 127), !(land_low _ 8 255)
    by (reflexivity || lia).
  set (o := b2z (last h x00) mod 2 ^ 4).
  assert (Ho : 0 <= o < 16) by (apply Z.mod_pos_bound; lia).
  replace (Z.to_nat (o + 1)) with (Z.to_nat o + 1)%nat by lia.
  replace (Z.to_nat (o + 2)) with (Z.to_nat o + 2)%nat by lia.
  replace (Z.to_nat (o + 3)) with (Z.to_nat o + 3)%nat by lia.
  change (b2z (last h x00) mod 16) with o.
  set (a := b2z (nth (Z.to_nat o) h x00)).
  set (b := b2z (nth (Z.to_nat o + 1) h x00)).
  set (c := b2z (nth (Z.to_nat o + 2) h x00)).
  set (d := b2z (nth (Z.to_nat o + 3) h x00)).
  assert (Ha : 0 <= a mod 2 ^ 7 < 128) by (apply Z.mod_pos_bound; lia).
  assert (Hb : 0 <= b < 256) by apply b2z_range.
  assert (Hc : 0 <= c < 256) by apply b2z_range.
  assert (Hd : 0 <= d < 256) by apply b2z_range.
  rewrite !(Z.mod_small _ (2 ^ 8)) by (change (2 ^ 8) with 256; assumption).
  rewrite !Z.shiftl_mul_pow2 by lia.
  change (a mod 128) with (a mod 2 ^ 7).
  rewrite <- (Z.shiftl_mul_pow2 (a mod 2 ^ 7) 24) by lia.
  rewrite (lor_shiftl_add (a mod 2 ^ 7) (b * 2 ^ 16) 24) by lia.
  replace ((a mod 2 ^ 7) * 2 ^ 24 + b * 2 ^ 16)
    with (((a mod 2 ^ 7) * 2 ^ 8 + b) * 2 ^ 16) by lia.
  rewrite <- (Z.shiftl_mul_pow2 _ 16) by lia.
  rewrite (lor_shiftl_add _ (c * 2 ^ 8) 16) by lia.
  replace (((a mod 2 ^ 7) * 2 ^ 8 + b) * 2 ^ 16 + c * 2 ^ 8)
    with ((((a mod 2 ^ 7) * 2 ^ 8 + b) * 2 ^ 8 + c) * 2 ^ 8) by lia.
  rewrite <- (Z.shiftl_mul_pow2 _ 8) by lia.
  rewrite (lor_shiftl_add _ d 8) by lia.
  lia.
Qed.

(** *** The digest has twenty octets *)

Lemma sha1_length (msg : bytes) : length (Hashlib.sha1 msg) = 20%nat.
Proof.
  unfold Hashlib.sha1.
  destruct (Hashlib.blocks _ _ _) as [[[[h0 h1] h2] h3] h4]. reflexivity.
Qed.

Lemma hmac_sha1_length (key msg : bytes) :
  length (Hashlib.hmac_sha1 key msg) = 20%nat.
Proof. apply sha1_length. Qed.

(** The four octets that [generate_otp] reads lie inside the digest: the
    indexing never fails. *)
Lemma truncation_within_digest (key msg : bytes) :
  let h := Hashlib.hmac_sha1 key msg in
  0 <= Z.land (Pyotp.at_index h (len h - 1)) 15
  /\ Z.land (Pyotp.at_index h (len h - 1)) 15 + 3 < len h.
Proof.
  cbv zeta. unfold len. rewrite hmac_sha1_length.
  change (Z.of_nat 20) with 20.
  rewrite (land_low _ 4 15) by (reflexivity || lia).
  set (x := Pyotp.at_index (Hashlib.hmac_sha1 key msg) (20 - 1)).
  pose proof (Z.mod_pos_bound x (2 ^ 4) ltac:(lia)).
  change (2 ^ 4) with 16 in *. lia.
Qed.

(** *** Six digits *)

Lemma digits_fuel_more (fuel : nat) (n : Z) (acc : str) :
  10 <= n ->
  digits_fuel (S fuel) n acc
  = digits_fuel fuel (n / 10) (digit_char (n mod 10) :: acc).
Proof.
  intros H. cbn [digits_fuel]. replace (n <? 10) with false by lia. reflexivity.
Qed.

Lemma digits_fuel_last (fuel : nat) (n : Z) (acc : str) :
  0 <= n < 10 -> digits_fuel (S fuel) n acc = digit_char n :: acc.
Proof.
  intros H. cbn [digits_fuel]. replace (n <? 10) with true by lia. reflexivity.
Qed.

Ltac flat_div :=
  rewrite ?Z.div_div by lia;
  repeat match goal with
         | |- context [Z.pos ?a * Z.pos ?b] =>
             let v := eval cbv in (Z.pos a * Z.pos b) in
             change (Z.pos a * Z.pos b) with v
         end;
  Z.to_euclidean_division_equations; lia.

Lemma padded_code (w : Z) :
  0 <= w < 1000000 ->
  slice_last 6 (str_of_int (10000000000 + w)) = six_digits w.
Proof.
  intros H. unfold str_of_int, digits.
  replace (10000000000 + w <? 0) with false by lia.
  replace (Z.log2 (10000000000 + w)) with 33
    by (symmetry; apply Z.log2_unique; lia).
  change (Z.to_nat 33) with 33%nat.
  do 10 (rewrite digits_fuel_more by flat_div).
  rewrite digits_fuel_last by flat_div.
  unfold slice_last, six_digits, digit_char.
  change (Z.to_nat 6) with 6%nat. cbn [Z.eqb length Nat.sub skipn map].
  change (10 ^ 5) with 100000. change (10 ^ 4) with 10000.
  change (10 ^ 3) with 1000. change (10 ^ 2) with 100.
  change (10 ^ 1) with 10. change (10 ^ 0) with 1.
  repeat (apply f_equal2; [flat_div |]). reflexivity.
Qed.

Lemma six_digits_shape (w : Z) :
  length (six_digits w) = 6%nat /\ forallb is_digit (six_digits w) = true.
Proof.
  split; [reflexivity |].
  unfold six_digits, is_digit, in_range. cbn [map forallb].
  rewrite !andb_true_iff.
  repeat split;
    match goal with
    | |- context [?x mod 10] => pose proof (Z.mod_pos_bound x 10 ltac:(lia))
    end; lia.
Qed.

(** *** The counter as eight octets *)

Lemma big_endian_zero (n : nat) : big_endian n 0 = repeat x00 n.
Proof.
  induction n as [| n IH]; [reflexivity |].
  cbn [big_endian]. rewrite Z.div_0_l by lia. rewrite IH.
  change [z2b 0] with [x00]. symmetry. apply repeat_cons.
Qed.

Lemma rjust_snoc (n : nat) (xs : bytes) (b : byte) :
  Pyotp.rjust (S n) (xs ++ [b]) = Pyotp.rjust n xs ++ [b].
Proof.
  unfold Pyotp.rjust. rewrite length_app. cbn [length].
  replace (S n - (length xs + 1))%nat with (n - length xs)%nat by lia.
  apply app_assoc.
Qed.

Lemma int_bytes_le_zero (fuel : nat) : Pyotp.int_bytes_le fuel 0 = [].
Proof. destruct fuel; reflexivity. Qed.

Lemma int_bytes_big_endian (n : nat) :
  forall t fuel,
    0 <= t < 256 ^ Z.of_nat n -> t = 0 \/ Z.log2 t < Z.of_nat fuel ->
    Pyotp.rjust n (rev (Pyotp.int_bytes_le fuel t)) = big_endian n t.
Proof.
  induction n as [| n IH]; intros t fuel Ht Hf.
  - assert (t = 0) by (cbn in Ht; lia). subst t.
    rewrite int_bytes_le_zero. reflexivity.
  - destruct (Z.eq_dec t 0) as [-> | Hne].
    + rewrite int_bytes_le_zero, big_endian_zero. cbn [rev].
      unfold Pyotp.rjust. cbn [length]. rewrite Nat.sub_0_r. apply app_nil_r.
    + destruct Hf as [Hf | Hf]; [contradiction |].
      destruct fuel as [| fuel]; [pose proof (Z.log2_nonneg t); lia |].
      cbn [Pyotp.int_bytes_le big_endian].
      replace (t =? 0) with false by (symmetry; apply Z.eqb_neq, Hne).
      cbn [rev]. rewrite rjust_snoc.
      change 255 with (Z.ones 8). rewrite Z.land_ones by lia.
      change (2 ^ 8) with 256. rewrite z2b_mod.
      rewrite Z.shiftr_div_pow2 by lia. change (2 ^ 8) with 256.
      f_equal. apply IH.
      * rewrite Nat2Z.inj_succ, Z.pow_succ_r in Ht by lia.
        split; [apply Z.div_pos; lia |].
        apply Z.div_lt_upper_bound; lia.
      * destruct (Z.eq_dec (t / 256) 0) as [E | E]; [left; exact E | right].
        assert (Hq : 0 < t / 256)
          by (pose proof (Z.div_pos t 256 ltac:(lia) ltac:(lia)); lia).
        apply Z.log2_lt_pow2; [exact Hq |].
        assert (Hp : t < 2 ^ Z.of_nat (S fuel))
          by (apply Z.log2_lt_pow2; lia).
        rewrite Nat2Z.inj_succ, Z.pow_succ_r in Hp by lia.
        apply Z.div_lt_upper_bound; lia.
Qed.

Lemma int_to_bytestring_counter (t : Z) :
  0 <= t < 2 ^ 64 -> Pyotp.int_to_bytestring t = counter_bytes t.
Proof.
  intros H. unfold Pyotp.int_to_bytestring.
  rewrite (int_bytes_big_endian 8) by (exact H || (right; lia)).
  unfold counter_bytes. cbn [big_endian app map].
  rewrite !Z.div_div by lia.
  change (256 ^ 0) with 1. rewrite Z.div_1_r. reflexivity.
Qed.

(** *** The octets of a seed *)

Lemma hexdigit_value (c : Z) :
  is_hexdigit c = true -> is_space c = false /\ exists v, hex_value c = Some v.
Proof.
  rewrite is_hexdigit_iff. intros H. split.
  - unfold is_space, in_range. lia.
  - unfold hex_value, in_range.
    destruct ((48 <=? c) && (c <=? 57)) eqn:E1; [eauto |].
    destruct ((97 <=? c) && (c <=? 102)) eqn:E2; [eauto |].
    destruct ((65 <=? c) && (c <=? 70)) eqn:E3; [eauto | lia].
Qed.

Lemma first_non_ascii_none (s : str) (pos : Z) :
  forallb is_ascii s = true -> first_non_ascii pos s = None.
Proof.
  revert pos. induction s as [| c s IH]; intros pos H; [reflexivity |].
  cbn [forallb] in H. apply andb_true_iff in H. destruct H as [Hc Hs].
  cbn [first_non_ascii]. rewrite Hc. apply IH, Hs.
Qed.

Lemma fromhex_from_digits (k : nat) :
  forall s pos,
    length s = (2 * k)%nat -> forallb is_hexdigit s = true ->
    exists raw, fromhex_from pos s = Ok raw /\ length raw = k.
Proof.
  induction k as [| k IH]; intros s pos Hl Hh.
  - destruct s; [| discriminate]. exists []. auto.
  - destruct s as [| c [| d s]]; try (cbn in Hl; lia).
    cbn [forallb] in Hh. apply andb_true_iff in Hh. destruct Hh as [Hc Hh].
    apply andb_true_iff in Hh. destruct Hh as [Hd Hs].
    destruct (hexdigit_value c Hc) as [Sc [vc Vc]].
    destruct (hexdigit_value d Hd) as [_ [vd Vd]].
    destruct (IH s (pos + 2)) as [raw [Hr Hn]];
      [cbn [length] in Hl; lia | exact Hs |].
    exists (z2b (vc * 16 + vd) :: raw).
    cbn [fromhex_from]. rewrite Sc, Vc, Vd, Hr. cbn [bind length].
    split; [reflexivity | lia].
Qed.

Lemma fromhex_seed (seed : str) :
  is_seed_text seed = true ->
  exists seed_bytes, fromhex seed = Ok seed_bytes /\ length seed_bytes = 32%nat.
Proof.
  intros H. destruct (seed_text_inv seed H) as [Hl Hh].
  unfold fromhex. rewrite first_non_ascii_none by apply hex_text_ascii, Hh.
  apply (fromhex_from_digits 32); assumption.
Qed.

End OtpFacts.

(* ================================================================== *)
(** ** Generating and verifying one-time codes *)
(* ================================================================== *)

Module TotpFacts.
Import Py Spec Config CryptoUtils Support PyFacts OtpFacts.

Lemma encoded_length_mod8 (s : bytes) :
  len (map b2z (Base64.b32encode s)) mod 8 = 0.
Proof.
  rewrite len_map, Base32Facts.b32encode_shape.
  destruct (Base32Facts.encoded_length s) as [k Hk].
  unfold len, Base64.pad_chars.
  rewrite length_app, length_map, repeat_length, Hk.
  rewrite Nat2Z.inj_mul, Z.mul_comm. apply Z.mod_mul. lia.
Qed.

(** The secret handed to [pyotp] decodes to the octets of the seed. *)
Lemma byte_secret_seed (seed_bytes : bytes) :
  Pyotp.byte_secret (totp_of seed_bytes) = Ok seed_bytes.
Proof.
  unfold Pyotp.byte_secret, totp_of. cbn [Pyotp.secret].
  rewrite encoded_length_mod8. cbn [Z.eqb negb].
  apply Base32Facts.b32decode_b32encode.
Qed.

Lemma generate_otp_code (seed_bytes : bytes) (t : Z) :
  0 <= t < 2 ^ 64 ->
  Pyotp.generate_otp (totp_of seed_bytes) t = Ok (current_code seed_bytes t).
Proof.
  intros Ht. unfold Pyotp.generate_otp.
  replace (t <? 0) with false by lia.
  rewrite byte_secret_seed. cbn [bind].
  rewrite int_to_bytestring_counter by exact Ht.
  pose proof (truncation_agrees
                (Hashlib.hmac_sha1 seed_bytes (counter_bytes t))) as Hd.
  cbv zeta in Hd. rewrite Hd.
  unfold totp_of, TOTP_DIGITS. cbn [Pyotp.digits].
  change (10 ^ 6) with 1000000.
  rewrite padded_code by (apply Z.mod_pos_bound; lia).
  reflexivity.
Qed.

Lemma hex_to_base32_seed (seed : str) (seed_bytes : bytes) :
  fromhex seed = Ok seed_bytes ->
  hex_to_base32 seed = Ok (map b2z (Base64.b32encode seed_bytes)).
Proof.
  intros H. unfold hex_to_base32. rewrite H. cbn [bind].
  apply Base32Facts.b32decode_b32encode.
Qed.

Lemma timecode_step (seed_bytes : bytes) (now : Z) :
  0 <= now -> Pyotp.timecode (totp_of seed_bytes) now = time_step now.
Proof.
  intros H. unfold Pyotp.timecode, totp_of, TOTP_PERIOD, time_step.
  cbn [Pyotp.interval]. apply Z.quot_div_nonneg; lia.
Qed.

Lemma time_step_range (now : Z) :
  0 <= now < 30 * 2 ^ 64 -> 0 <= time_step now < 2 ^ 64.
Proof.
  intros H. unfold time_step. split.
  - apply Z.div_pos; lia.
  - apply Z.div_lt_upper_bound; lia.
Qed.

Lemma generate_totp_code_seed (seed : str) (seed_bytes : bytes) (now : Z) :
  fromhex seed = Ok seed_bytes -> 0 <= now < 30 * 2 ^ 64 ->
  generate_totp_code seed now = Ok (current_code seed_bytes (time_step now)).
Proof.
  intros Hs Hn. unfold generate_totp_code.
  rewrite (hex_to_base32_seed seed seed_bytes Hs). cbn [bind].
  change (Pyotp.TOTP_init (map b2z (Base64.b32encode seed_bytes))
            TOTP_DIGITS TOTP_PERIOD)
    with (Ok (totp_of seed_bytes)).
  cbn [bind]. unfold Pyotp.now_.
  rewrite timecode_step by lia.
  apply generate_otp_code, time_step_range, Hn.
Qed.

(** C4: for a fixed 64-character hexadecimal seed and a fixed time step
    [floor(now / 30)], [generate_totp_code] returns the same value at every
    instant of that step, a string of exactly six decimal digits.  The value
    is computed from the 32 octets the seed decodes to, handed to the
    generator in base32: HMAC-SHA1 of the time step (eight octets, big-endian)
    under those octets, dynamic truncation, six digits zero-padded on the
    left. *)
Theorem totp_code_fixed_by_time_step (seed : str) (now : Z) :
  is_seed_text seed = true ->
  0 <= now < 30 * 2 ^ 64 ->
  exists seed_bytes,
    fromhex seed = Ok seed_bytes
    /\ length seed_bytes = 32%nat
    /\ hex_to_base32 seed = Ok (map b2z (Base64.b32encode seed_bytes))
    /\ generate_totp_code seed now
       = Ok (current_code seed_bytes (time_step now))
    /\ length (current_code seed_bytes (time_step now)) = 6%nat
    /\ forallb is_digit (current_code seed_bytes (time_step now)) = true
    /\ (forall again,
          0 <= again < 30 * 2 ^ 64 -> time_step again = time_step now ->
          generate_totp_code seed again = generate_totp_code seed now).
Proof.
  intros Hseed Hnow.
  destruct (fromhex_seed seed Hseed) as [seed_bytes [Hb Hl]].
  exists seed_bytes.
  split; [exact Hb |]. split; [exact Hl |].
  split; [apply hex_to_base32_seed, Hb |].
  split; [apply generate_totp_code_seed; assumption |].
  split; [apply six_digits_shape |]. split; [apply six_digits_shape |].
  intros again Ha He.
  rewrite !(generate_totp_code_seed seed seed_bytes) by assumption.
  rewrite He. reflexivity.
Qed.

Lemma totp_code_fixed_by_time_step_witness :
  exists seed_bytes,
    fromhex Samples.seed_a1 = Ok seed_bytes
    /\ length seed_bytes = 32%nat
    /\ hex_to_base32 Samples.seed_a1
       = Ok (map b2z (Base64.b32encode seed_bytes))
    /\ generate_totp_code Samples.seed_a1 1700000005
       = Ok (current_code seed_bytes (time_step 1700000005))
    /\ length (current_code seed_bytes (time_step 1700000005)) = 6%nat
    /\ forallb is_digit (current_code seed_bytes (time_step 1700000005)) = true
    /\ (forall again,
          0 <= again < 30 * 2 ^ 64 ->
          time_step again = time_step 1700000005 ->
          generate_totp_code Samples.seed_a1 again
          = generate_totp_code Samples.seed_a1 1700000005).
Proof.
  apply (totp_code_fixed_by_time_step Samples.seed_a1 1700000005).
  - vm_compute. reflexivity.
  - lia.
Defined.

(** The codes of the seeds ["00" * 32] and ["a1" * 32] at the first time
    steps, as the derivation gives them. *)
Example first_codes :
  map (generate_totp_code (concat (repeat (u "00") 32))) [0; 30; 60]
  = [Ok (u "328482"); Ok (u "812658"); Ok (u "073348")]
  /\ map (generate_totp_code Samples.seed_a1) [0; 29; 30; 119]
     = [Ok (u "005562"); Ok (u "005562"); Ok (u "914064"); Ok (u "903974")].
Proof. split; vm_compute; reflexivity. Qed.

(** *** Comparing a candidate with a code *)

Lemma str_eqb_eq (a b : str) : str_eqb a b = true <-> a = b.
Proof.
  unfold str_eqb. revert b.
  induction a as [| x a IH]; intros [| y b]; cbn [forallb2];
    try (split; [discriminate | congruence]); [tauto |].
  rewrite andb_true_iff, Z.eqb_eq, IH. split.
  - intros [-> ->]. reflexivity.
  - intros [= -> ->]. auto.
Qed.

Lemma byte_eqb_ascii (x y : Z) :
  is_ascii x = true -> is_ascii y = true ->
  Byte.eqb (z2b x) (z2b y) = (x =? y).
Proof.
  unfold is_ascii. intros Hx Hy.
  destruct (Z.eqb_spec x y) as [-> | Hne].
  - apply Byte.byte_dec_lb. reflexivity.
  - destruct (Byte.eqb (z2b x) (z2b y)) eqn:E; [| reflexivity].
    apply Byte.byte_dec_bl in E. apply (f_equal b2z) in E.
    rewrite !b2z_z2b_small in E by lia. contradiction.
Qed.

Lemma bytes_eqb_ascii (a b : str) :
  forallb is_ascii a = true -> forallb is_ascii b = true ->
  Pyotp.bytes_eqb (map z2b a) (map z2b b) = str_eqb a b.
Proof.
  unfold str_eqb. revert b.
  induction a as [| x a IH]; intros [| y b] Ha Hb; try reflexivity.
  cbn [forallb] in Ha, Hb.
  apply andb_true_iff in Ha. destruct Ha as [Hx Ha].
  apply andb_true_iff in Hb. destruct Hb as [Hy Hb].
  cbn [map Pyotp.bytes_eqb forallb2].
  rewrite byte_eqb_ascii, IH by assumption. reflexivity.
Qed.

(** On ASCII text [strings_equal] is equality. *)
Lemma strings_equal_ascii (U : UnicodeData) (a b : str) :
  forallb is_ascii a = true -> forallb is_ascii b = true ->
  Pyotp.strings_equal U a b = Ok (str_eqb a b).
Proof.
  intros Ha Hb. unfold Pyotp.strings_equal.
  rewrite !NFKC_ascii, !encode_utf8_ascii by assumption. cbn [bind].
  rewrite bytes_eqb_ascii by assumption. reflexivity.
Qed.

Lemma current_code_ascii (seed_bytes : bytes) (t : Z) :
  forallb is_ascii (current_code seed_bytes t) = true.
Proof.
  pose proof (six_digits_shape
                (dynamic_truncation
                   (Hashlib.hmac_sha1 seed_bytes (counter_bytes t))
                 mod 1000000)) as [_ H].
  unfold current_code. rewrite forallb_forall in *.
  intros x Hx. specialize (H x Hx).
  unfold is_digit, in_range, is_ascii in *. lia.
Qed.

Lemma verify_window_codes (U : UnicodeData) (seed candidate : str)
  (seed_bytes : bytes) (now : Z) :
  fromhex seed = Ok seed_bytes ->
  forallb is_ascii candidate = true ->
  30 <= now < 30 * (2 ^ 64 - 1) ->
  verify_totp_code U seed candidate now 1
  = Ok (existsb (fun t => str_eqb candidate (current_code seed_bytes t))
                (window (time_step now))).
Proof.
  intros Hs Hc Hn. unfold verify_totp_code.
  rewrite (hex_to_base32_seed seed seed_bytes Hs). cbn [bind].
  change (Pyotp.TOTP_init (map b2z (Base64.b32encode seed_bytes))
            TOTP_DIGITS TOTP_PERIOD)
    with (Ok (totp_of seed_bytes)).
  cbn [bind]. unfold Pyotp.verify. cbn [Z.eqb negb].
  change (Pyotp.range (- (1)) (1 + 1)) with [-1; 0; 1].
  assert (Ht : 1 <= time_step now < 2 ^ 64 - 1).
  { unfold time_step. split.
    - apply Z.div_le_lower_bound; lia.
    - apply Z.div_lt_upper_bound; lia. }
  unfold window. cbn [Pyotp.verify_loop existsb]. unfold Pyotp.at_.
  rewrite timecode_step by lia.
  replace (time_step now + -1) with (time_step now - 1) by lia.
  rewrite Z.add_0_r.
  rewrite !generate_otp_code by lia. cbn [bind].
  rewrite !strings_equal_ascii by (assumption || apply current_code_ascii).
  cbn [bind].
  destruct (str_eqb candidate (current_code seed_bytes (time_step now - 1)));
    [reflexivity |].
  destruct (str_eqb candidate (current_code seed_bytes (time_step now)));
    [reflexivity |].
  destruct (str_eqb candidate (current_code seed_bytes (time_step now + 1)));
    reflexivity.
Qed.

Lemma in_window (t s : Z) : In s (window t) <-> t - 1 <= s <= t + 1.
Proof. unfold window. cbn [In]. lia. Qed.



(** At [now = 65] the time step is 2: the codes of the steps 1, 2 and 3 are
    accepted, those of the steps 0 and 4 are not. *)
Example window_at_65 :
  map (fun code =>
         verify_totp_code PlainTables.tables Samples.seed_a1 code 65
           TOTP_VALID_WINDOW)
      [u "005562"; u "914064"; u "292002"; u "903974"; u "429938"]
  = [Ok false; Ok true; Ok true; Ok true; Ok false]
  /\ map (generate_totp_code Samples.seed_a1) [0; 30; 60; 90; 120]
     = [Ok (u "005562"); Ok (u "914064"); Ok (u "292002"); Ok (u "903974");
        Ok (u "429938")].
Proof. split; vm_compute; reflexivity. Qed.

(** The same at a present-day reading of the clock. *)
Example window_at_1700000005 :
  map (fun code =>
         verify_totp_code PlainTables.tables Samples.seed_a1 code 1700000005 1)
      [u "973066"; u "972214"; u "060947"; u "707206"; u "654345"]
  = [Ok false; Ok true; Ok true; Ok true; Ok false].
Proof. vm_compute. reflexivity. Qed.

(** In the first period there is no previous step, and the call raises. *)
Example window_at_0 :
  verify_totp_code PlainTables.tables Samples.seed_a1 (u "005562") 0 1
  = Raise Pyotp.negative_input.
Proof. vm_compute. reflexivity. Qed.

End TotpFacts.

(* ================================================================== *)
(** ** Reading the seed file *)
(* ================================================================== *)

Module TextFacts.
Import Py Spec Text PyFacts.

Lemma lstrip_whitespace (ws s : str) :
  forallb is_whitespace ws = true -> lstrip (ws ++ s) = lstrip s.
Proof.
  induction ws as [| c ws IH]; cbn [forallb app lstrip]; [reflexivity |].
  intros H. apply andb_true_iff in H. destruct H as [-> H]. apply IH, H.
Qed.

Lemma lstrip_all_whitespace (ws : str) :
  forallb is_whitespace ws = true -> lstrip ws = [].
Proof.
  intros H. rewrite <- (app_nil_r ws). rewrite lstrip_whitespace by exact H.
  reflexivity.
Qed.

Lemma lstrip_starts (c : Z) (s : str) :
  is_whitespace c = false -> lstrip (c :: s) = c :: s.
Proof. intros H. cbn [lstrip]. rewrite H. reflexivity. Qed.

Lemma forallb_rev {A} (f : A -> bool) (l : list A) :
  forallb f (rev l) = forallb f l.
Proof.
  induction l as [| x l IH]; [reflexivity |].
  cbn [rev forallb]. rewrite forallb_app, IH. cbn [forallb].
  rewrite andb_true_r. apply andb_comm.
Qed.

Lemma rstrip_whitespace (s ws : str) :
  forallb is_whitespace ws = true -> rstrip (s ++ ws) = rstrip s.
Proof.
  intros H. unfold rstrip. rewrite rev_app_distr, lstrip_whitespace.
  - reflexivity.
  - rewrite forallb_rev. exact H.
Qed.

Lemma rstrip_ends (s : str) (c : Z) :
  is_whitespace c = false -> rstrip (s ++ [c]) = s ++ [c].
Proof.
  intros H. unfold rstrip. rewrite rev_app_distr. cbn [rev app].
  rewrite lstrip_starts by exact H.
  cbn [rev]. rewrite rev_involutive. reflexivity.
Qed.

(** A text with no white space in it, between two runs of white space, is
    what [strip] leaves. *)
Lemma strip_surrounded (ws core ws' : str) :
  forallb is_whitespace ws = true -> forallb is_whitespace ws' = true ->
  existsb is_whitespace core = false ->
  strip (ws ++ core ++ ws') = core.
Proof.
  intros Hw Hw' Hc. unfold strip. rewrite lstrip_whitespace by exact Hw.
  destruct core as [| c core].
  - cbn [app]. rewrite lstrip_all_whitespace by exact Hw'. reflexivity.
  - cbn [existsb] in Hc. apply orb_false_iff in Hc. destruct Hc as [Hc Hcore].
    cbn [app]. rewrite lstrip_starts by exact Hc.
    change (c :: core ++ ws') with ((c :: core) ++ ws').
    rewrite rstrip_whitespace by exact Hw'.
    destruct (exists_last (l := c :: core) ltac:(discriminate)) as [l [d E]].
    rewrite E. apply rstrip_ends.
    assert (Hd : In d (c :: core)) by (rewrite E; apply in_or_app; right; left; reflexivity).
    destruct (is_whitespace d) eqn:Ed; [| reflexivity].
    assert (X : existsb is_whitespace (c :: core) = true)
      by (apply existsb_exists; exists d; auto).
    cbn [existsb] in X. rewrite Hc, Hcore in X. discriminate.
Qed.

(** Line ends inside white space stay white space. *)
Lemma newlines_whitespace (ws : str) :
  forallb is_whitespace ws = true ->
  forall after_cr, exists ws1 flag,
    forallb is_whitespace ws1 = true
    /\ forall rest, newlines after_cr (ws ++ rest) = ws1 ++ newlines flag rest.
Proof.
  induction ws as [| c ws IH]; intros H b.
  - exists [], b. split; [reflexivity | reflexivity].
  - cbn [forallb] in H. apply andb_true_iff in H. destruct H as [Hc H].
    cbn [app newlines]. destruct (c =? 13).
    + destruct (IH H true) as [ws1 [f [Hw E]]].
      exists (10 :: ws1), f. split; [cbn [forallb]; rewrite Hw; reflexivity |].
      intros rest. rewrite E. reflexivity.
    + destruct ((c =? 10) && b).
      * destruct (IH H false) as [ws1 [f [Hw E]]].
        exists ws1, f. split; [exact Hw | exact E].
      * destruct (IH H false) as [ws1 [f [Hw E]]].
        exists (c :: ws1), f.
        split; [cbn [forallb]; rewrite Hc, Hw; reflexivity |].
        intros rest. rewrite E. reflexivity.
Qed.

Lemma whitespace_line_ends (c : Z) :
  is_whitespace c = false -> (c =? 13) = false /\ (c =? 10) = false.
Proof.
  intros H. split; apply Z.eqb_neq; intros ->; discriminate.
Qed.

Lemma newlines_plain (core rest : str) :
  existsb is_whitespace core = false ->
  newlines false (core ++ rest) = core ++ newlines false rest.
Proof.
  induction core as [| c core IH]; [reflexivity |].
  cbn [existsb]. intros H. apply orb_false_iff in H. destruct H as [Hc H].
  destruct (whitespace_line_ends c Hc) as [E13 E10].
  cbn [app newlines]. rewrite E13, E10. cbn [andb]. rewrite IH by exact H.
  reflexivity.
Qed.

Lemma newlines_plain_first (flag : bool) (c : Z) (core rest : str) :
  existsb is_whitespace (c :: core) = false ->
  newlines flag ((c :: core) ++ rest) = (c :: core) ++ newlines false rest.
Proof.
  cbn [existsb]. intros H. apply orb_false_iff in H. destruct H as [Hc H].
  destruct (whitespace_line_ends c Hc) as [E13 E10].
  cbn [app newlines]. rewrite E13, E10. cbn [andb].
  rewrite newlines_plain by exact H. reflexivity.
Qed.

(** Reading the file and stripping the text gives back a text without white
    space, whatever white space the file has around it. *)
Lemma read_back (ws core ws' : str) :
  forallb is_whitespace ws = true -> forallb is_whitespace ws' = true ->
  core <> [] -> existsb is_whitespace core = false ->
  strip (read_text (ws ++ core ++ ws')) = core.
Proof.
  intros Hw Hw' Hne Hc. unfold read_text.
  destruct (newlines_whitespace ws Hw false) as [ws1 [f [Hw1 E1]]].
  rewrite E1. destruct core as [| c core]; [congruence |].
  rewrite newlines_plain_first by exact Hc.
  destruct (newlines_whitespace ws' Hw' false) as [ws2 [f2 [Hw2 E2]]].
  specialize (E2 []). rewrite app_nil_r in E2. rewrite E2.
  cbn [newlines]. rewrite app_nil_r.
  apply strip_surrounded; assumption.
Qed.

Lemma hexdigit_not_whitespace (c : Z) :
  is_hexdigit c = true -> is_whitespace c = false.
Proof.
  rewrite is_hexdigit_iff. unfold is_whitespace, in_range. lia.
Qed.

Lemma seed_text_no_whitespace (S : str) :
  is_seed_text S = true -> S <> [] /\ existsb is_whitespace S = false.
Proof.
  intros H. destruct (seed_text_inv S H) as [Hl Hh]. split.
  - intros ->. discriminate.
  - apply not_true_is_false. intros E. apply existsb_exists in E.
    destruct E as [c [Hin Hc]]. rewrite forallb_forall in Hh.
    rewrite (hexdigit_not_whitespace c (Hh c Hin)) in Hc. discriminate.
Qed.

Lemma read_back_seed (S : str) :
  is_seed_text S = true -> strip (read_text S) = S.
Proof.
  intros H. destruct (seed_text_no_whitespace S H) as [Hne Hw].
  pose proof (read_back [] S [] eq_refl eq_refl Hne Hw) as E.
  cbn [app] in E. rewrite app_nil_r in E. exact E.
Qed.

(** *** What [strip] leaves *)

Lemma lstrip_decompose (s : str) :
  exists ws, s = ws ++ lstrip s /\ forallb is_whitespace ws = true.
Proof.
  induction s as [| c s [ws [E H]]].
  - exists []. auto.
  - cbn [lstrip]. destruct (is_whitespace c) eqn:Ec.
    + exists (c :: ws). cbn [app forallb]. rewrite Ec, H.
      split; [congruence | reflexivity].
    + exists []. auto.
Qed.

Lemma lstrip_head (s : str) :
  lstrip s = [] \/ is_whitespace (hd 0 (lstrip s)) = false.
Proof.
  induction s as [| c s IH]; [left; reflexivity |].
  cbn [lstrip]. destruct (is_whitespace c) eqn:Ec; [exact IH |].
  right. exact Ec.
Qed.

Lemma rstrip_decompose (s : str) :
  exists ws, s = rstrip s ++ ws /\ forallb is_whitespace ws = true.
Proof.
  unfold rstrip. destruct (lstrip_decompose (rev s)) as [ws [E H]].
  exists (rev ws). split.
  - rewrite <- rev_app_distr, <- E, rev_involutive. reflexivity.
  - rewrite forallb_rev. exact H.
Qed.

Lemma last_rev {A} (l : list A) (d : A) : last (rev l) d = hd d l.
Proof.
  destruct l as [| x l]; [reflexivity |]. cbn [rev hd]. apply last_last.
Qed.

Lemma rstrip_last (s : str) :
  rstrip s = [] \/ is_whitespace (last (rstrip s) 0) = false.
Proof.
  unfold rstrip. destruct (lstrip_head (rev s)) as [E | E].
  - left. rewrite E. reflexivity.
  - right. rewrite last_rev. exact E.
Qed.

Lemma rstrip_keeps_head (c : Z) (s : str) :
  is_whitespace c = false -> hd 0 (rstrip (c :: s)) = c.
Proof.
  intros Hc. destruct (rstrip_decompose (c :: s)) as [ws [E H]].
  destruct (rstrip (c :: s)) as [| x t].
  - cbn [app] in E. subst ws. cbn [forallb] in H. rewrite Hc in H. discriminate.
  - cbn [app] in E. injection E as Ex _. subst x. reflexivity.
Qed.

(** [s.strip()] is [s] without the white space at its two ends. *)
Lemma strip_decompose (s : str) :
  exists before after,
    s = before ++ strip s ++ after
    /\ forallb is_whitespace before = true
    /\ forallb is_whitespace after = true
    /\ (strip s = []
        \/ is_whitespace (hd 0 (strip s)) = false
           /\ is_whitespace (last (strip s) 0) = false).
Proof.
  unfold strip.
  destruct (lstrip_decompose s) as [before [E1 H1]].
  destruct (rstrip_decompose (lstrip s)) as [after [E2 H2]].
  exists before, after. split; [rewrite <- E2; exact E1 |].
  split; [exact H1 |]. split; [exact H2 |].
  destruct (rstrip_last (lstrip s)) as [E | E]; [left; exact E |].
  destruct (lstrip s) as [| c t] eqn:El; [left; reflexivity |].
  right. split; [| exact E].
  destruct (lstrip_head s) as [F | F]; rewrite El in F; [discriminate |].
  cbn [hd] in F. rewrite (rstrip_keeps_head c t F). exact F.
Qed.

End TextFacts.

(* ================================================================== *)
(** ** What [decrypt_seed] returns and what it raises *)
(* ================================================================== *)

Module DecryptFacts.
Import Py Spec Cryptography Config CryptoUtils Service Support.
Import PyFacts OtpFacts TotpFacts.

(** The stages of a successful [decrypt_seed]. *)
Lemma decrypt_seed_stages (B : Backend) (U : UnicodeData) (b64 : str)
  (key : private_key B) (s : str) :
  decrypt_seed B U b64 key = Ok s ->
  exists ciphertext plaintext,
    Base64.b64decode b64 = Ok ciphertext
    /\ decrypt B key ciphertext (OAEP (MGF1 SHA256) SHA256 None) = Ok plaintext
    /\ decode_utf8 plaintext = Ok s
    /\ is_seed_text s = true.
Proof.
  unfold decrypt_seed.
  destruct (Base64.b64decode b64) as [ct |]; cbn [bind]; [| discriminate].
  destruct (decrypt B key ct _) as [plain |] eqn:Ed; cbn [bind]; [| discriminate].
  destruct (decode_utf8 plain) as [hex |] eqn:Ex; cbn [bind]; [| discriminate].
  destruct (len hex =? 64) eqn:El; cbn [negb]; [| discriminate].
  rewrite lower_hex_check.
  destruct (forallb is_hexdigit hex) eqn:Eh; cbn [negb]; [| discriminate].
  intros [= <-]. exists ct, plain. repeat split; try assumption.
  unfold is_seed_text. rewrite Eh, andb_true_r.
  apply Nat.eqb_eq. apply Z.eqb_eq in El. unfold len in El. lia.
Qed.

Lemma decrypt_seed_seed (B : Backend) (U : UnicodeData) (b64 : str)
  (key : private_key B) (s : str) :
  decrypt_seed B U b64 key = Ok s -> is_seed_text s = true.
Proof.
  intros H. destruct (decrypt_seed_stages B U b64 key s H)
    as [_ [_ [_ [_ [_ Hs]]]]].
  exact Hs.
Qed.

(** X1: whatever [decrypt_seed] returns is a seed.  When the call succeeds,
    its result has 64 characters, all of them hexadecimal digits; the text
    handed in decoded to a ciphertext exactly as long as the modulus of the
    key, that ciphertext was decrypted, and the result is the UTF-8 reading of
    the plaintext. *)
Theorem accepted_seed_is_seed_text (B : Backend) (U : UnicodeData) (b64 : str)
  (key : private_key B) (s : str) :
  decrypt_seed B U b64 key = Ok s ->
  is_seed_text s = true
  /\ exists ciphertext plaintext,
       Base64.b64decode b64 = Ok ciphertext
       /\ len ciphertext = octets (private_key_size B key)
       /\ decrypt B key ciphertext (OAEP (MGF1 SHA256) SHA256 None) = Ok plaintext
       /\ decode_utf8 plaintext = Ok s.
Proof.
  intros H. destruct (decrypt_seed_stages B U b64 key s H)
    as [ct [plain [Hb [Hd [Hx Hs]]]]].
  split; [exact Hs |]. exists ct, plain. repeat split; try assumption.
  unfold decrypt in Hd.
  destruct (len ct =? octets (private_key_size B key)) eqn:E;
    cbn [negb] in Hd; [apply Z.eqb_eq, E | discriminate].
Qed.

Lemma accepted_seed_is_seed_text_witness :
  is_seed_text Samples.seed_A1 = true
  /\ exists ciphertext plaintext,
       Base64.b64decode (Samples.payload_of Samples.seed_A1) = Ok ciphertext
       /\ len ciphertext
          = octets (private_key_size Framing.backend Framing.key4096)
       /\ decrypt Framing.backend Framing.key4096 ciphertext
            (OAEP (MGF1 SHA256) SHA256 None) = Ok plaintext
       /\ decode_utf8 plaintext = Ok Samples.seed_A1.
Proof.
  apply (accepted_seed_is_seed_text Framing.backend PlainTables.tables
           (Samples.payload_of Samples.seed_A1) Framing.key4096 Samples.seed_A1).
  vm_compute. reflexivity.
Defined.

(** X2: the failures of [decrypt_seed].  When the call raises, the exception
    is the base64 decoder's own (an encoding error), or the ciphertext has not
    the length of the modulus, or the decryption failed, or the plaintext is
    not UTF-8, or the text has not 64 characters, or it has a character that
    is not a hexadecimal digit.  Each of them is a [ValueError]. *)
Theorem decrypt_seed_failures (B : Backend) (U : UnicodeData) (b64 : str)
  (key : private_key B) (e : exn) :
  decrypt_seed B U b64 key = Raise e ->
  (Base64.b64decode b64 = Raise e /\ is_encoding_error e = true
   \/ e = ciphertext_length_error
   \/ e = decryption_failed
   \/ e = UnicodeDecodeError
   \/ (exists n, n <> 64 /\ e = invalid_seed_length n)
   \/ e = non_hexadecimal_seed)
  /\ is_value_error e = true.
Proof.
  unfold decrypt_seed.
  destruct (Base64.b64decode b64) as [ct | e0] eqn:Eb; cbn [bind].
  - destruct (decrypt B key ct _) as [plain | e1] eqn:Ed; cbn [bind].
    + destruct (decode_utf8 plain) as [hex | e2] eqn:Ex; cbn [bind].
      * destruct (len hex =? 64) eqn:El; cbn [negb].
        -- destruct (negb _); [| discriminate].
           intros [= <-]. split; [| reflexivity]. do 5 right. reflexivity.
        -- intros [= <-]. split; [| reflexivity]. do 4 right. left.
           exists (len hex). split; [apply Z.eqb_neq, El | reflexivity].
      * intros [= <-]. apply SeedFacts.decode_utf8_error in Ex. subst e2.
        split; [| reflexivity]. do 3 right. left. reflexivity.
    + intros [= <-]. apply SeedFacts.decrypt_oaep_error in Ed.
      destruct Ed as [-> | ->]; split; try reflexivity.
      * right. left. reflexivity.
      * do 2 right. left. reflexivity.
  - intros [= <-]. pose proof (Base64Facts.b64decode_error b64 e0 Eb) as He.
    split; [left; split; [reflexivity | exact He] |].
    destruct e0; try reflexivity; discriminate.
Qed.

Lemma decrypt_seed_failures_witness :
  (Base64.b64decode (u "AAAA") = Raise ciphertext_length_error
   /\ is_encoding_error ciphertext_length_error = true
   \/ ciphertext_length_error = ciphertext_length_error
   \/ ciphertext_length_error = decryption_failed
   \/ ciphertext_length_error = UnicodeDecodeError
   \/ (exists n, n <> 64 /\ ciphertext_length_error = invalid_seed_length n)
   \/ ciphertext_length_error = non_hexadecimal_seed)
  /\ is_value_error ciphertext_length_error = true.
Proof.
  apply (decrypt_seed_failures Framing.backend PlainTables.tables (u "AAAA")
           Framing.key4096 ciphertext_length_error).
  vm_compute. reflexivity.
Defined.

(** X3: a seed that [decrypt_seed] accepted always yields codes.  For such a
    seed [hex_to_base32] succeeds and, at every instant from the epoch on,
    [generate_totp_code] returns six decimal digits; from the second period
    on, [verify_totp_code] accepts that code at that instant. *)
Theorem accepted_seed_gives_codes (B : Backend) (U : UnicodeData) (b64 : str)
  (key : private_key B) (s : str) (now : Z) :
  decrypt_seed B U b64 key = Ok s ->
  0 <= now < 30 * 2 ^ 64 ->
  exists base32_seed code,
    hex_to_base32 s = Ok base32_seed
    /\ generate_totp_code s now = Ok code
    /\ length code = 6%nat
    /\ forallb is_digit code = true
    /\ (30 <= now < 30 * (2 ^ 64 - 1) ->
        verify_totp_code U s code now TOTP_VALID_WINDOW = Ok true).
Proof.
  intros H Hn. pose proof (decrypt_seed_seed B U b64 key s H) as Hs.
  destruct (fromhex_seed s Hs) as [sb [Hb _]].
  exists (map b2z (Base64.b32encode sb)), (current_code sb (time_step now)).
  split; [apply hex_to_base32_seed, Hb |].
  split; [apply generate_totp_code_seed; assumption |].
  split; [apply six_digits_shape |]. split; [apply six_digits_shape |].
  intros Hn'. unfold TOTP_VALID_WINDOW.
  rewrite (verify_window_codes U s _ sb now Hb
             (current_code_ascii sb (time_step now)) Hn').
  f_equal. apply existsb_exists. exists (time_step now). split.
  - apply in_window. lia.
  - apply str_eqb_eq. reflexivity.
Qed.

Lemma accepted_seed_gives_codes_witness :
  exists base32_seed code,
    hex_to_base32 Samples.seed_a1 = Ok base32_seed
    /\ generate_totp_code Samples.seed_a1 65 = Ok code
    /\ length code = 6%nat
    /\ forallb is_digit code = true
    /\ (30 <= 65 < 30 * (2 ^ 64 - 1) ->
        verify_totp_code PlainTables.tables Samples.seed_a1 code 65
          TOTP_VALID_WINDOW = Ok true).
Proof.
  apply (accepted_seed_gives_codes Framing.backend PlainTables.tables
           (Samples.payload_of Samples.seed_a1) Framing.key4096
           Samples.seed_a1 65).
  - vm_compute. reflexivity.
  - lia.
Defined.

End DecryptFacts.

(* ================================================================== *)
(** ** The period of a code and the window of the verification *)
(* ================================================================== *)

Module WindowFacts.
Import Py Spec Config CryptoUtils Support PyFacts OtpFacts TotpFacts.

Lemma in_range_list (lo hi i : Z) : In i (Pyotp.range lo hi) <-> lo <= i < hi.
Proof.
  unfold Pyotp.range. rewrite in_map_iff. split.
  - intros [k [<- Hk]]. apply in_seq in Hk. lia.
  - intros H. exists (Z.to_nat (i - lo)). split; [lia |].
    apply in_seq. lia.
Qed.

(** The loop of [TOTP.verify] over offsets whose counters are in range. *)
Lemma verify_loop_codes (U : UnicodeData) (seed_bytes : bytes)
  (candidate : str) (now : Z) (offsets : list Z) :
  forallb is_ascii candidate = true ->
  0 <= now ->
  (forall i, In i offsets -> 0 <= time_step now + i < 2 ^ 64) ->
  Pyotp.verify_loop U (totp_of seed_bytes) candidate now offsets
  = Ok (existsb (fun i => str_eqb candidate
                            (current_code seed_bytes (time_step now + i)))
                offsets).
Proof.
  intros Hc Hn. induction offsets as [| i rest IH]; intros Hr.
  - reflexivity.
  - cbn [Pyotp.verify_loop existsb]. unfold Pyotp.at_.
    rewrite timecode_step by exact Hn.
    rewrite generate_otp_code by (apply Hr; left; reflexivity).
    cbn [bind].
    rewrite strings_equal_ascii by (assumption || apply current_code_ascii).
    cbn [bind].
    destruct (str_eqb candidate (current_code seed_bytes (time_step now + i)));
      [reflexivity |].
    cbn [orb]. apply IH. intros j Hj. apply Hr. right. exact Hj.
Qed.

Lemma step_within (now w : Z) :
  0 <= w -> 30 * w <= now < 30 * (2 ^ 64 - w) ->
  w <= time_step now < 2 ^ 64 - w.
Proof.
  intros Hw Hn. unfold time_step. split.
  - apply Z.div_le_lower_bound; lia.
  - apply Z.div_lt_upper_bound; lia.
Qed.

Lemma verify_any_window (U : UnicodeData) (seed candidate : str)
  (seed_bytes : bytes) (now w : Z) :
  fromhex seed = Ok seed_bytes ->
  forallb is_ascii candidate = true ->
  0 <= w ->
  30 * w <= now < 30 * (2 ^ 64 - w) ->
  verify_totp_code U seed candidate now w
  = Ok (existsb (fun i => str_eqb candidate
                            (current_code seed_bytes (time_step now + i)))
                (Pyotp.range (- w) (w + 1))).
Proof.
  intros Hs Hc Hw Hn. unfold verify_totp_code.
  rewrite (hex_to_base32_seed seed seed_bytes Hs). cbn [bind].
  change (Pyotp.TOTP_init (map b2z (Base64.b32encode seed_bytes))
            TOTP_DIGITS TOTP_PERIOD)
    with (Ok (totp_of seed_bytes)).
  cbn [bind]. unfold Pyotp.verify.
  pose proof (step_within now w Hw Hn) as Ht.
  destruct (Z.eqb_spec w 0) as [-> | Hne]; cbn [negb].
  - unfold Pyotp.at_. rewrite timecode_step by lia.
    rewrite generate_otp_code by lia. cbn [bind].
    rewrite strings_equal_ascii by (assumption || apply current_code_ascii).
    change (Pyotp.range (- 0) (0 + 1)) with [0]. cbn [existsb].
    rewrite orb_false_r. reflexivity.
  - apply verify_loop_codes; [assumption | lia |].
    intros i Hi. apply in_range_list in Hi. lia.
Qed.

(** The code of a time step is what [generate_totp_code] returns at the first
    instant of the step. *)
Lemma code_of_step (seed : str) (seed_bytes : bytes) (t : Z) :
  fromhex seed = Ok seed_bytes -> 0 <= t < 2 ^ 64 ->
  generate_totp_code seed (30 * t) = Ok (current_code seed_bytes t).
Proof.
  intros Hb Ht.
  rewrite (generate_totp_code_seed seed seed_bytes (30 * t) Hb) by lia.
  unfold time_step. rewrite Z.mul_comm, Z.div_mul by lia. reflexivity.
Qed.

(** X4: the code lasts as long as [get_totp_remaining_seconds] says.  With
    [remaining] the value returned at [now], [generate_totp_code] returns at
    every instant from [now] to [now + remaining - 1] what it returns at
    [now]; the instant [now + remaining] is a multiple of the period and
    begins the next time step. *)
Theorem code_lasts_remaining_seconds (seed : str) (now : Z) :
  is_seed_text seed = true ->
  0 <= now < 30 * (2 ^ 64 - 1) ->
  let remaining := get_totp_remaining_seconds now in
  (forall later, now <= later < now + remaining ->
     generate_totp_code seed later = generate_totp_code seed now)
  /\ time_step (now + remaining) = time_step now + 1
  /\ (now + remaining) mod 30 = 0.
Proof.
  intros Hseed Hn remaining.
  destruct (fromhex_seed seed Hseed) as [seed_bytes [Hb _]].
  unfold remaining, get_totp_remaining_seconds, TOTP_PERIOD.
  pose proof (Z.mod_pos_bound now 30 ltac:(lia)) as Hm.
  split; [| split].
  - intros later Hl.
    rewrite !(generate_totp_code_seed seed seed_bytes) by (assumption || lia).
    f_equal. f_equal. unfold time_step.
    Z.to_euclidean_division_equations. lia.
  - unfold time_step. Z.to_euclidean_division_equations. lia.
  - Z.to_euclidean_division_equations. lia.
Qed.

Lemma code_lasts_remaining_seconds_witness :
  let remaining := get_totp_remaining_seconds 1700000005 in
  (forall later, 1700000005 <= later < 1700000005 + remaining ->
     generate_totp_code Samples.seed_a1 later
     = generate_totp_code Samples.seed_a1 1700000005)
  /\ time_step (1700000005 + remaining) = time_step 1700000005 + 1
  /\ (1700000005 + remaining) mod 30 = 0.
Proof.
  apply (code_lasts_remaining_seconds Samples.seed_a1 1700000005).
  - vm_compute. reflexivity.
  - lia.
Defined.

(** X5: [verify_totp_code] with any window.  For a window [w >= 0], a seed
    and an ASCII candidate, at an instant whose time step has [w] steps
    before it, the call returns true exactly when the candidate is the code
    of a time step between [TimeStep(now) - w] and [TimeStep(now) + w], both
    included; with [w = 0] only the current code is accepted.  The code of a
    step [t] is what [generate_totp_code] returns at [30 t]. *)
Theorem verify_accepts_window (U : UnicodeData) (seed candidate : str)
  (now w : Z) :
  is_seed_text seed = true ->
  forallb is_ascii candidate = true ->
  0 <= w ->
  30 * w <= now < 30 * (2 ^ 64 - w) ->
  exists accepted,
    verify_totp_code U seed candidate now w = Ok accepted
    /\ (accepted = true <->
        exists t, time_step now - w <= t <= time_step now + w
                  /\ generate_totp_code seed (30 * t) = Ok candidate).
Proof.
  intros Hseed Hc Hw Hn.
  destruct (fromhex_seed seed Hseed) as [seed_bytes [Hb _]].
  eexists. split; [apply (verify_any_window U seed candidate seed_bytes);
                   assumption |].
  pose proof (step_within now w Hw Hn) as Ht.
  rewrite existsb_exists. split.
  - intros [i [Hi He]]. apply in_range_list in Hi. apply str_eqb_eq in He.
    exists (time_step now + i). split; [lia |].
    rewrite (code_of_step seed seed_bytes) by (assumption || lia).
    rewrite He. reflexivity.
  - intros [t [Hr He]].
    rewrite (code_of_step seed seed_bytes) in He by (assumption || lia).
    injection He as He.
    exists (t - time_step now). split.
    + apply in_range_list. lia.
    + apply str_eqb_eq. rewrite <- He. f_equal. lia.
Qed.

Lemma verify_accepts_window_witness :
  exists accepted,
    verify_totp_code PlainTables.tables Samples.seed_a1 (u "005562") 65 2
    = Ok accepted
    /\ (accepted = true <->
        exists t, time_step 65 - 2 <= t <= time_step 65 + 2
                  /\ generate_totp_code Samples.seed_a1 (30 * t)
                     = Ok (u "005562")).
Proof.
  apply (verify_accepts_window PlainTables.tables Samples.seed_a1 (u "005562")
           65 2).
  - vm_compute. reflexivity.
  - vm_compute. reflexivity.
  - lia.
  - lia.
Defined.

(** With a window of two periods the code of two steps before is accepted,
    and with none only the current one. *)
Example windows_at_65 :
  map (fun w => verify_totp_code PlainTables.tables Samples.seed_a1
                  (u "005562") 65 w) [0; 1; 2]
  = [Ok false; Ok false; Ok true]
  /\ map (fun w => verify_totp_code PlainTables.tables Samples.seed_a1
                     (u "292002") 65 w) [0; 1; 2]
     = [Ok true; Ok true; Ok true].
Proof. split; vm_compute; reflexivity. Qed.

(** X6: a negative window accepts nothing.  For a seed, [verify_totp_code]
    with [valid_window < 0] returns false for every candidate at every
    instant, the current code included: the range of offsets is empty. *)
Theorem negative_window_rejects (U : UnicodeData) (seed candidate : str)
  (now w : Z) :
  is_seed_text seed = true ->
  w < 0 ->
  verify_totp_code U seed candidate now w = Ok false.
Proof.
  intros Hseed Hw.
  destruct (fromhex_seed seed Hseed) as [seed_bytes [Hb _]].
  unfold verify_totp_code.
  rewrite (hex_to_base32_seed seed seed_bytes Hb). cbn [bind].
  change (Pyotp.TOTP_init (map b2z (Base64.b32encode seed_bytes))
            TOTP_DIGITS TOTP_PERIOD)
    with (Ok (totp_of seed_bytes)).
  cbn [bind]. unfold Pyotp.verify.
  replace (w =? 0) with false by lia. cbn [negb].
  unfold Pyotp.range.
  replace (Z.to_nat (w + 1 - - w)) with 0%nat by lia.
  reflexivity.
Qed.

Lemma negative_window_rejects_witness :
  verify_totp_code PlainTables.tables Samples.seed_a1 (u "292002") 65 (-1)
  = Ok false.
Proof.
  apply (negative_window_rejects PlainTables.tables Samples.seed_a1
           (u "292002") 65 (-1)).
  - vm_compute. reflexivity.
  - lia.
Defined.

(** X7: a code just generated is accepted.  The code that
    [generate_totp_code] returned at [issued] is accepted by
    [verify_totp_code], with the window of the configuration, at every
    instant [checked] whose time step is the step of [issued], the one before
    or the one after; in particular at every instant at most 30 seconds
    before or after [issued]. *)
Theorem fresh_code_is_accepted (U : UnicodeData) (seed code : str)
  (issued checked : Z) :
  is_seed_text seed = true ->
  0 <= issued ->
  30 <= checked < 30 * (2 ^ 64 - 1) ->
  generate_totp_code seed issued = Ok code ->
  (time_step checked - 1 <= time_step issued <= time_step checked + 1 ->
   verify_totp_code U seed code checked TOTP_VALID_WINDOW = Ok true)
  /\ (issued - 30 <= checked <= issued + 30 ->
      verify_totp_code U seed code checked TOTP_VALID_WINDOW = Ok true).
Proof.
  intros Hseed Hi Hc Hg.
  destruct (fromhex_seed seed Hseed) as [seed_bytes [Hb _]].
  assert (Hadj : time_step checked - 1 <= time_step issued
                 <= time_step checked + 1 ->
                 verify_totp_code U seed code checked TOTP_VALID_WINDOW
                 = Ok true).
  { intros Hs.
    assert (Hr : issued < 30 * 2 ^ 64).
    { unfold time_step in Hs. Z.to_euclidean_division_equations. lia. }
    rewrite (generate_totp_code_seed seed seed_bytes issued Hb) in Hg by lia.
    injection Hg as <-. unfold TOTP_VALID_WINDOW.
    rewrite (verify_window_codes U seed _ seed_bytes checked Hb
               (current_code_ascii seed_bytes (time_step issued)) Hc).
    f_equal. apply existsb_exists. exists (time_step issued). split.
    - apply in_window. exact Hs.
    - apply str_eqb_eq. reflexivity. }
  split; [exact Hadj |].
  intros Hs. apply Hadj. unfold time_step.
  Z.to_euclidean_division_equations. lia.
Qed.

Lemma fresh_code_is_accepted_witness :
  (time_step 1700000030 - 1 <= time_step 1700000005
   <= time_step 1700000030 + 1 ->
   verify_totp_code PlainTables.tables Samples.seed_a1 (u "060947") 1700000030
     TOTP_VALID_WINDOW = Ok true)
  /\ (1700000005 - 30 <= 1700000030 <= 1700000005 + 30 ->
      verify_totp_code PlainTables.tables Samples.seed_a1 (u "060947") 1700000030
        TOTP_VALID_WINDOW = Ok true).
Proof.
  apply (fresh_code_is_accepted PlainTables.tables Samples.seed_a1 (u "060947")
           1700000005 1700000030).
  - vm_compute. reflexivity.
  - lia.
  - lia.
  - vm_compute. reflexivity.
Defined.

(** X8: what is not six digits is never a valid code.  For a seed and an
    ASCII candidate that has not exactly six characters, or has one that is
    not a decimal digit, [verify_totp_code] with the window of the
    configuration returns false; the empty candidate is one of them. *)
Theorem malformed_code_is_rejected (U : UnicodeData) (seed candidate : str)
  (now : Z) :
  is_seed_text seed = true ->
  30 <= now < 30 * (2 ^ 64 - 1) ->
  forallb is_ascii candidate = true ->
  (length candidate =? 6)%nat && forallb is_digit candidate = false ->
  verify_totp_code U seed candidate now TOTP_VALID_WINDOW = Ok false.
Proof.
  intros Hseed Hn Hc Hbad.
  destruct (fromhex_seed seed Hseed) as [seed_bytes [Hb _]].
  unfold TOTP_VALID_WINDOW.
  rewrite (verify_window_codes U seed candidate seed_bytes now Hb Hc Hn).
  f_equal. apply not_true_is_false. intros H.
  apply existsb_exists in H. destruct H as [t [_ He]].
  apply str_eqb_eq in He. subst candidate.
  unfold current_code in Hbad.
  match type of Hbad with
  | context [six_digits ?n] =>
      destruct (six_digits_shape n) as [Hl Hd]
  end.
  rewrite Hl, Hd in Hbad. discriminate.
Qed.

Lemma malformed_code_is_rejected_witness :
  verify_totp_code PlainTables.tables Samples.seed_a1 (u "29200") 65
    TOTP_VALID_WINDOW = Ok false.
Proof.
  apply (malformed_code_is_rejected PlainTables.tables Samples.seed_a1
           (u "29200") 65).
  - vm_compute. reflexivity.
  - lia.
  - vm_compute. reflexivity.
  - vm_compute. reflexivity.
Defined.

End WindowFacts.

(* ================================================================== *)
(** ** The base32 secret of a seed *)
(* ================================================================== *)

Module SecretFacts.
Import Py Spec Config CryptoUtils Support PyFacts OtpFacts TotpFacts.

(** A digit's value names the digit, lowered. *)
Lemma hex_value_digit (c h : Z) :
  hex_value c = Some h ->
  0 <= h < 16 /\ nth (Z.to_nat h) lower_hexdigits 0 = ascii_lower c.
Proof.
  intros H.
  assert (Hc : 0 <= c < 128).
  { unfold hex_value, in_range in H.
    destruct ((48 <=? c) && (c <=? 57)) eqn:E1; [lia |].
    destruct ((97 <=? c) && (c <=? 102)) eqn:E2; [lia |].
    destruct ((65 <=? c) && (c <=? 70)) eqn:E3; [lia | discriminate]. }
  pose proof (Base64Facts.below_checked
    (fun c => match hex_value c with
              | Some h => (0 <=? h) && (h <? 16)
                          && (nth (Z.to_nat h) lower_hexdigits 0 =? ascii_lower c)
              | None => true
              end) 128 ltac:(vm_compute; reflexivity) c Hc) as G.
  cbv beta in G. rewrite H in G.
  apply andb_true_iff in G. destruct G as [G1 G2]. apply Z.eqb_eq in G2.
  split; [lia | exact G2].
Qed.

Lemma hex_value_none (c : Z) : is_hexdigit c = false -> hex_value c = None.
Proof.
  unfold is_hexdigit, hex_value. intros H.
  apply orb_false_iff in H. destruct H as [H H3].
  apply orb_false_iff in H. destruct H as [H1 H2].
  rewrite H1, H2, H3. reflexivity.
Qed.

Lemma hex_cons (b : byte) (bs : bytes) :
  hex (b :: bs)
  = nth (Z.to_nat (b2z b / 16)) lower_hexdigits 0
    :: nth (Z.to_nat (b2z b mod 16)) lower_hexdigits 0 :: hex bs.
Proof. reflexivity. Qed.

(** [bytes.fromhex(s).hex()] is [s] lowered, for [s] made of digits. *)
Lemma hex_fromhex_from_upto (n : nat) :
  forall s pos raw, (length s <= n)%nat ->
  forallb is_hexdigit s = true ->
  fromhex_from pos s = Ok raw -> hex raw = canonical s.
Proof.
  induction n as [| n IH]; intros s pos raw Hl Hh.
  - destruct s; [intros [= <-]; reflexivity | cbn in Hl; lia].
  - destruct s as [| c s]; [intros [= <-]; reflexivity |].
    cbn [forallb] in Hh. apply andb_true_iff in Hh. destruct Hh as [Hc Hh].
    destruct (hexdigit_value c Hc) as [Sc [vc Vc]].
    cbn [fromhex_from]. rewrite Sc, Vc.
    destruct s as [| d s]; [discriminate |].
    cbn [forallb] in Hh. apply andb_true_iff in Hh. destruct Hh as [Hd Hh].
    destruct (hexdigit_value d Hd) as [_ [vd Vd]]. rewrite Vd.
    destruct (fromhex_from (pos + 2) s) as [tl |] eqn:E; cbn [bind];
      [| discriminate].
    intros [= <-].
    destruct (hex_value_digit c vc Vc) as [Rc Nc].
    destruct (hex_value_digit d vd Vd) as [Rd Nd].
    rewrite hex_cons, b2z_z2b_small by lia.
    replace ((vc * 16 + vd) / 16) with vc
      by (Z.to_euclidean_division_equations; lia).
    replace ((vc * 16 + vd) mod 16) with vd
      by (Z.to_euclidean_division_equations; lia).
    rewrite Nc, Nd. cbn [canonical map]. do 2 f_equal.
    apply (IH s (pos + 2)); [cbn [length] in Hl; lia | exact Hh | exact E].
Qed.

Lemma hex_fromhex (s : str) (raw : bytes) :
  forallb is_hexdigit s = true -> fromhex s = Ok raw -> hex raw = canonical s.
Proof.
  intros Hh. unfold fromhex.
  destruct (first_non_ascii 0 s); [discriminate |].
  apply (hex_fromhex_from_upto (length s)); [lia | exact Hh].
Qed.

(** The base32 text of [5 k + 2] octets: [8 k + 4] characters and four
    pads. *)
Lemma body_pads_5k2 (k : nat) :
  forall s, length s = (5 * k + 2)%nat ->
  length (body s) = (8 * k + 4)%nat /\ pads s = 4%nat.
Proof.
  induction k as [| k IH]; intros s Hl.
  - destruct s as [| a [| b [| c s]]]; try discriminate. auto.
  - destruct s as [| a [| b [| c [| d [| e rest]]]]]; cbn [length] in Hl; try lia.
    destruct (IH rest ltac:(lia)) as [Hb Hp].
    cbn [body pads]. rewrite length_app, Hb, Hp. cbn [sextets length].
    split; [lia | reflexivity].
Qed.

Lemma b32tab_in_alphabet (idxs : list Z) :
  forallb is_quintet idxs = true ->
  forallb (fun c => char_in c Base64.b32alphabet)
          (map b2z (map Base64.b32tab idxs)) = true.
Proof.
  induction idxs as [| i idxs IH]; cbn [forallb map]; [reflexivity |].
  intros H. apply andb_true_iff in H. destruct H as [Hi Hs].
  rewrite IH by exact Hs. rewrite andb_true_r.
  unfold is_quintet in Hi.
  apply (Base64Facts.below_checked
           (fun i => char_in (b2z (Base64.b32tab i)) Base64.b32alphabet) 32);
    [vm_compute; reflexivity | lia].
Qed.

Lemma b32encode_injective (a b : bytes) :
  map b2z (Base64.b32encode a) = map b2z (Base64.b32encode b) -> a = b.
Proof.
  intros H.
  destruct (Base32Facts.b32decode_b32encode a) as [_ Ha].
  destruct (Base32Facts.b32decode_b32encode b) as [_ Hb].
  rewrite H in Ha. congruence.
Qed.

(** X9: the base32 secret of a seed.  For a 64-character hexadecimal seed,
    [hex_to_base32] returns 56 characters: 52 of the base32 alphabet
    [A-Z2-7], then four [=].  Decoding them gives back the 32 octets the seed
    stands for, whose hexadecimal writing is the seed in small letters. *)
Theorem base32_secret_of_seed (seed : str) :
  is_seed_text seed = true ->
  exists seed_bytes characters,
    fromhex seed = Ok seed_bytes
    /\ length seed_bytes = 32%nat
    /\ hex seed_bytes = canonical seed
    /\ hex_to_base32 seed = Ok (characters ++ u "====")
    /\ length characters = 52%nat
    /\ forallb (fun c => char_in c Base64.b32alphabet) characters = true
    /\ Base64.b32decode (characters ++ u "====") true = Ok seed_bytes.
Proof.
  intros Hseed.
  destruct (fromhex_seed seed Hseed) as [seed_bytes [Hb Hl]].
  destruct (seed_text_inv seed Hseed) as [_ Hh].
  destruct (body_pads_5k2 6 seed_bytes Hl) as [Hbody Hpads].
  assert (Hshape : map b2z (Base64.b32encode seed_bytes)
                   = map b2z (map Base64.b32tab (body seed_bytes)) ++ u "====").
  { rewrite Base32Facts.b32encode_shape, Hpads, map_app. reflexivity. }
  exists seed_bytes, (map b2z (map Base64.b32tab (body seed_bytes))).
  split; [exact Hb |]. split; [exact Hl |].
  split; [apply hex_fromhex; assumption |].
  split; [rewrite <- Hshape; apply hex_to_base32_seed, Hb |].
  split; [rewrite !length_map; exact Hbody |].
  split; [apply b32tab_in_alphabet, Base32Facts.body_range |].
  rewrite <- Hshape. apply Base32Facts.b32decode_b32encode.
Qed.

Lemma base32_secret_of_seed_witness :
  exists seed_bytes characters,
    fromhex Samples.seed_A1 = Ok seed_bytes
    /\ length seed_bytes = 32%nat
    /\ hex seed_bytes = canonical Samples.seed_A1
    /\ hex_to_base32 Samples.seed_A1 = Ok (characters ++ u "====")
    /\ length characters = 52%nat
    /\ forallb (fun c => char_in c Base64.b32alphabet) characters = true
    /\ Base64.b32decode (characters ++ u "====") true = Ok seed_bytes.
Proof.
  apply (base32_secret_of_seed Samples.seed_A1). vm_compute. reflexivity.
Defined.

Example secret_of_sample :
  hex_to_base32 Samples.seed_a1
  = Ok (u "UGQ2DINBUGQ2DINBUGQ2DINBUGQ2DINBUGQ2DINBUGQ2DINBUGQQ====").
Proof. vm_compute. reflexivity. Qed.

(** X10: the secret loses the case of the seed and nothing else.  Two seeds
    get the same base32 secret from [hex_to_base32] exactly when they are
    equal up to the case of their letters. *)
Theorem base32_secret_names_seed (a b : str) :
  is_seed_text a = true ->
  is_seed_text b = true ->
  (hex_to_base32 a = hex_to_base32 b <-> canonical a = canonical b).
Proof.
  intros Ha Hb.
  destruct (fromhex_seed a Ha) as [xa [Xa _]].
  destruct (fromhex_seed b Hb) as [xb [Xb _]].
  destruct (seed_text_inv a Ha) as [_ Da].
  destruct (seed_text_inv b Hb) as [_ Db].
  rewrite (hex_to_base32_seed a xa Xa), (hex_to_base32_seed b xb Xb).
  split.
  - intros [= H]. apply b32encode_injective in H. subst xb.
    rewrite <- (hex_fromhex a xa Da Xa). apply (hex_fromhex b xa Db Xb).
  - intros H.
    rewrite <- (SeedCaseFacts.fromhex_lower a) in Xa.
    rewrite <- (SeedCaseFacts.fromhex_lower b) in Xb.
    rewrite H in Xa. congruence.
Qed.

Lemma base32_secret_names_seed_witness :
  hex_to_base32 Samples.seed_A1 = hex_to_base32 Samples.seed_a1
  <-> canonical Samples.seed_A1 = canonical Samples.seed_a1.
Proof.
  apply (base32_secret_names_seed Samples.seed_A1 Samples.seed_a1);
    vm_compute; reflexivity.
Defined.

(** *** Text that is not a seed *)

Lemma first_non_ascii_position (s : str) :
  forall pos p, first_non_ascii pos s = Some p -> pos <= p < pos + len s.
Proof.
  induction s as [| c s IH]; intros pos p; cbn [first_non_ascii]; [discriminate |].
  unfold len in *. cbn [length]. rewrite Nat2Z.inj_succ.
  destruct (is_ascii c).
  - intros H. apply IH in H. lia.
  - intros [= <-]. lia.
Qed.

(** Text without white space that is not an even number of hexadecimal digits
    is refused, at a position inside the text or at its end. *)
Lemma fromhex_from_refuses (n : nat) :
  forall s pos, (length s <= n)%nat ->
  existsb is_space s = false ->
  forallb is_hexdigit s && Nat.even (length s) = false ->
  exists k, 0 <= k <= len s /\ fromhex_from pos s = Raise (fromhex_error (pos + k)).
Proof.
  induction n as [| n IH]; intros s pos Hl Hsp Hbad.
  - destruct s; [discriminate | cbn in Hl; lia].
  - destruct s as [| c s]; [discriminate |].
    cbn [existsb] in Hsp. apply orb_false_iff in Hsp. destruct Hsp as [Sc Hsp].
    cbn [fromhex_from]. rewrite Sc.
    destruct (is_hexdigit c) eqn:Hc.
    + destruct (hexdigit_value c Hc) as [_ [vc Vc]]. rewrite Vc.
      destruct s as [| d s].
      * exists 1. unfold len. cbn [length]. split; [lia | reflexivity].
      * cbn [existsb] in Hsp. apply orb_false_iff in Hsp.
        destruct Hsp as [Sd Hsp].
        destruct (is_hexdigit d) eqn:Hd.
        -- destruct (hexdigit_value d Hd) as [_ [vd Vd]]. rewrite Vd.
           cbn [forallb length Nat.even] in Hbad. rewrite Hc, Hd in Hbad.
           cbn [andb] in Hbad.
           destruct (IH s (pos + 2)) as [k [Hk Hr]];
             [cbn [length] in Hl; lia | exact Hsp | exact Hbad |].
           rewrite Hr. cbn [bind]. exists (2 + k). unfold len in *.
           cbn [length]. rewrite !Nat2Z.inj_succ.
           split; [lia |].
           replace (pos + (2 + k)) with (pos + 2 + k) by lia. reflexivity.
        -- rewrite (hex_value_none d Hd). exists 1. unfold len.
           cbn [length]. rewrite !Nat2Z.inj_succ. split; [lia | reflexivity].
    + rewrite (hex_value_none c Hc). exists 0. unfold len. cbn [length].
      rewrite Nat2Z.inj_succ. split; [lia |].
      rewrite Z.add_0_r. reflexivity.
Qed.

Lemma fromhex_refuses (s : str) :
  existsb is_space s = false ->
  forallb is_hexdigit s && Nat.even (length s) = false ->
  exists pos, 0 <= pos <= len s /\ fromhex s = Raise (fromhex_error pos).
Proof.
  intros Hsp Hbad. unfold fromhex.
  destruct (first_non_ascii 0 s) as [p |] eqn:E.
  - apply first_non_ascii_position in E. exists p. split; [lia | reflexivity].
  - destruct (fromhex_from_refuses (length s) s 0 ltac:(lia) Hsp Hbad)
      as [k [Hk Hr]].
    exists k. split; [exact Hk | exact Hr].
Qed.

Lemma fromhex_accepts (s : str) :
  forallb is_hexdigit s && Nat.even (length s) = true ->
  exists raw, fromhex s = Ok raw /\ (2 * length raw = length s)%nat.
Proof.
  intros H. apply andb_true_iff in H. destruct H as [Hh He].
  apply Nat.even_spec in He. destruct He as [k Hk].
  unfold fromhex. rewrite first_non_ascii_none by apply hex_text_ascii, Hh.
  destruct (fromhex_from_digits k s 0 Hk Hh) as [raw [Hr Hl]].
  exists raw. split; [exact Hr | lia].
Qed.

(** X11: [hex_to_base32] does not check the length of the seed.  On a text
    without ASCII white space it succeeds exactly when the text is an even
    number of hexadecimal digits, of any length, the empty text included, and
    then [generate_totp_code] returns the code of the octets the digits stand
    for.  Otherwise it raises the [ValueError] of [bytes.fromhex], which names
    a position inside the text or its end, and [generate_totp_code] and
    [verify_totp_code] raise the same error. *)
Theorem hex_to_base32_takes_any_even_hex (U : UnicodeData) (hex_seed : str) :
  existsb is_space hex_seed = false ->
  if forallb is_hexdigit hex_seed && Nat.even (length hex_seed)
  then exists seed_bytes,
         fromhex hex_seed = Ok seed_bytes
         /\ (2 * length seed_bytes = length hex_seed)%nat
         /\ hex_to_base32 hex_seed = Ok (map b2z (Base64.b32encode seed_bytes))
         /\ forall now, 0 <= now < 30 * 2 ^ 64 ->
              generate_totp_code hex_seed now
              = Ok (current_code seed_bytes (time_step now))
  else exists pos,
         0 <= pos <= len hex_seed
         /\ hex_to_base32 hex_seed = Raise (fromhex_error pos)
         /\ forall code now valid_window,
              generate_totp_code hex_seed now = Raise (fromhex_error pos)
              /\ verify_totp_code U hex_seed code now valid_window
                 = Raise (fromhex_error pos).
Proof.
  intros Hsp.
  destruct (forallb is_hexdigit hex_seed && Nat.even (length hex_seed)) eqn:E.
  - destruct (fromhex_accepts hex_seed E) as [raw [Hr Hl]].
    exists raw. split; [exact Hr |]. split; [exact Hl |].
    split; [apply hex_to_base32_seed, Hr |].
    intros now Hn. apply generate_totp_code_seed; assumption.
  - destruct (fromhex_refuses hex_seed Hsp E) as [pos [Hp Hr]].
    exists pos. split; [exact Hp |].
    assert (Hx : hex_to_base32 hex_seed = Raise (fromhex_error pos))
      by (unfold hex_to_base32; rewrite Hr; reflexivity).
    split; [exact Hx |]. intros code now w.
    unfold generate_totp_code, verify_totp_code. rewrite Hx. split; reflexivity.
Qed.

Lemma hex_to_base32_takes_any_even_hex_witness :
  exists pos,
    0 <= pos <= len (u "a1b")
    /\ hex_to_base32 (u "a1b") = Raise (fromhex_error pos)
    /\ forall code now valid_window,
         generate_totp_code (u "a1b") now = Raise (fromhex_error pos)
         /\ verify_totp_code PlainTables.tables (u "a1b") code now valid_window
            = Raise (fromhex_error pos).
Proof.
  apply (hex_to_base32_takes_any_even_hex PlainTables.tables (u "a1b")).
  vm_compute. reflexivity.
Defined.

(** A seed of two digits, and no seed at all, give codes as well. *)
Example codes_of_short_seeds :
  map (fun s => generate_totp_code s 65) [u "a1"; []; u "a1b"; u "zz"]
  = [Ok (u "328766"); Ok (u "073348"); Raise (fromhex_error 3);
     Raise (fromhex_error 0)].
Proof. vm_compute. reflexivity. Qed.

End SecretFacts.

(* ================================================================== *)
(** ** The text that [base64.b64encode] writes *)
(* ================================================================== *)

Module EncodedFacts.
Import Py Spec Base64 Support PyFacts Base64Facts.

Lemma b2a_in_alphabet (i : Z) :
  is_sextet i = true -> in_base64_alphabet (b2z (b2a i)) = true.
Proof.
  intros H. unfold is_sextet in H.
  apply (below_checked (fun i => in_base64_alphabet (b2z (b2a i))) 64);
    [vm_compute; reflexivity | lia].
Qed.

Lemma last_sextet_of_one (a : byte) :
  is_sextet (Z.shiftl (Z.land (b2z a) 3) 4) = true.
Proof.
  apply (checked_on_bytes (fun a => is_sextet (Z.shiftl (Z.land a 3) 4))).
  vm_compute. reflexivity.
Qed.

Lemma last_sextet_of_two (b : byte) :
  is_sextet (Z.shiftl (Z.land (b2z b) 15) 2) = true.
Proof.
  apply (checked_on_bytes (fun b => is_sextet (Z.shiftl (Z.land b 15) 2))).
  vm_compute. reflexivity.
Qed.

Lemma pad_octet : b2z (z2b BASE64_PAD) = 61.
Proof. reflexivity. Qed.

Lemma well_formed_group (a b c d : Z) (rest : str) :
  in_base64_alphabet a = true -> in_base64_alphabet b = true ->
  in_base64_alphabet c = true -> in_base64_alphabet d = true ->
  well_formed_base64 rest = true ->
  well_formed_base64 (a :: b :: c :: d :: rest) = true.
Proof.
  intros Ha Hb Hc Hd Hr. destruct rest as [| x rest].
  - cbn [well_formed_base64]. rewrite Ha, Hb, Hc, Hd. reflexivity.
  - change (well_formed_base64 (a :: b :: c :: d :: x :: rest))
      with (in_base64_alphabet a && in_base64_alphabet b
            && in_base64_alphabet c && in_base64_alphabet d
            && well_formed_base64 (x :: rest)).
    rewrite Ha, Hb, Hc, Hd, Hr. reflexivity.
Qed.

(** What [base64.b64encode] writes is well-formed base64 text, four
    characters for every three octets or part of them. *)
Lemma b64encode_well_formed_upto (k : nat) :
  forall data, (length data <= k)%nat ->
  well_formed_base64 (map b2z (b64encode data)) = true
  /\ len (map b2z (b64encode data)) = 4 * ((len data + 2) / 3).
Proof.
  unfold b64encode.
  induction k as [| k IH]; intros data Hk.
  - destruct data; [split; reflexivity | cbn in Hk; lia].
  - destruct data as [| a [| b [| c rest]]].
    + split; reflexivity.
    + cbn [b2a_base64 map]. rewrite pad_octet. split; [| reflexivity].
      cbn [well_formed_base64].
      rewrite !b2a_in_alphabet by (apply first_sextet || apply last_sextet_of_one).
      reflexivity.
    + cbn [b2a_base64 map]. rewrite pad_octet. split; [| reflexivity].
      destruct (second_sextet a b) as [S2 _]. cbv zeta in S2.
      cbn [well_formed_base64].
      rewrite !b2a_in_alphabet
        by (apply first_sextet || apply last_sextet_of_two || exact S2).
      reflexivity.
    + cbn [b2a_base64 map].
      destruct (second_sextet a b) as [S2 _]. cbv zeta in S2.
      destruct (third_sextet b c) as [S3 _]. cbv zeta in S3.
      destruct (fourth_sextet c) as [S4 _].
      destruct (IH rest ltac:(cbn [length] in Hk; lia)) as [W L].
      split.
      * apply well_formed_group; try apply b2a_in_alphabet;
          try apply first_sextet; assumption.
      * unfold len in *. cbn [length]. rewrite !Nat2Z.inj_succ.
        unfold Z.succ. rewrite L.
        Z.to_euclidean_division_equations. lia.
Qed.

Lemma b64encode_well_formed (data : bytes) :
  well_formed_base64 (map b2z (b64encode data)) = true
  /\ len (map b2z (b64encode data)) = 4 * ((len data + 2) / 3).
Proof. apply (b64encode_well_formed_upto (length data)). lia. Qed.

End EncodedFacts.

(* ================================================================== *)
(** ** The endpoints and the cron job *)
(* ================================================================== *)

Module EndpointFacts.
Import Py Spec Cryptography Config CryptoUtils App Text Endpoints Service Support.
Import PyFacts OtpFacts TotpFacts TextFacts.

Lemma generate_otp_shape (self : Pyotp.TOTP) (input : Z) (code : str) :
  Pyotp.digits self = 6 ->
  Pyotp.generate_otp self input = Ok code ->
  length code = 6%nat /\ forallb is_digit code = true.
Proof.
  intros Hd. unfold Pyotp.generate_otp.
  destruct (input <? 0); [discriminate |].
  destruct (Pyotp.byte_secret self) as [key |]; cbn [bind]; [| discriminate].
  pose proof (truncation_agrees
                (Hashlib.hmac_sha1 key (Pyotp.int_to_bytestring input))) as Ht.
  cbv zeta in Ht. rewrite Ht, Hd.
  change (10 ^ 6) with 1000000.
  rewrite padded_code by (apply Z.mod_pos_bound; lia).
  intros [= <-]. apply six_digits_shape.
Qed.

(** Whatever the seed, a code that [generate_totp_code] returns is six
    decimal digits. *)
Lemma generate_totp_code_shape (hex_seed : str) (now : Z) (code : str) :
  generate_totp_code hex_seed now = Ok code ->
  length code = 6%nat /\ forallb is_digit code = true.
Proof.
  unfold generate_totp_code.
  destruct (hex_to_base32 hex_seed) as [b32 |]; cbn [bind]; [| discriminate].
  change (Pyotp.TOTP_init b32 TOTP_DIGITS TOTP_PERIOD)
    with (Ok {| Pyotp.secret := b32; Pyotp.digits := TOTP_DIGITS;
                Pyotp.interval := TOTP_PERIOD |}).
  cbn [bind]. unfold Pyotp.now_. apply generate_otp_shape. reflexivity.
Qed.

Lemma remaining_range (t : Z) : 1 <= get_totp_remaining_seconds t <= 30.
Proof.
  unfold get_totp_remaining_seconds, TOTP_PERIOD.
  pose proof (Z.mod_pos_bound t 30 ltac:(lia)). lia.
Qed.

(** X12: the answers of [/generate-2fa].  Whatever the seed file holds and
    whatever the clock reads, the endpoint answers either with status 500 and
    "Seed not decrypted yet", or with a code of six decimal digits, the one
    [generate_totp_code] returns for the stripped text of the file, and a
    [valid_for] between 1 and 30. *)
Theorem generate_2fa_replies (disk : storage) (now later : Z) :
  generate_2fa_endpoint disk now later = seed_not_decrypted
  \/ exists content code,
       disk = Some content
       /\ generate_totp_code (strip (read_text content)) now = Ok code
       /\ generate_2fa_endpoint disk now later
          = code_reply code (get_totp_remaining_seconds later)
       /\ length code = 6%nat
       /\ forallb is_digit code = true
       /\ 1 <= get_totp_remaining_seconds later <= 30.
Proof.
  unfold generate_2fa_endpoint. destruct disk as [content |]; [| left; reflexivity].
  cbv zeta.
  destruct (generate_totp_code (strip (read_text content)) now) as [code |] eqn:E;
    [| left; reflexivity].
  right. exists content, code.
  destruct (generate_totp_code_shape _ _ _ E) as [Hl Hd].
  repeat split; try assumption; apply remaining_range.
Qed.

Lemma generate_on_seed (seed : str) (seed_bytes : bytes) (now later : Z) :
  is_seed_text seed = true ->
  fromhex seed = Ok seed_bytes ->
  0 <= now < 30 * 2 ^ 64 ->
  generate_2fa_endpoint (Some seed) now later
  = code_reply (current_code seed_bytes (time_step now))
      (get_totp_remaining_seconds later).
Proof.
  intros Hs Hb Hn. unfold generate_2fa_endpoint. cbv zeta.
  rewrite (read_back_seed seed Hs).
  rewrite (generate_totp_code_seed seed seed_bytes now Hb Hn). reflexivity.
Qed.

Lemma verify_on_seed (U : UnicodeData) (seed : str) (seed_bytes : bytes)
  (code : str) (now : Z) :
  is_seed_text seed = true ->
  fromhex seed = Ok seed_bytes ->
  code <> [] ->
  forallb is_ascii code = true ->
  30 <= now < 30 * (2 ^ 64 - 1) ->
  verify_2fa_endpoint U code (Some seed) now
  = valid_reply (existsb (fun t => str_eqb code (current_code seed_bytes t))
                         (window (time_step now))).
Proof.
  intros Hs Hb Hne Hc Hn. unfold verify_2fa_endpoint.
  destruct code as [| c code]; [congruence |]. cbv zeta.
  rewrite (read_back_seed seed Hs). unfold TOTP_VALID_WINDOW.
  rewrite (verify_window_codes U seed _ seed_bytes now Hb Hc Hn). reflexivity.
Qed.

Lemma current_code_nonempty (seed_bytes : bytes) (t : Z) :
  current_code seed_bytes t <> [].
Proof. unfold current_code, six_digits. cbn [map]. discriminate. Qed.

(** X13: [valid_for] is honoured.  The endpoint reads the clock twice, for the
    code and then for [valid_for].  When the second reading is not before the
    first and at most one time step after it, the code answered by
    [/generate-2fa] is accepted by [/verify-2fa] at every instant from the
    second reading until [valid_for] seconds after it, also when a period
    ended between the two readings. *)
Theorem valid_for_is_honoured (U : UnicodeData) (seed code : str)
  (valid_for now later checked : Z) :
  is_seed_text seed = true ->
  0 <= now <= later ->
  time_step later <= time_step now + 1 ->
  generate_2fa_endpoint (Some seed) now later = code_reply code valid_for ->
  30 <= checked < 30 * (2 ^ 64 - 1) ->
  later <= checked < later + valid_for ->
  verify_2fa_endpoint U code (Some seed) checked = valid_reply true.
Proof.
  intros Hs Hn Hstep Hg Hc Hv.
  destruct (fromhex_seed seed Hs) as [seed_bytes [Hb _]].
  rewrite (generate_on_seed seed seed_bytes now later Hs Hb) in Hg by lia.
  injection Hg as <- <-.
  rewrite (verify_on_seed U seed seed_bytes _ checked Hs Hb
             (current_code_nonempty _ _) (current_code_ascii _ _) Hc).
  f_equal. apply existsb_exists. exists (time_step now). split.
  - apply in_window.
    unfold get_totp_remaining_seconds, TOTP_PERIOD, time_step in *.
    Z.to_euclidean_division_equations. lia.
  - apply str_eqb_eq. reflexivity.
Qed.

Lemma valid_for_is_honoured_witness :
  verify_2fa_endpoint PlainTables.tables (u "292002") (Some Samples.seed_a1) 95
  = valid_reply true.
Proof.
  apply (valid_for_is_honoured PlainTables.tables Samples.seed_a1 (u "292002")
           25 89 95 95).
  - vm_compute. reflexivity.
  - lia.
  - vm_compute. discriminate.
  - vm_compute. reflexivity.
  - lia.
  - lia.
Defined.

(** The two outcomes of a [/decrypt-seed] request. *)
Lemma decrypt_seed_endpoint_cases (B : Backend) (U : UnicodeData)
  (student_private_key : option (private_key B)) (encrypted_seed : str)
  (disk : storage) :
  (exists seed,
     is_seed_text seed = true
     /\ decrypt_seed_endpoint B U student_private_key encrypted_seed disk
        = (status_ok, Some seed))
  \/ decrypt_seed_endpoint B U student_private_key encrypted_seed disk
     = (HTTP_500 (u "Decryption failed"), disk).
Proof.
  unfold decrypt_seed_endpoint.
  destruct student_private_key as [key |]; [| right; reflexivity].
  destruct (decrypt_seed B U encrypted_seed key) as [seed | e] eqn:E;
    [| right; reflexivity].
  left. exists seed. split; [| reflexivity].
  apply (DecryptFacts.decrypt_seed_seed B U encrypted_seed key seed E).
Qed.





(** A refused request, an accepted one and another refused one leave the
    seed of the accepted one. *)
Example seed_file_after_three_requests :
  after_requests Framing.backend PlainTables.tables (Some Framing.key4096)
    [u "AAAA"; Samples.payload_of Samples.seed_a1; u "!"] None
  = Some Samples.seed_a1.
Proof. vm_compute. reflexivity. Qed.

(** X16: from the seed delivery to the codes.  When [/decrypt-seed] has
    answered [{"status": "ok"}], the seed file holds a seed; at any instant
    from the second period on, [/generate-2fa] answers with the code that
    [generate_totp_code] gives for that seed, the cron job prints the same
    code after its timestamp, and [/verify-2fa] answers [{"valid": true}] for
    that code at that instant. *)
Theorem decrypted_seed_serves_codes (B : Backend) (U : UnicodeData)
  (student_private_key : option (private_key B)) (encrypted_seed : str)
  (disk disk' : storage) (now later : Z) (seed_file_path timestamp : str) :
  decrypt_seed_endpoint B U student_private_key encrypted_seed disk
  = (status_ok, disk') ->
  30 <= now < 30 * (2 ^ 64 - 1) ->
  exists seed code,
    disk' = Some seed
    /\ is_seed_text seed = true
    /\ generate_totp_code seed now = Ok code
    /\ generate_2fa_endpoint disk' now later
       = code_reply code (get_totp_remaining_seconds later)
    /\ Cron.main seed_file_path disk' now timestamp
       = Cron.stdout (timestamp ++ u " - 2FA Code: " ++ code)
    /\ verify_2fa_endpoint U code disk' now = valid_reply true.
Proof.
  intros Hr Hn.
  destruct (decrypt_seed_endpoint_cases B U student_private_key
              encrypted_seed disk)
    as [[seed [Hs Hx]] | Hx];
    rewrite Hx in Hr; [| discriminate].
  injection Hr as <-.
  destruct (fromhex_seed seed Hs) as [seed_bytes [Hb _]].
  exists seed, (current_code seed_bytes (time_step now)).
  split; [reflexivity |]. split; [exact Hs |].
  split; [apply generate_totp_code_seed; [exact Hb | lia] |].
  split; [apply generate_on_seed; [exact Hs | exact Hb | lia] |].
  split.
  - unfold Cron.main. cbv zeta. rewrite (read_back_seed seed Hs).
    rewrite (generate_totp_code_seed seed seed_bytes now Hb) by lia.
    reflexivity.
  - rewrite (verify_on_seed U seed seed_bytes _ now Hs Hb
               (current_code_nonempty _ _) (current_code_ascii _ _) Hn).
    f_equal. apply existsb_exists. exists (time_step now). split.
    + apply in_window. lia.
    + apply str_eqb_eq. reflexivity.
Qed.

Lemma decrypted_seed_serves_codes_witness :
  exists seed code,
    Some Samples.seed_a1 = Some seed
    /\ is_seed_text seed = true
    /\ generate_totp_code seed 65 = Ok code
    /\ generate_2fa_endpoint (Some Samples.seed_a1) 65 66
       = code_reply code (get_totp_remaining_seconds 66)
    /\ Cron.main (u "/data/seed.txt") (Some Samples.seed_a1) 65
         (u "1970-01-01 00:01:05")
       = Cron.stdout (u "1970-01-01 00:01:05" ++ u " - 2FA Code: " ++ code)
    /\ verify_2fa_endpoint PlainTables.tables code (Some Samples.seed_a1) 65
       = valid_reply true.
Proof.
  apply (decrypted_seed_serves_codes Framing.backend PlainTables.tables
           (Some Framing.key4096) (Samples.payload_of Samples.seed_a1) None
           (Some Samples.seed_a1) 65 66 (u "/data/seed.txt")
           (u "1970-01-01 00:01:05")).
  - vm_compute. reflexivity.
  - lia.
Defined.

(** X17: white space around the stored seed does not count.  When the seed
    file holds a text without white space, with white space before and after
    it (a line end, say, in either convention), [/generate-2fa], [/verify-2fa]
    and the cron job behave as on the file that holds the text alone: what
    they read and strip is that text. *)
Theorem stored_seed_may_have_blanks (U : UnicodeData)
  (before seed after code path timestamp : str) (now later : Z) :
  forallb is_whitespace before = true ->
  forallb is_whitespace after = true ->
  existsb is_whitespace seed = false ->
  seed <> [] ->
  generate_2fa_endpoint (Some (before ++ seed ++ after)) now later
  = generate_2fa_endpoint (Some seed) now later
  /\ verify_2fa_endpoint U code (Some (before ++ seed ++ after)) now
     = verify_2fa_endpoint U code (Some seed) now
  /\ Cron.main path (Some (before ++ seed ++ after)) now timestamp
     = Cron.main path (Some seed) now timestamp
  /\ strip (read_text (before ++ seed ++ after)) = seed.
Proof.
  intros Hb Ha Hs Hne.
  pose proof (read_back before seed after Hb Ha Hne Hs) as H1.
  pose proof (read_back [] seed [] eq_refl eq_refl Hne Hs) as H2.
  cbn [app] in H2. rewrite app_nil_r in H2.
  unfold generate_2fa_endpoint, verify_2fa_endpoint, Cron.main. cbv zeta.
  rewrite H1, H2. auto.
Qed.

Lemma stored_seed_may_have_blanks_witness :
  generate_2fa_endpoint (Some (u " " ++ Samples.seed_a1 ++ [13; 10])) 65 66
  = generate_2fa_endpoint (Some Samples.seed_a1) 65 66
  /\ verify_2fa_endpoint PlainTables.tables (u "292002")
       (Some (u " " ++ Samples.seed_a1 ++ [13; 10])) 65
     = verify_2fa_endpoint PlainTables.tables (u "292002")
         (Some Samples.seed_a1) 65
  /\ Cron.main (u "/data/seed.txt") (Some (u " " ++ Samples.seed_a1 ++ [13; 10]))
       65 (u "1970-01-01 00:01:05")
     = Cron.main (u "/data/seed.txt") (Some Samples.seed_a1) 65
         (u "1970-01-01 00:01:05")
  /\ strip (read_text (u " " ++ Samples.seed_a1 ++ [13; 10])) = Samples.seed_a1.
Proof.
  apply (stored_seed_may_have_blanks PlainTables.tables (u " ") Samples.seed_a1
           [13; 10] (u "292002") (u "/data/seed.txt") (u "1970-01-01 00:01:05")
           65 66).
  - vm_compute. reflexivity.
  - vm_compute. reflexivity.
  - vm_compute. reflexivity.
  - vm_compute. discriminate.
Defined.

(** X18: the answers of [/verify-2fa].  An empty code is answered with status
    400 and "Missing code" before the seed file is looked at.  A code that is
    not empty is answered with status 500 and "Seed not decrypted yet" when
    there is no seed file; when the file holds a seed, the answer for an ASCII
    code is [{"valid": v}] with [v] true exactly when the code is that of the
    previous, the current or the next time step. *)
Theorem verify_2fa_replies (U : UnicodeData) (seed code : str) (now : Z) :
  is_seed_text seed = true ->
  forallb is_ascii code = true ->
  30 <= now < 30 * (2 ^ 64 - 1) ->
  (code = [] ->
   forall disk,
     verify_2fa_endpoint U code disk now = http_error 400 (u "Missing code"))
  /\ (code <> [] ->
      verify_2fa_endpoint U code None now = seed_not_decrypted
      /\ exists valid,
           verify_2fa_endpoint U code (Some seed) now = valid_reply valid
           /\ (valid = true <->
               exists t, time_step now - 1 <= t <= time_step now + 1
                         /\ generate_totp_code seed (30 * t) = Ok code)).
Proof.
  intros Hs Hc Hn. split.
  - intros -> disk. reflexivity.
  - intros Hne. split; [destruct code; [congruence | reflexivity] |].
    destruct (fromhex_seed seed Hs) as [seed_bytes [Hb _]].
    eexists. split; [apply (verify_on_seed U seed seed_bytes); assumption |].
    pose proof (WindowFacts.step_within now 1 ltac:(lia) ltac:(lia)) as Ht.
    rewrite existsb_exists. split.
    + intros [t [Hin He]]. apply in_window in Hin. apply str_eqb_eq in He.
      exists t. split; [exact Hin |].
      rewrite (WindowFacts.code_of_step seed seed_bytes) by (assumption || lia).
      congruence.
    + intros [t [Hin He]].
      rewrite (WindowFacts.code_of_step seed seed_bytes) in He
        by (assumption || lia).
      injection He as He.
      exists t. split; [apply in_window, Hin | apply str_eqb_eq; congruence].
Qed.

Lemma verify_2fa_replies_witness :
  (u "292002" = [] ->
   forall disk,
     verify_2fa_endpoint PlainTables.tables (u "292002") disk 65
     = http_error 400 (u "Missing code"))
  /\ (u "292002" <> [] ->
      verify_2fa_endpoint PlainTables.tables (u "292002") None 65
      = seed_not_decrypted
      /\ exists valid,
           verify_2fa_endpoint PlainTables.tables (u "292002")
             (Some Samples.seed_a1) 65 = valid_reply valid
           /\ (valid = true <->
               exists t, time_step 65 - 1 <= t <= time_step 65 + 1
                         /\ generate_totp_code Samples.seed_a1 (30 * t)
                            = Ok (u "292002"))).
Proof.
  apply (verify_2fa_replies PlainTables.tables Samples.seed_a1 (u "292002") 65).
  - vm_compute. reflexivity.
  - vm_compute. reflexivity.
  - lia.
Defined.

(** X19: what the cron job prints.  A run prints on the standard output only
    when the seed file exists and [generate_totp_code] succeeds on its
    stripped text; the line is then the timestamp, [" - 2FA Code: "] and six
    decimal digits, 19 characters after the timestamp, and the code is the one
    [/generate-2fa] answers with at the same reading of the clock.  Without a
    seed file the run prints the path on the standard error; when generating
    fails it prints the exception there; in both cases [/generate-2fa] answers
    "Seed not decrypted yet". *)
Theorem cron_prints_the_served_code (seed_file_path timestamp : str)
  (disk : storage) (now later : Z) :
  match Cron.main seed_file_path disk now timestamp with
  | Cron.stdout line =>
      exists content code,
        disk = Some content
        /\ generate_totp_code (strip (read_text content)) now = Ok code
        /\ line = timestamp ++ u " - 2FA Code: " ++ code
        /\ length code = 6%nat
        /\ forallb is_digit code = true
        /\ length line = (length timestamp + 19)%nat
        /\ generate_2fa_endpoint disk now later
           = code_reply code (get_totp_remaining_seconds later)
  | Cron.stderr line =>
      disk = None
      /\ line = u "Error: Seed file not found at " ++ seed_file_path
      /\ generate_2fa_endpoint disk now later = seed_not_decrypted
  | Cron.stderr_exception e =>
      exists content,
        disk = Some content
        /\ generate_totp_code (strip (read_text content)) now = Raise e
        /\ generate_2fa_endpoint disk now later = seed_not_decrypted
  end.
Proof.
  unfold Cron.main, generate_2fa_endpoint.
  destruct disk as [content |]; [| auto]. cbv zeta.
  destruct (generate_totp_code (strip (read_text content)) now) as [code | e]
    eqn:E.
  - exists content, code.
    destruct (generate_totp_code_shape _ _ _ E) as [Hl Hd].
    repeat split; try assumption.
    rewrite !length_app, Hl.
    change (length (u " - 2FA Code: ")) with 13%nat. lia.
  - exists content. auto.
Qed.

Example cron_line :
  Cron.main (u "/data/seed.txt") (Some (Samples.seed_a1 ++ [10])) 65
    (u "1970-01-01 00:01:05")
  = Cron.stdout (u "1970-01-01 00:01:05 - 2FA Code: 292002").
Proof. vm_compute. reflexivity. Qed.

End EndpointFacts.

(* ================================================================== *)
(** ** The proof of a commit *)
(* ================================================================== *)

Module ScriptFacts.
Import Py Spec Cryptography Config CryptoUtils GenerateProof CommitHash Text.
Import PyFacts TextFacts.

Lemma sign_message_length (B : Backend) (message : str) (message_bytes : bytes)
  (key : private_key B) (r : entropy) :
  encode_utf8 message = Ok message_bytes ->
  0 <= max_pss_salt_length (private_key_size B key) SHA256 ->
  exists signature,
    sign_message B message key r = Ok signature
    /\ len signature = octets (private_key_size B key).
Proof.
  intros He Hs. unfold sign_message, sign. rewrite He. cbn [bind].
  assert (Hm : max_pss_salt_length (private_key_size B key) SHA256
               <= octets (private_key_size B key) - digest_size SHA256 - 2).
  { unfold max_pss_salt_length, octets.
    pose proof (Z.div_le_mono (private_key_size B key + 6)
                  (private_key_size B key + 7) 8 ltac:(lia) ltac:(lia)).
    lia. }
  replace (octets (private_key_size B key) - digest_size SHA256 - 2 <? 0)
    with false by lia.
  replace (max_pss_salt_length (private_key_size B key) SHA256 <? 0)
    with false by lia.
  rewrite Z.ltb_irrefl. cbn [orb]. eexists. split; [reflexivity |].
  apply pss_sign_length. unfold max_pss_salt_length in *. lia.
Qed.

(** X20: the proof can be read back.  When the issuer's key is long enough
    for a signature of the holder's key to fit the payload bound of
    RSA/OAEP-SHA256, [main] prints the commit hash it was given and, as the
    encrypted signature, a well-formed base64 text of four characters for
    every three octets of the issuer's modulus (no line break in it).
    Decoding that text and decrypting it with the issuer's private key gives
    the signature that [sign_message] made of the commit hash, which is as
    long as the holder's modulus. *)
Theorem proof_is_recoverable (B : Backend) (commit_hash : str)
  (message_bytes : bytes) (student_private_key issuer_private_key : private_key B)
  (r_sign r_encrypt : entropy) :
  encode_utf8 commit_hash = Ok message_bytes ->
  0 <= max_pss_salt_length (private_key_size B student_private_key) SHA256 ->
  octets (private_key_size B student_private_key)
  <= oaep_max_payload (private_key_size B issuer_private_key) SHA256 ->
  exists signature ciphertext text,
    sign_message B commit_hash student_private_key r_sign = Ok signature
    /\ len signature = octets (private_key_size B student_private_key)
    /\ main B commit_hash (Some student_private_key)
         (Some (public_of B issuer_private_key)) r_sign r_encrypt
       = Printed commit_hash text
    /\ well_formed_base64 text = true
    /\ len text = 4 * ((octets (private_key_size B issuer_private_key) + 2) / 3)
    /\ Base64.b64decode text = Ok ciphertext
    /\ decrypt B issuer_private_key ciphertext (OAEP (MGF1 SHA256) SHA256 None)
       = Ok signature.
Proof.
  intros He Hs Hfit.
  destruct (sign_message_length B commit_hash message_bytes student_private_key
              r_sign He Hs) as [signature [Hsig Hlen]].
  set (pk := public_of B issuer_private_key).
  set (ciphertext := oaep_encrypt B pk r_encrypt (MGF1 SHA256) SHA256 None
                       signature).
  assert (Hpk : public_key_size B pk = private_key_size B issuer_private_key)
    by apply public_of_size.
  assert (Henc : encrypt_with_public_key B signature pk r_encrypt = Ok ciphertext).
  { unfold encrypt_with_public_key, encrypt. rewrite Hpk, Hlen.
    replace (oaep_max_payload (private_key_size B issuer_private_key) SHA256
             <? octets (private_key_size B student_private_key))
      with false by lia.
    reflexivity. }
  assert (Hct : len ciphertext = octets (private_key_size B issuer_private_key)).
  { unfold ciphertext.
    rewrite oaep_encrypt_length; [rewrite Hpk; reflexivity |].
    rewrite Hpk, Hlen. exact Hfit. }
  destruct (RoundTrip.b64decode_b64encode ciphertext) as [Htext Hback].
  destruct (EncodedFacts.b64encode_well_formed ciphertext) as [Hwf Hl].
  exists signature, ciphertext, (map b2z (Base64.b64encode ciphertext)).
  split; [exact Hsig |]. split; [exact Hlen |].
  split.
  { unfold main, run. rewrite Hsig. fold pk. rewrite Henc, Htext. reflexivity. }
  split; [exact Hwf |]. split; [rewrite Hl, Hct; reflexivity |].
  split; [exact Hback |].
  unfold decrypt. rewrite Hct, Z.eqb_refl. cbn [negb].
  unfold ciphertext, pk. rewrite oaep_decrypt_encrypt; [reflexivity |].
  rewrite Hlen. exact Hfit.
Qed.

Lemma proof_is_recoverable_witness :
  exists signature ciphertext text,
    sign_message Framing.backend Samples.sample_commit Framing.key4096 []
    = Ok signature
    /\ len signature
       = octets (private_key_size Framing.backend Framing.key4096)
    /\ main Framing.backend Samples.sample_commit (Some Framing.key4096)
         (Some (public_of Framing.backend {| Framing.bits := 8192 |})) [] []
       = Printed Samples.sample_commit text
    /\ well_formed_base64 text = true
    /\ len text
       = 4 * ((octets (private_key_size Framing.backend
                         {| Framing.bits := 8192 |}) + 2) / 3)
    /\ Base64.b64decode text = Ok ciphertext
    /\ decrypt Framing.backend {| Framing.bits := 8192 |} ciphertext
         (OAEP (MGF1 SHA256) SHA256 None)
       = Ok signature.
Proof.
  apply (proof_is_recoverable Framing.backend Samples.sample_commit
           (map z2b Samples.sample_commit) Framing.key4096
           {| Framing.bits := 8192 |} [] []).
  - vm_compute. reflexivity.
  - vm_compute. discriminate.
  - vm_compute. discriminate.
Defined.

(** X21: the commit hash is the output of git without the white space around
    it.  Whatever [git log] writes, [get_commit_hash] returns the part of it
    between the white space at its two ends, the line end that git adds
    included: the result is empty or neither begins nor ends with white
    space, and the script goes on with it as [main] does.  When git fails the
    script exits with status 1, whatever keys are there. *)
Theorem commit_hash_is_trimmed_output (B : Backend) (output : str)
  (student_private : option (private_key B))
  (instructor_public : option (public_key B)) (r_sign r_encrypt : entropy) :
  (exists before commit_hash after,
     get_commit_hash (Some output) = inl commit_hash
     /\ output = before ++ commit_hash ++ after
     /\ forallb is_whitespace before = true
     /\ forallb is_whitespace after = true
     /\ (commit_hash = []
         \/ is_whitespace (hd 0 commit_hash) = false
            /\ is_whitespace (last commit_hash 0) = false)
     /\ script B (Some output) student_private instructor_public r_sign r_encrypt
        = main B commit_hash student_private instructor_public r_sign r_encrypt)
  /\ script B None student_private instructor_public r_sign r_encrypt = Exit 1.
Proof.
  split; [| reflexivity].
  destruct (strip_decompose output) as [before [after [E [H1 [H2 H3]]]]].
  exists before, (strip output), after.
  repeat split; try assumption; reflexivity.
Qed.

Example commit_hash_of_git_output :
  get_commit_hash (Some (Samples.sample_commit ++ [10]))
  = inl Samples.sample_commit.
Proof. vm_compute. reflexivity. Qed.

End ScriptFacts.
